(** * Inter-rater variability of spinal levels: figure and COV table

    A shallow embedding of
    [inter-rater_variability/03a_generate_figure_inter_rater_variablity-PMJ_COV.py].

    Python floats are IEEE-754 binary64 numbers and are modelled by Rocq's
    primitive floats, so every arithmetic expression of the script is
    evaluated here exactly as Python evaluates it.  A pandas DataFrame of
    measurements is a list of records (one per row, in row order); the
    pivoted table is a list of rows keyed by spinal level, each row an
    association list from column key to cell.  Exceptions are an error
    monad; printing and the two written files are events of a writer on top
    of it. *)

From Stdlib Require Import ZArith List String Ascii Bool Lia Floats.
From Stdlib Require Import Sorted.
From Stdlib Require Uint63.
Import ListNotations.

Set Warnings "-inexact-float".

Local Open Scope string_scope.
Local Open Scope list_scope.

(** ** Exceptions and the error monad *)

Inductive exn : Type :=
| TypeError (msg : string)
| ValueError (msg : string)
| KeyError (key : string)
| SystemExit (code : Z).

Inductive res (A : Type) : Type :=
| Ok (a : A)
| Raise (e : exn).

Arguments Ok {A} a.
Arguments Raise {A} e.

Definition bind {A B : Type} (m : res A) (k : A -> res B) : res B :=
  match m with
  | Ok a => k a
  | Raise e => Raise e
  end.

Notation "x <- m ;; k" := (bind m (fun x => k))
  (at level 100, m at next level, right associativity).

(** A Python [for] loop whose body updates a state and may raise. *)
Fixpoint for_each {A S : Type} (body : A -> S -> res S) (l : list A) (s : S)
  : res S :=
  match l with
  | [] => Ok s
  | a :: l' => s' <- body a s ;; for_each body l' s'
  end.

(** ** Python numbers *)

(** [int] to [float] conversion, exact for the small integers of the script. *)
Definition float_of_int (z : Z) : float :=
  match z with
  | Z0 => 0%float
  | Zpos _ => of_uint63 (Uint63.of_Z z)
  | Zneg p => (- of_uint63 (Uint63.of_Z (Zpos p)))%float
  end.

(** The builtins [min(a, b)] and [max(a, b)]: the first argument is kept
    unless the second compares strictly better. *)
Definition pymin (a b : float) : float := if (b <? a)%float then b else a.
Definition pymax (a b : float) : float := if (a <? b)%float then b else a.

(** [range(start, stop, step)] for a positive step. *)
Fixpoint range_from (n : nat) (start step : Z) : list Z :=
  match n with
  | O => []
  | S n' => start :: range_from n' (start + step) step
  end.

Definition range (start stop step : Z) : list Z :=
  range_from (Z.to_nat ((stop - start + step - 1) / step)) start step.

(** ** pandas reductions

    pandas treats NaN as the missing value.  With [skipna=True] (the
    default) a reduction runs over the non-NaN values only. *)

Definition isna (x : float) : bool := is_nan x.

Definition dropna (xs : list float) : list float :=
  filter (fun x => negb (isna x)) xs.

Definition fsum (xs : list float) : float :=
  fold_left PrimFloat.add xs 0%float.

Definition count (xs : list float) : float :=
  float_of_int (Z.of_nat (List.length xs)).

(** [Series.min()] and [Series.max()]: NaN on an empty or all-NaN column. *)
Definition series_min (xs : list float) : float :=
  match dropna xs with
  | [] => nan
  | x :: t => fold_left (fun m y => if (y <? m)%float then y else m) t x
  end.

Definition series_max (xs : list float) : float :=
  match dropna xs with
  | [] => nan
  | x :: t => fold_left (fun m y => if (m <? y)%float then y else m) t x
  end.

(** [mean(skipna=True)]: the sum of the non-missing values over their
    number; with no value left this is [0 / 0], that is NaN. *)
Definition nanmean (xs : list float) : float :=
  let ys := dropna xs in
  (fsum ys / count ys)%float.

(** [std(skipna=True, ddof=1)]: NaN unless at least two values are left. *)
Definition nanvar (xs : list float) : float :=
  let ys := dropna xs in
  if (List.length ys <=? 1)%nat then nan
  else
    let avg := (fsum ys / count ys)%float in
    let sqr := fsum (map (fun y => ((avg - y) * (avg - y))%float) ys) in
    (sqr / float_of_int (Z.of_nat (List.length ys) - 1))%float.

Definition nanstd (xs : list float) : float := sqrt (nanvar xs).

(** ** Module constants *)

Definition dict_get {V : Type} (d : list (string * V)) (k : string) : res V :=
  match find (fun kv => fst kv =? k) d with
  | Some kv => Ok (snd kv)
  | None => Raise (KeyError k)
  end.

Definition keys {V : Type} (d : list (string * V)) : list string := map fst d.
Definition values {V : Type} (d : list (string * V)) : list V := map snd d.

Definition SUBJECT_TO_AXIS : list (string * Z) :=
  [ ("sub-barcelona01", 1%Z);
    ("sub-brnoUhb03", 2%Z);
    ("sub-amu02", 3%Z);
    ("sub-007", 4%Z);
    ("sub-010", 5%Z) ].

Definition SUBJECT_TO_XTICKS : list (string * string) :=
  [ ("sub-barcelona01", "sub-barcelona01");
    ("sub-brnoUhb03", "sub-brnoUhb03");
    ("sub-amu02", "sub-amu02");
    ("sub-007", "sub-007_ses-headNormal");
    ("sub-010", "sub-010_ses-headUp") ].

Definition LIST_OF_RATER : list string :=
  [ "rater1"; "rater2"; "rater3"; "rater4" ].

Definition RATER_XOFFSET : list (string * float) :=
  [ ("rater1", (-0.275)%float);
    ("rater2", (-0.125)%float);
    ("rater3", 0.025%float);
    ("rater4", 0.175%float) ].

Definition RATER_COLOR : list (string * string) :=
  [ ("rater1", "red"); ("rater2", "green");
    ("rater3", "blue"); ("rater4", "orange") ].

(** ** The measurement DataFrame *)

(** One row of a per-file CSV as read by [pd.read_csv]. *)
Record CsvRow : Type := mkCsvRow {
  csv_fname : string;
  csv_spinal_level : Z;
  csv_distance_from_pmj_start : float;
  csv_distance_from_pmj_end : float;
  csv_height : float
}.

(** One row of [df] once [main] has added the [rater] and [subject] columns. *)
Record Measurement : Type := mkMeasurement {
  fname : string;
  spinal_level : Z;
  distance_from_pmj_start : float;
  distance_from_pmj_end : float;
  height : float;
  rater : string;
  subject : string
}.

Definition DataFrame : Type := list Measurement.

(** [Series.unique()]: distinct values in order of first appearance. *)
Fixpoint unique_by {A : Type} (eqb : A -> A -> bool) (l : list A) : list A :=
  match l with
  | [] => []
  | x :: t => x :: filter (fun y => negb (eqb y x)) (unique_by eqb t)
  end.

Definition unique (l : list Z) : list Z := unique_by Z.eqb l.

Definition levels (df : DataFrame) : list Z := unique (map spinal_level df).

(** [df[(df['subject'] == subject) & (df['rater'] == rater)
        & (df['spinal_level'] == level)]]. *)
Definition matching (df : DataFrame) (subj rat : string) (level : Z)
  : DataFrame :=
  filter (fun m => (subject m =? subj) && (rater m =? rat)
                   && (spinal_level m =? level)%Z) df.

Definition empty {A : Type} (l : list A) : bool :=
  match l with [] => true | _ => false end.

(** [float(series)]: defined on a one-element Series only. *)
Definition float_of_series (xs : list float) : res float :=
  match xs with
  | [x] => Ok x
  | _ => Raise (TypeError "cannot convert the series to <class 'float'>")
  end.

(** Line 196: [mean = start + height / 2]. *)
Definition midpoint (start h : float) : float := (start + h / 2)%float.

(** ** The figure (matplotlib) *)

Inductive artist : Type :=
| Rectangle (x y width h : float) (color : string) (alpha : float)
| Text (x y : float) (label : Z)
| Line2D (xdata ydata : list float) (color : string).

Record Axes : Type := mkAxes {
  artists : list artist;          (* patches, texts and lines, in draw order *)
  xlim : float * float;
  ylim : float * float;           (* (bottom, top) *)
  xlabel : string;
  ylabel : string;
  xticks : list Z;
  xticklabels : list string;
  yticks : list Z;
  legend : list (string * string);  (* (color, label) handles *)
  title : string
}.

Definition new_axes : Axes :=
  mkAxes [] (0%float, 1%float) (0%float, 1%float) EmptyString EmptyString
         [] [] [] [] EmptyString.

Definition add_artists (ax : Axes) (new : list artist) : Axes :=
  mkAxes (artists ax ++ new) (xlim ax) (ylim ax) (xlabel ax) (ylabel ax)
         (xticks ax) (xticklabels ax) (yticks ax) (legend ax) (title ax).

(** matplotlib refuses a limit that is NaN or infinite. *)
Definition validate_limit (x : float) : res float :=
  if is_finite x then Ok x
  else Raise (ValueError "Axis limits cannot be NaN or Inf").

(** [matplotlib.transforms.nonsingular(vmin, vmax, expander=0.05)], which
    every [set_xlim] and [set_ylim] applies through the axis locator: an
    interval that is empty, or narrow up to rounding, is widened; any other
    interval comes back in increasing order, unchanged. *)
Definition nonsingular (vmin vmax : float) : float * float :=
  if negb (is_finite vmin) || negb (is_finite vmax) then
    ((-0.05)%float, 0.05%float)
  else
    let swapped := (vmax <? vmin)%float in
    let lo := if swapped then vmax else vmin in
    let hi := if swapped then vmin else vmax in
    let maxabsvalue := pymax (abs lo) (abs hi) in
    if (maxabsvalue <? (1e6 / 1e-15) * 0x1p-1022)%float then
      ((-0.05)%float, 0.05%float)
    else if (hi - lo <=? maxabsvalue * 1e-15)%float then
      if (hi =? 0)%float && (lo =? 0)%float then ((-0.05)%float, 0.05%float)
      else ((lo - 0.05 * abs lo)%float, (hi + 0.05 * abs hi)%float)
    else (lo, hi).

(** The view interval [set_xlim(v0, v1)] or [set_ylim(v0, v1)] ends with:
    both limits validated, the interval made non-singular, and the order
    of the arguments kept (a first limit above the second inverts the
    axis). *)
Definition set_lim (v0 v1 : float) : res (float * float) :=
  v0 <- validate_limit v0 ;;
  v1 <- validate_limit v1 ;;
  let reverse := (v1 <? v0)%float in
  let ab := nonsingular v0 v1 in
  let lo := pymin (fst ab) (snd ab) in
  let hi := pymax (fst ab) (snd ab) in
  Ok (if reverse then (hi, lo) else (lo, hi)).

Definition set_xlim (left right : float) (ax : Axes) : res Axes :=
  lim <- set_lim left right ;;
  Ok (mkAxes (artists ax) lim (ylim ax) (xlabel ax) (ylabel ax)
             (xticks ax) (xticklabels ax) (yticks ax) (legend ax) (title ax)).

Definition set_ylim (bottom top : float) (ax : Axes) : res Axes :=
  lim <- set_lim bottom top ;;
  Ok (mkAxes (artists ax) (xlim ax) lim (xlabel ax) (ylabel ax)
             (xticks ax) (xticklabels ax) (yticks ax) (legend ax) (title ax)).

Definition get_ylim (ax : Axes) : float * float := ylim ax.

Definition set_labels (xl yl : string) (ax : Axes) : Axes :=
  mkAxes (artists ax) (xlim ax) (ylim ax) xl yl
         (xticks ax) (xticklabels ax) (yticks ax) (legend ax) (title ax).

(** [Axis.set_view_interval(vmin, vmax)] as [set_xticks] and [set_yticks]
    call it: the view limits never shrink, they grow to hold [vmin] and
    [vmax], and an inverted axis stays inverted. *)
Definition set_view_interval (lim : float * float) (vmin vmax : float)
  : float * float :=
  let oldmin := fst lim in
  let oldmax := snd lim in
  if (oldmin <? oldmax)%float then
    (pymin (pymin vmin vmax) oldmin, pymax (pymax vmin vmax) oldmax)
  else
    (pymax (pymax vmin vmax) oldmin, pymin (pymin vmin vmax) oldmax).

(** Setting tick locations widens the view limits so that every tick is
    visible: [set_view_interval(min(ticks), max(ticks))]. *)
Definition show_ticks (lim : float * float) (ticks : list Z) : float * float :=
  match ticks with
  | [] => lim
  | t :: ts =>
    set_view_interval lim (float_of_int (fold_left Z.min ts t))
                          (float_of_int (fold_left Z.max ts t))
  end.

Definition set_xticks (ticks : list Z) (ax : Axes) : Axes :=
  mkAxes (artists ax) (show_ticks (xlim ax) ticks) (ylim ax)
         (xlabel ax) (ylabel ax)
         ticks (xticklabels ax) (yticks ax) (legend ax) (title ax).

Definition set_xticklabels (labels : list string) (ax : Axes) : Axes :=
  mkAxes (artists ax) (xlim ax) (ylim ax) (xlabel ax) (ylabel ax)
         (xticks ax) labels (yticks ax) (legend ax) (title ax).

Definition set_yticks (ticks : list Z) (ax : Axes) : Axes :=
  mkAxes (artists ax) (xlim ax) (show_ticks (ylim ax) ticks)
         (xlabel ax) (ylabel ax)
         (xticks ax) (xticklabels ax) ticks (legend ax) (title ax).

Definition set_legend (handles : list (string * string)) (ax : Axes) : Axes :=
  mkAxes (artists ax) (xlim ax) (ylim ax) (xlabel ax) (ylabel ax)
         (xticks ax) (xticklabels ax) (yticks ax) handles (title ax).

Definition set_title (t : string) (ax : Axes) : Axes :=
  mkAxes (artists ax) (xlim ax) (ylim ax) (xlabel ax) (ylabel ax)
         (xticks ax) (xticklabels ax) (yticks ax) (legend ax) t.

(** An axis whose bottom limit exceeds its top limit is drawn upside down:
    smaller values appear higher. *)
Definition inverted (ax : Axes) : bool :=
  (snd (ylim ax) <? fst (ylim ax))%float.

(** Lines 93-122: the rectangle of one (subject, rater, level), the level
    number written at its upper edge, and the dashed line at its vertical
    midpoint. *)
Definition shapes (x start h : float) (color : string) (level : Z)
  : list artist :=
  [ Rectangle x start 0.1%float h color 0.5%float;
    Text (x + 0.05)%float start level;
    Line2D [x; (x + 0.1)%float] [midpoint start h; midpoint start h] "black" ].

(** Body of the three nested loops of [generate_figure] (lines 82-122). *)
Definition plot_level (df : DataFrame) (subj rat : string) (level : Z)
  (ax : Axes) : res Axes :=
  let row := matching df subj rat level in
  if empty row then Ok ax
  else
    start <- float_of_series (map distance_from_pmj_end row) ;;
    h <- float_of_series (map height row) ;;
    axis <- dict_get SUBJECT_TO_AXIS subj ;;
    offset <- dict_get RATER_XOFFSET rat ;;
    color <- dict_get RATER_COLOR rat ;;
    Ok (add_artists ax
          (shapes (float_of_int axis + offset)%float start h color level)).

(** Lines 76-122: subjects, then raters, then the observed levels. *)
Definition plot_levels (df : DataFrame) (ax : Axes) : res Axes :=
  for_each (fun subj =>
    for_each (fun rat =>
      for_each (fun level => plot_level df subj rat level) (levels df))
      LIST_OF_RATER)
    (keys SUBJECT_TO_AXIS) ax.

(** Lines 126-127: the two arguments of the first [set_ylim]. *)
Definition ylim_low (df : DataFrame) : float :=
  (pymin (series_min (map distance_from_pmj_end df))
         (series_min (map distance_from_pmj_start df)) * 0.9)%float.

Definition ylim_high (df : DataFrame) : float :=
  (pymax (series_max (map distance_from_pmj_end df))
         (series_max (map distance_from_pmj_start df)) * 1.05)%float.

(** Lines 71-160: everything [generate_figure] does to the axes. *)
Definition draw_figure (df : DataFrame) : res Axes :=
  ax <- plot_levels df new_axes ;;
  ax <- set_xlim 0.5%float 5.5%float ax ;;
  ax <- set_ylim (ylim_low df) (ylim_high df) ax ;;
  let ax := set_labels "Subject" "Distance from PMJ [mm]" ax in
  let ax := set_xticks (values SUBJECT_TO_AXIS) ax in
  let ax := set_xticklabels (values SUBJECT_TO_XTICKS) ax in
  let ax := set_yticks (range 40 170 10) ax in
  ax <- set_ylim (snd (get_ylim ax)) (fst (get_ylim ax)) ax ;;
  color_handles <-
    for_each (fun rat hs => c <- dict_get RATER_COLOR rat ;; Ok (hs ++ [(c, rat)]))
             LIST_OF_RATER [] ;;
  let ax := set_legend color_handles ax in
  Ok (set_title "Spinal Level Inter-Rater Variability - Distance from PMJ" ax).

(** ** The midpoint table (pandas) *)

(** A cell of an object column: a float, or a Python string. *)
Inductive cell : Type :=
| Num (x : float)
| Str (s : string).

Definition is_str (c : cell) : bool :=
  match c with Str _ => true | Num _ => false end.

(** One dictionary appended to [results]. *)
Record Entry : Type := mkEntry {
  e_subject : string;
  e_rater : string;
  e_spinal_level : Z;
  e_mean : cell
}.

(** Body of the three nested loops of [compute_mean_and_COV]
    (lines 186-197). *)
Definition collect_level (df : DataFrame) (subj rat : string) (level : Z)
  (results : list Entry) : res (list Entry) :=
  let row := matching df subj rat level in
  if empty row then
    Ok (results ++ [mkEntry subj rat level (Str "n/a")])
  else
    start <- float_of_series (map distance_from_pmj_end row) ;;
    h <- float_of_series (map height row) ;;
    Ok (results ++ [mkEntry subj rat level (Num (midpoint start h))]).

(** Lines 178-197. *)
Definition collect_midpoints (df : DataFrame) : res (list Entry) :=
  for_each (fun subj =>
    for_each (fun rat =>
      for_each (fun level => collect_level df subj rat level) (levels df))
      LIST_OF_RATER)
    (keys SUBJECT_TO_AXIS) [].

(** Column labels are pairs: [(subject, rater)] after the pivot, and
    [(name, '')] for a column added under a plain string label. *)
Definition ColKey : Type := (string * string)%type.

Definition colkey_eqb (a b : ColKey) : bool :=
  (fst a =? fst b) && (snd a =? snd b).

Definition Row : Type := list (ColKey * cell).

Record Table : Type := mkTable {
  columns : list ColKey;
  rows : list (Z * Row)            (* index label, then the row's cells *)
}.

Definition row_cell (r : Row) (c : ColKey) : option cell :=
  option_map snd (find (fun kc => colkey_eqb (fst kc) c) r).

Definition table_cell (t : Table) (level : Z) (c : ColKey) : option cell :=
  match find (fun lr => (fst lr =? level)%Z) (rows t) with
  | Some lr => row_cell (snd lr) c
  | None => None
  end.

Definition index (t : Table) : list Z := map fst (rows t).

Fixpoint insert {A : Type} (leb : A -> A -> bool) (x : A) (l : list A)
  : list A :=
  match l with
  | [] => [x]
  | y :: t => if leb x y then x :: l else y :: insert leb x t
  end.

Definition sort {A : Type} (leb : A -> A -> bool) (l : list A) : list A :=
  fold_right (insert leb) [] l.

Definition entry_col (e : Entry) : ColKey := (e_subject e, e_rater e).

Definition entry_at (level : Z) (c : ColKey) (e : Entry) : bool :=
  (e_spinal_level e =? level)%Z && colkey_eqb (entry_col e) c.

Fixpoint has_duplicates (es : list Entry) : bool :=
  match es with
  | [] => false
  | e :: t => existsb (entry_at (e_spinal_level e) (entry_col e)) t
              || has_duplicates t
  end.

(** The value [pivot] puts at (level, column): the entry's value, NaN
    where no entry has that position. *)
Definition pivot_cell (results : list Entry) (level : Z) (c : ColKey) : cell :=
  match find (entry_at level c) results with
  | Some e => e_mean e
  | None => Num nan
  end.

(** Lines 200-203: [pd.DataFrame(results).pivot(index='spinal_level',
    columns=['subject', 'rater'], values='mean')].  An empty list makes a
    frame with no columns at all; two entries at one position cannot be
    reshaped.  The index labels come out sorted; the column labels, given
    as a list of two keys, keep the order in which the (subject, rater)
    pairs first appear in the entries. *)
Definition pivot (results : list Entry) : res Table :=
  match results with
  | [] => Raise (KeyError "spinal_level")
  | _ =>
    if has_duplicates results then
      Raise (ValueError "Index contains duplicate entries, cannot reshape")
    else
      let idx := sort Z.leb (unique (map e_spinal_level results)) in
      let cols := unique_by colkey_eqb (map entry_col results) in
      Ok (mkTable cols
            (map (fun l => (l, map (fun c => (c, pivot_cell results l c)) cols))
                 idx))
  end.

(** [df[key]] on the column MultiIndex: the columns whose first label is
    [key], in column order. *)
Definition select (key : string) (r : Row) : list cell :=
  map snd (filter (fun kc => fst (fst kc) =? key) r).

Definition getitem (key : string) (t : Table) : res (list (list cell)) :=
  if existsb (fun c => fst c =? key) (columns t)
  then Ok (map (fun lr => select key (snd lr)) (rows t))
  else Raise (KeyError key).

(** [df[[key1, key2, ...]]]. *)
Definition getitems (ks : list string) (t : Table) : res (list (list cell)) :=
  _ <- for_each (fun k (_ : unit) => _ <- getitem k t ;; Ok tt) ks tt ;;
  Ok (map (fun lr => flat_map (fun k => select k (snd lr)) ks) (rows t)).

(** [df[key] = series], for a label that is not yet a column (the script
    only ever adds new labels): the column is appended. *)
Definition setitem (key : ColKey) (vals : list float) (t : Table) : Table :=
  mkTable (columns t ++ [key])
          (map (fun lrv => (fst (fst lrv), snd (fst lrv) ++ [(key, Num (snd lrv))]))
               (combine (rows t) vals)).

(** The float cells of a row. *)
Definition numeric (r : list cell) : list float :=
  flat_map (fun c => match c with Num x => [x] | Str _ => [] end) r.

(** A row-wise reduction ([axis=1]) over a block of columns.  The block is
    reduced in one call.  When a cell of the block holds a string the
    reduction cannot add it to a float: pandas 2 raises [TypeError];
    pandas 1 catches that error, drops the non-numeric columns (all of
    them: the pivoted values form one object block) and reduces what is
    left, which is nothing. *)
Inductive pandas_version : Type := Pandas1 | Pandas2.

Definition reduce_rows (v : pandas_version) (f : list float -> float)
  (block : list (list cell)) : res (list float) :=
  if existsb (existsb is_str) block then
    match v with
    | Pandas2 => Raise (TypeError "could not convert string to float: 'n/a'")
    | Pandas1 => Ok (map (fun _ => f []) block)
    end
  else Ok (map (fun r => f (numeric r)) block).

Definition cov_label (subj : string) : string := "COV_" ++ subj.

(** Line 207. *)
Definition add_cov (v : pandas_version) (subj : string) (t : Table)
  : res Table :=
  block <- getitem subj t ;;
  sd <- reduce_rows v nanstd block ;;
  block' <- getitem subj t ;;
  mn <- reduce_rows v nanmean block' ;;
  Ok (setitem (cov_label subj, EmptyString)
              (map (fun sm => (fst sm / snd sm * 100)%float) (combine sd mn))
              t).

(** Line 210. *)
Definition add_cov_mean (v : pandas_version) (t : Table) : res Table :=
  block <- getitems (map cov_label (keys SUBJECT_TO_AXIS)) t ;;
  mn <- reduce_rows v nanmean block ;;
  Ok (setitem ("COV_mean", EmptyString) mn t).

(** Lines 178-210: the table handed to [to_csv]. *)
Definition cov_table (v : pandas_version) (df : DataFrame) : res Table :=
  results <- collect_midpoints df ;;
  t <- pivot results ;;
  t <- for_each (add_cov v) (keys SUBJECT_TO_AXIS) t ;;
  add_cov_mean v t.

(** [to_csv] with its defaults: a NaN cell is written as the empty field
    ([na_rep='']), a string as itself, a number as its decimal form. *)
Inductive csv_field : Type :=
| FieldEmpty
| FieldNumber (x : float)
| FieldText (s : string).

Definition render (c : cell) : csv_field :=
  match c with
  | Num x => if isna x then FieldEmpty else FieldNumber x
  | Str s => FieldText s
  end.

(** The written file: the header labels, then one line per index label
    with the field written under each column label. *)
Record CsvTable : Type := mkCsvTable {
  csv_header : list ColKey;
  csv_rows : list (Z * list (ColKey * csv_field))
}.

Definition to_csv_table (t : Table) : CsvTable :=
  mkCsvTable (columns t)
             (map (fun lr =>
                     (fst lr, map (fun kc => (fst kc, render (snd kc))) (snd lr)))
                  (rows t)).

Definition csv_cell (f : CsvTable) (level : Z) (c : ColKey)
  : option csv_field :=
  match find (fun lr => (fst lr =? level)%Z) (csv_rows f) with
  | Some lr =>
    option_map snd (find (fun kc => colkey_eqb (fst kc) c) (snd lr))
  | None => None
  end.

(** ** Output: printed lines and written files *)

Inductive event : Type :=
| Print (line : string)
| SaveFig (path : string) (ax : Axes) (dpi : Z)
| WriteCsv (path : string) (t : CsvTable).

(** A computation that emits events and then returns or raises. *)
Definition Py (A : Type) : Type := (list event * res A)%type.

Definition ret {A : Type} (a : A) : Py A := ([], Ok a).

Definition pbind {A B : Type} (m : Py A) (k : A -> Py B) : Py B :=
  match snd m with
  | Ok a => (fst m ++ fst (k a), snd (k a))
  | Raise e => (fst m, Raise e)
  end.

Notation "x <~ m ;; k" := (pbind m (fun x => k))
  (at level 100, m at next level, right associativity).

Definition lift {A : Type} (r : res A) : Py A := ([], r).
Definition emit (e : event) : Py unit := ([e], Ok tt).
Definition print (line : string) : Py unit := emit (Print line).
Definition sys_exit {A : Type} (code : Z) : Py A := ([], Raise (SystemExit code)).

(** [os.path.join(dir_path, name)] for a relative [name]: one separator
    between the two, unless [dir_path] already ends with one (the root
    directory) or is empty. *)
Fixpoint ends_with_sep (s : string) : bool :=
  match s with
  | EmptyString => true
  | String c EmptyString => Ascii.eqb c "/"
  | String _ s' => ends_with_sep s'
  end.

Definition path_join (dir name : string) : string :=
  if ends_with_sep dir then dir ++ name else dir ++ "/" ++ name.

Definition fname_figure : string := "figure_inter_rater_variability.png".
Definition fname_csv : string := "table_inter_rater_variability.csv".

Definition generate_figure (df : DataFrame) (dir_path : string) : Py unit :=
  ax <~ lift (draw_figure df) ;;
  _ <~ emit (SaveFig (path_join dir_path fname_figure) ax 300) ;;
  print ("Figure saved to " ++ path_join dir_path fname_figure).

Definition compute_mean_and_COV (v : pandas_version) (df : DataFrame)
  (dir_path : string) : Py unit :=
  t <~ lift (cov_table v df) ;;
  _ <~ emit (WriteCsv (path_join dir_path fname_csv) (to_csv_table t)) ;;
  print ("Table saved to " ++ path_join dir_path fname_csv).

(** ** [main] *)

(** [str.split(sep)] for a one-character separator. *)
Fixpoint split (sep : ascii) (s : string) : list string :=
  match s with
  | EmptyString => [EmptyString]
  | String c s' =>
    if Ascii.eqb c sep then EmptyString :: split sep s'
    else match split sep s' with
         | [] => [String c EmptyString]
         | h :: t => String c h :: t
         end
  end.

(** Line 250: [x.split('_')[-1].split('.')[0]]. *)
Definition rater_of_fname (x : string) : string :=
  hd EmptyString (split "." (last (split "_" x) EmptyString)).

(** Line 252: [x.split('_')[0]]. *)
Definition subject_of_fname (x : string) : string :=
  hd EmptyString (split "_" x).

Definition add_identity (r : CsvRow) : Measurement :=
  mkMeasurement (csv_fname r) (csv_spinal_level r)
                (csv_distance_from_pmj_start r) (csv_distance_from_pmj_end r)
                (csv_height r)
                (rater_of_fname (csv_fname r)) (subject_of_fname (csv_fname r)).

(** [pd.concat(frames)]: the rows of the frames in order; an empty list of
    frames is an error. *)
Definition pd_concat {A : Type} (frames : list (list A)) : res (list A) :=
  match frames with
  | [] => Raise (ValueError "No objects to concatenate")
  | _ => Ok (List.concat frames)
  end.

Definition CERVICAL_LEVELS : list Z := [2; 3; 4; 5; 6; 7; 8]%Z.

Definition isin (x : Z) (l : list Z) : bool := existsb (Z.eqb x) l.

(** Line 247: [df[df['spinal_level'].isin([2, 3, 4, 5, 6, 7, 8])]]. *)
Definition level_filter (df : list CsvRow) : list CsvRow :=
  filter (fun r => isin (csv_spinal_level r) CERVICAL_LEVELS) df.

(** [main], given what the file system answers: whether [dir_path] is a
    directory, and the files the glob finds with the rows [pd.read_csv]
    reads from each.  [arg_i] is the path as typed, [dir_path] its absolute
    form. *)
Definition main (v : pandas_version) (arg_i dir_path : string) (isdir : bool)
  (csv_files : list (string * list CsvRow)) : Py unit :=
  _ <~ (if negb isdir then
          _ <~ print ("ERROR: " ++ arg_i ++ " does not exist.") ;;
          sys_exit 1
        else ret tt) ;;
  _ <~ (if (List.length csv_files =? 0)%nat then
          print ("ERROR: No CSV files found in " ++ dir_path)
        else ret tt) ;;
  parsed_data <~
    lift (for_each (fun csv_file acc => Ok (acc ++ [snd csv_file]))
                   csv_files []) ;;
  df <~ lift (pd_concat parsed_data) ;;
  let df := level_filter df in
  let df := map add_identity df in
  _ <~ generate_figure df dir_path ;;
  compute_mean_and_COV v df dir_path.

(** ** Auxiliary notions for the statements *)

(** No (subject, rater, level) of the grid is matched by two rows: the
    lookup of every combination is a row or nothing. *)
Definition unambiguous (df : DataFrame) : bool :=
  forallb (fun subj =>
    forallb (fun rat =>
      forallb (fun level =>
        (List.length (matching df subj rat level) <=? 1)%nat) (levels df))
      LIST_OF_RATER)
    (keys SUBJECT_TO_AXIS).

(** What one iteration of the plotting loops draws. *)
Definition level_artists (df : DataFrame) (subj rat : string) (level : Z)
  : list artist :=
  match matching df subj rat level with
  | [] => []
  | m :: _ =>
    match dict_get SUBJECT_TO_AXIS subj, dict_get RATER_XOFFSET rat,
          dict_get RATER_COLOR rat with
    | Ok axis, Ok offset, Ok color =>
      shapes (float_of_int axis + offset)%float
             (distance_from_pmj_end m) (height m) color level
    | _, _, _ => []
    end
  end.

(** What one iteration of the aggregation loops appends. *)
Definition level_entry (df : DataFrame) (subj rat : string) (level : Z)
  : Entry :=
  match matching df subj rat level with
  | [] => mkEntry subj rat level (Str "n/a")
  | m :: _ =>
    mkEntry subj rat level
            (Num (midpoint (distance_from_pmj_end m) (height m)))
  end.

(** The (level, column) position of an entry in the pivoted table. *)
Definition entry_key (e : Entry) : Z * ColKey :=
  (e_spinal_level e, entry_col e).

(** Everything the plotting loops draw, in draw order. *)
Definition plotted (df : DataFrame) : list artist :=
  flat_map (fun s =>
    flat_map (fun r =>
      flat_map (fun l => level_artists df s r l) (levels df))
      LIST_OF_RATER)
    (keys SUBJECT_TO_AXIS).

(** The horizontal extent of a rectangle anchored at [x]. *)
Definition rect_left (axis : Z) (offset : float) : float :=
  (float_of_int axis + offset)%float.

Definition rect_right (axis : Z) (offset : float) : float :=
  (rect_left axis offset + 0.1)%float.

(** The vertical view limits at the end of [draw_figure]: set from the
    data (line 126), widened by the ticks (line 138), then set again in
    reverse order (line 141). *)
Definition view_limits (df : DataFrame) : res (float * float) :=
  lim <- set_lim (ylim_low df) (ylim_high df) ;;
  let lim := show_ticks lim (range 40 170 10) in
  set_lim (snd lim) (fst lim).

(** The axes [draw_figure] ends with when nothing raises. *)
Definition finished_axes (df : DataFrame) (lims : float * float) : Axes :=
  mkAxes (plotted df) (0.5%float, 5.5%float) lims
         "Subject" "Distance from PMJ [mm]"
         (values SUBJECT_TO_AXIS) (values SUBJECT_TO_XTICKS)
         (range 40 170 10)
         [("red", "rater1"); ("green", "rater2");
          ("blue", "rater3"); ("orange", "rater4")]
         "Spinal Level Inter-Rater Variability - Distance from PMJ".

(** Everything the aggregation loops append, in order. *)
Definition entries (df : DataFrame) : list Entry :=
  flat_map (fun s =>
    flat_map (fun r =>
      flat_map (fun l => [level_entry df s r l]) (levels df))
      LIST_OF_RATER)
    (keys SUBJECT_TO_AXIS).

(** The pivoted table of [entries]. *)
Definition pivot_columns (df : DataFrame) : list ColKey :=
  unique_by colkey_eqb (map entry_col (entries df)).

Definition pivot_index (df : DataFrame) : list Z :=
  sort Z.leb (unique (map e_spinal_level (entries df))).

Definition pivot_row (df : DataFrame) (l : Z) : Row :=
  map (fun c => (c, pivot_cell (entries df) l c)) (pivot_columns df).

Definition pivot_table (df : DataFrame) : Table :=
  mkTable (pivot_columns df)
          (map (fun l => (l, pivot_row df l)) (pivot_index df)).

(** The value line 207 computes for one row: [std / mean * 100] over the
    subject's rater cells, or over nothing when pandas 1 dropped them. *)
Definition cov_value (dropped : bool) (subj : string) (r : Row) : float :=
  let xs := if dropped then [] else numeric (select subj r) in
  (nanstd xs / nanmean xs * 100)%float.

Definition cov_key (subj : string) : ColKey := (cov_label subj, EmptyString).
Definition cov_keys : list ColKey := map cov_key (keys SUBJECT_TO_AXIS).
Definition mean_key : ColKey := ("COV_mean", EmptyString).

(** [cs] holds one float cell under each label of [ks], in order. *)
Definition float_cells (ks : list ColKey) (cs : Row) : Prop :=
  Forall2 (fun k kc => fst kc = k /\ exists x, snd kc = Num x) ks cs.

(** [t] is [t0] with float columns [ks] appended to every row. *)
Definition extension (t0 : Table) (ks : list ColKey) (t : Table) : Prop :=
  columns t = columns t0 ++ ks /\
  exists G : Row -> Row,
    (forall r, float_cells ks (G r)) /\
    rows t = map (fun lr => (fst lr, snd lr ++ G (snd lr))) (rows t0).

(** A float that is a number: zero or finite in the specification. *)
Definition SF_number (x : spec_float) : Prop :=
  match x with
  | S754_zero _ | S754_finite _ _ _ => True
  | _ => False
  end.

(** The frame [main] hands to both output stages. *)
Definition prepared (csv_files : list (string * list CsvRow)) : DataFrame :=
  map add_identity (level_filter (List.concat (map snd csv_files))).

(** ** The order of floats

    Comparison of two floats that are not NaN is the lexicographic order
    of their ranks: sign class first, then exponent and mantissa. *)
Definition SF_rank (x : spec_float) : Z * Z * Z :=
  match x with
  | S754_nan => (0, 0, 0)%Z
  | S754_zero _ => (0, 0, 0)%Z
  | S754_infinity true => (-2, 0, 0)%Z
  | S754_infinity false => (2, 0, 0)%Z
  | S754_finite true m e => (-1, - e, - Zpos m)%Z
  | S754_finite false m e => (1, e, Zpos m)%Z
  end.

Definition lex_lt (a b : Z * Z * Z) : Prop :=
  (fst (fst a) < fst (fst b) \/
   (fst (fst a) = fst (fst b) /\
    (snd (fst a) < snd (fst b) \/
     (snd (fst a) = snd (fst b) /\ snd a < snd b))))%Z.

Definition lex_le (a b : Z * Z * Z) : Prop :=
  (fst (fst a) < fst (fst b) \/
   (fst (fst a) = fst (fst b) /\
    (snd (fst a) < snd (fst b) \/
     (snd (fst a) = snd (fst b) /\ snd a <= snd b))))%Z.

Definition rank (x : float) : Z * Z * Z := SF_rank (Prim2SF x).

(** Both distance columns of the frame. *)
Definition distances (df : DataFrame) : list float :=
  map distance_from_pmj_end df ++ map distance_from_pmj_start df.

(** [x] is the least (the greatest) of the values of [xs] that are not
    NaN. *)
Definition least (xs : list float) (x : float) : Prop :=
  In x xs /\ is_nan x = false /\
  forall y, In y xs -> is_nan y = false -> (x <=? y)%float = true.

Definition greatest (xs : list float) (x : float) : Prop :=
  In x xs /\ is_nan x = false /\
  forall y, In y xs -> is_nan y = false -> (y <=? x)%float = true.

(** matplotlib leaves the interval from [a] up to [b] as it is: it is
    neither empty nor narrow up to rounding. *)
Definition kept (a b : float) : Prop := nonsingular a b = (a, b).

(** ** Example inputs *)

Definition example (subj rat : string) (level : Z) (start stop h : float)
  : Measurement :=
  mkMeasurement (subj ++ "_T2w_label-rootlet_" ++ rat ++ ".nii.gz")
                level start stop h rat subj.

(** Level 2 of one subject, annotated by three of the four raters. *)
Definition df_three_raters : DataFrame :=
  [ example "sub-barcelona01" "rater1" 2 40 50 10;
    example "sub-barcelona01" "rater2" 2 41 52 11;
    example "sub-barcelona01" "rater3" 2 39 49 10 ].

(** Level 2 of every subject, annotated by all four raters. *)
Definition df_complete : DataFrame :=
  flat_map (fun subj =>
              [ example subj "rater1" 2 40 50 10;
                example subj "rater2" 2 41 52 11;
                example subj "rater3" 2 39 49 10;
                example subj "rater4" 2 40 51 12 ])
           (keys SUBJECT_TO_AXIS).

(** One roster row, and the same with a row of an unknown subject whose
    distances lie outside those of the roster row and outside the ticks. *)
Definition df_roster_only : DataFrame :=
  [ example "sub-amu02" "rater2" 3 60 70 10 ].

Definition df_with_outsider : DataFrame :=
  df_roster_only ++ [ example "sub-unknown" "rater2" 3 30 170 140 ].

(** One input file whose only row is outside the cervical levels. *)
Definition files_level_9 : list (string * list CsvRow) :=
  [ ("sub-007/anat/sub-007_T2w_label-rootlet_rater1_pmj_distance.csv",
     [ mkCsvRow "sub-007_T2w_label-rootlet_rater1.nii.gz" 9 150 160 10 ]) ].

(** One input file with a thoracic row and a cervical row. *)
Definition files_levels_4_9 : list (string * list CsvRow) :=
  [ ("sub-007/anat/sub-007_T2w_label-rootlet_rater1_pmj_distance.csv",
     [ mkCsvRow "sub-007_T2w_label-rootlet_rater1.nii.gz" 4 80 90 10;
       mkCsvRow "sub-007_T2w_label-rootlet_rater1.nii.gz" 9 150 160 10 ]) ].

(** Level 2 of every subject by all four raters, except that rater 4 did
    not annotate the first subject. *)
Definition df_one_incomplete : DataFrame :=
  df_three_raters ++
  flat_map (fun subj =>
              [ example subj "rater1" 2 40 50 10;
                example subj "rater2" 2 41 52 11;
                example subj "rater3" 2 39 49 10;
                example subj "rater4" 2 40 51 12 ])
           (tl (keys SUBJECT_TO_AXIS)).

(** Level 2 of every subject by all four raters, where the midpoints of
    the first subject are 1, -1, 2^-1040 and 0 (their mean is tiny and
    positive) and those of the second are 1, -1, -2^-1040 and 0 (tiny and
    negative). *)
Definition df_opposite_infinities : DataFrame :=
  [ example "sub-barcelona01" "rater1" 2 1 1 0;
    example "sub-barcelona01" "rater2" 2 (-1) (-1) 0;
    example "sub-barcelona01" "rater3" 2 0x1p-1040 0x1p-1040 0;
    example "sub-barcelona01" "rater4" 2 0 0 0;
    example "sub-brnoUhb03" "rater1" 2 1 1 0;
    example "sub-brnoUhb03" "rater2" 2 (-1) (-1) 0;
    example "sub-brnoUhb03" "rater3" 2 (-0x1p-1040) (-0x1p-1040) 0;
    example "sub-brnoUhb03" "rater4" 2 0 0 0 ] ++
  flat_map (fun subj =>
              [ example subj "rater1" 2 40 50 10;
                example subj "rater2" 2 41 52 11;
                example subj "rater3" 2 39 49 10;
                example subj "rater4" 2 40 51 12 ])
           (tl (tl (keys SUBJECT_TO_AXIS))).

(** The vertical extent [y, y + height] of a matplotlib rectangle. *)
Definition vertical_span (a : artist) : option (float * float) :=
  match a with
  | Rectangle _ y _ h _ _ => Some (y, (y + h)%float)
  | _ => None
  end.

(** ** Statements under test *)

(** The table written for [df] shows the empty field at (level, column). *)
Definition written_as_empty (v : pandas_version) (df : DataFrame)
  (dir : string) (level : Z) (c : ColKey) : Prop :=
  exists p f,
    In (WriteCsv p f) (fst (compute_mean_and_COV v df dir)) /\
    csv_cell f level c = Some FieldEmpty.

(** A run wrote both the image and the table and returned. *)
Definition both_outputs_written (run : Py unit) : Prop :=
  snd run = Ok tt /\
  (exists p ax dpi, In (SaveFig p ax dpi) (fst run)) /\
  (exists p f, In (WriteCsv p f) (fst run)).

(** The COV the specification asks for: over the rater cells that hold a
    number, NaN when fewer than two do. *)
Definition cov_of_present (rater_cells : list cell) : float :=
  let xs := numeric rater_cells in
  (nanstd xs / nanmean xs * 100)%float.

(** The figure saved for [df] has the padded extremes of the distances as
    its vertical limits, the greater one first. *)
Definition limits_are_padded_extremes (df : DataFrame) (dir : string) : Prop :=
  exists p ax dpi mn mx,
    In (SaveFig p ax dpi) (fst (generate_figure df dir)) /\
    least (distances df) mn /\ greatest (distances df) mx /\
    ylim ax = ((mx * 1.05)%float, (mn * 0.9)%float).

(** In the row of [t] at [level], [COV_mean] is missing exactly when the
    COV of every subject is. *)
Definition mean_missing_iff_all_missing (t : Table) (level : Z) : Prop :=
  exists covs mean,
    Forall2 (fun s x => table_cell t level (cov_key s) = Some (Num x))
            (keys SUBJECT_TO_AXIS) covs /\
    table_cell t level mean_key = Some (Num mean) /\
    (isna mean = true <-> forall x, In x covs -> isna x = true).

(** ** Notions for the further properties *)

(** The character [c] occurs in [s]. *)
Fixpoint contains (c : ascii) (s : string) : bool :=
  match s with
  | EmptyString => false
  | String a s' => Ascii.eqb a c || contains c s'
  end.

(** Level 2 of one subject, annotated twice by the same rater. *)
Definition df_annotated_twice : DataFrame :=
  [ example "sub-amu02" "rater1" 2 40 50 10;
    example "sub-amu02" "rater1" 2 41 52 11 ].

(** The (subject, rater) pairs of the grid, in loop order. *)
Definition grid_pairs : list ColKey :=
  flat_map (fun s => map (fun r => (s, r)) LIST_OF_RATER)
           (keys SUBJECT_TO_AXIS).

(** The block [df[subj]] of [t] holds a string in some row. *)
Definition holds_str (subj : string) (t : Table) : bool :=
  existsb (existsb is_str) (map (fun lr => select subj (snd lr)) (rows t)).

(** The COV cells line 207 appends to a row [r] of [t0], one subject of
    [ss] after the other. *)
Definition cov_cells_of (t0 : Table) (ss : list string) (r : Row) : Row :=
  map (fun s => (cov_key s, Num (cov_value (holds_str s t0) s r))) ss.

(** [t0] with the COV column of every subject of [ss] appended. *)
Definition with_covs (t0 : Table) (ss : list string) : Table :=
  mkTable (columns t0 ++ map cov_key ss)
          (map (fun lr => (fst lr, snd lr ++ cov_cells_of t0 ss (snd lr)))
               (rows t0)).

(** Every (subject, rater, level) of the grid has a row. *)
Definition complete (df : DataFrame) : bool :=
  forallb (fun subj =>
    forallb (fun rat =>
      forallb (fun level => negb (empty (matching df subj rat level)))
              (levels df))
      LIST_OF_RATER)
    (keys SUBJECT_TO_AXIS).

(** The midpoint of the first row matching a combination. *)
Definition grid_midpoint (df : DataFrame) (subj rat : string) (level : Z)
  : float :=
  match matching df subj rat level with
  | m :: _ => midpoint (distance_from_pmj_end m) (height m)
  | [] => nan
  end.

(** * Properties *)

(** ** Lists *)

Section ListFacts.
Context {A : Type} (eqb : A -> A -> bool).
Hypothesis eqb_eq : forall a b, eqb a b = true <-> a = b.

Lemma eqb_refl_true (a : A) : eqb a a = true.
Proof. now apply eqb_eq. Qed.

Lemma in_unique_by (l : list A) (x : A) :
  In x (unique_by eqb l) <-> In x l.
Proof.
  induction l as [|a t IH]; simpl; [tauto|].
  rewrite filter_In, IH. split.
  - intros [H|[H _]]; auto.
  - intros [H|H]; auto.
    destruct (eqb x a) eqn:E.
    + apply eqb_eq in E. auto.
    + right. split; auto.
Qed.

Lemma NoDup_unique_by (l : list A) : NoDup (unique_by eqb l).
Proof.
  induction l as [|a t IH]; simpl; constructor.
  - rewrite filter_In. intros [_ H].
    rewrite eqb_refl_true in H. discriminate.
  - now apply NoDup_filter.
Qed.

(** Looking a key up in a list built by tabulating a function. *)
Lemma find_tabulate {B : Type} (f : A -> B) (ks : list A) (k : A) :
  In k ks ->
  find (fun p => eqb (fst p) k) (map (fun k' => (k', f k')) ks)
  = Some (k, f k).
Proof.
  induction ks as [|a t IH]; simpl; [tauto|].
  intros H. destruct (eqb a k) eqn:E.
  - apply eqb_eq in E. now subst.
  - apply IH. destruct H as [H|H]; auto.
    subst. rewrite eqb_refl_true in E. discriminate.
Qed.
End ListFacts.

Lemma in_insert {A : Type} (leb : A -> A -> bool) (x y : A) (l : list A) :
  In x (insert leb y l) <-> x = y \/ In x l.
Proof.
  induction l as [|a t IH]; simpl.
  - intuition.
  - destruct (leb y a); simpl; rewrite ?IH; intuition.
Qed.

Lemma in_sort {A : Type} (leb : A -> A -> bool) (x : A) (l : list A) :
  In x (sort leb l) <-> In x l.
Proof.
  induction l as [|a t IH]; simpl; [tauto|].
  rewrite in_insert, IH. intuition.
Qed.

Lemma find_app {A : Type} (f : A -> bool) (l1 l2 : list A) :
  find f (l1 ++ l2)
  = match find f l1 with Some x => Some x | None => find f l2 end.
Proof.
  induction l1 as [|a t IH]; simpl; auto. destruct (f a); auto.
Qed.

Lemma find_in_some {A : Type} (f : A -> bool) (l : list A) (x : A) :
  In x l -> f x = true -> exists y, find f l = Some y.
Proof.
  intros Hin Hf. destruct (find f l) as [y|] eqn:E; eauto.
  rewrite (find_none _ _ E _ Hin) in Hf. discriminate.
Qed.

Lemma combine_tabulate {A B : Type} (f : A -> B) (l : list A) :
  combine l (map f l) = map (fun a => (a, f a)) l.
Proof. induction l as [|a t IH]; simpl; congruence. Qed.

Lemma combine_map_map {A B C : Type} (f : A -> B) (g : A -> C) (l : list A) :
  combine (map f l) (map g l) = map (fun a => (f a, g a)) l.
Proof. induction l as [|a t IH]; simpl; congruence. Qed.

Lemma map_flat_map {A B C : Type} (g : B -> C) (f : A -> list B) (l : list A) :
  map g (flat_map f l) = flat_map (fun a => map g (f a)) l.
Proof.
  induction l as [|a t IH]; simpl; auto. now rewrite map_app, IH.
Qed.

Lemma NoDup_append {A : Type} (l1 l2 : list A) :
  NoDup l1 -> NoDup l2 -> (forall x, In x l1 -> ~ In x l2) ->
  NoDup (l1 ++ l2).
Proof.
  induction l1 as [|a t IH]; simpl; intros H1 H2 Hd; auto.
  inversion H1; subst. constructor.
  - rewrite in_app_iff. intros [H|H]; auto. apply (Hd a); auto.
  - apply IH; auto.
Qed.

Lemma NoDup_flat_map {A B : Type} (f : A -> list B) (l : list A) :
  NoDup l ->
  (forall a, In a l -> NoDup (f a)) ->
  (forall a b x, In x (f a) -> In x (f b) -> a = b) ->
  NoDup (flat_map f l).
Proof.
  intros Hl Hf Hd. induction l as [|a t IH]; simpl; [constructor|].
  inversion Hl; subst. apply NoDup_append.
  - apply Hf. now left.
  - apply IH; auto. intros b Hb. apply Hf. now right.
  - intros x Hx Hx'. apply in_flat_map in Hx' as (b & Hb & Hxb).
    assert (a = b) by eauto. subst. contradiction.
Qed.

Lemma NoDup_map_injective {A B : Type} (f : A -> B) (l : list A) :
  (forall a b, f a = f b -> a = b) -> NoDup l -> NoDup (map f l).
Proof.
  intros Hinj Hl. induction Hl as [|a t Ha Ht IH]; simpl; constructor; auto.
  rewrite in_map_iff. intros (b & Hb & Hin).
  apply Hinj in Hb. now subst.
Qed.

(** ** Loops that only append *)

Section Accumulate.
Context {S X A : Type}.
Variable add : S -> list X -> S.
Hypothesis add_nil : forall s, add s [] = s.
Hypothesis add_app : forall s a b, add (add s a) b = add s (a ++ b).

Lemma for_each_acc (body : A -> S -> res S) (h : A -> list X)
  (l : list A) (s : S) :
  (forall a s', In a l -> body a s' = Ok (add s' (h a))) ->
  for_each body l s = Ok (add s (flat_map h l)).
Proof.
  revert s. induction l as [|a t IH]; simpl; intros s H.
  - now rewrite add_nil.
  - rewrite H by auto. simpl. rewrite IH by auto. now rewrite add_app.
Qed.
End Accumulate.

(** A loop that returned went through every iteration without raising. *)
Lemma for_each_ok_inv {A S : Type} (body : A -> S -> res S) (l : list A)
  (s s' : S) :
  for_each body l s = Ok s' ->
  forall a, In a l -> exists s1 s2, body a s1 = Ok s2.
Proof.
  revert s. induction l as [|a t IH]; simpl; intros s H b Hb; [tauto|].
  destruct (body a s) as [s1|e] eqn:E; simpl in H; [|discriminate].
  destruct Hb as [<-|Hb]; eauto.
Qed.

Lemma add_artists_nil (ax : Axes) : add_artists ax [] = ax.
Proof. destruct ax; unfold add_artists; simpl. now rewrite app_nil_r. Qed.

Lemma add_artists_app (ax : Axes) (a b : list artist) :
  add_artists (add_artists ax a) b = add_artists ax (a ++ b).
Proof. unfold add_artists; simpl. now rewrite app_assoc. Qed.

(** ** Dictionaries and rosters *)

Lemma dict_get_key {V : Type} (d : list (string * V)) (k : string) :
  In k (keys d) -> exists v, dict_get d k = Ok v.
Proof.
  unfold dict_get, keys. intros H.
  apply in_map_iff in H as ([k' v] & Hk & Hin). simpl in Hk. subst.
  destruct (find_in_some (fun kv => fst kv =? k) d (k, v) Hin) as [y Hy].
  - simpl. apply String.eqb_refl.
  - rewrite Hy. eauto.
Qed.

Lemma colkey_eqb_eq (a b : ColKey) : colkey_eqb a b = true <-> a = b.
Proof.
  destruct a as [a1 a2], b as [b1 b2]. unfold colkey_eqb; simpl.
  rewrite andb_true_iff, !String.eqb_eq. split.
  - intros [-> ->]; auto.
  - intros H; inversion H; auto.
Qed.

Lemma in_levels (df : DataFrame) (l : Z) :
  In l (levels df) <-> exists m, In m df /\ spinal_level m = l.
Proof.
  unfold levels, unique. rewrite (in_unique_by Z.eqb Z.eqb_eq), in_map_iff.
  split; intros (m & H1 & H2); eauto.
Qed.

Lemma NoDup_levels (df : DataFrame) : NoDup (levels df).
Proof. apply (NoDup_unique_by Z.eqb Z.eqb_eq). Qed.

Lemma in_matching (df : DataFrame) (s r : string) (l : Z) (m : Measurement) :
  In m (matching df s r l)
  <-> In m df /\ subject m = s /\ rater m = r /\ spinal_level m = l.
Proof.
  unfold matching. rewrite filter_In, !andb_true_iff, !String.eqb_eq, Z.eqb_eq.
  tauto.
Qed.

Lemma unambiguous_at (df : DataFrame) (s r : string) (l : Z) :
  unambiguous df = true ->
  In s (keys SUBJECT_TO_AXIS) -> In r LIST_OF_RATER -> In l (levels df) ->
  (List.length (matching df s r l) <= 1)%nat.
Proof.
  unfold unambiguous. intros H Hs Hr Hl.
  rewrite forallb_forall in H. specialize (H s Hs).
  rewrite forallb_forall in H. specialize (H r Hr).
  rewrite forallb_forall in H. specialize (H l Hl).
  now apply Nat.leb_le.
Qed.

(** Under [unambiguous], a row of the grid is the only match of its key. *)
Lemma matching_single (df : DataFrame) (m : Measurement) :
  unambiguous df = true ->
  In m df -> In (subject m) (keys SUBJECT_TO_AXIS) -> In (rater m) LIST_OF_RATER ->
  matching df (subject m) (rater m) (spinal_level m) = [m].
Proof.
  intros H Hin Hs Hr.
  assert (Hl : In (spinal_level m) (levels df)) by (apply in_levels; eauto).
  pose proof (unambiguous_at df _ _ _ H Hs Hr Hl) as Hlen.
  assert (Hm : In m (matching df (subject m) (rater m) (spinal_level m)))
    by (apply in_matching; auto).
  destruct (matching df (subject m) (rater m) (spinal_level m)) as [|a [|b t]];
    simpl in *; try lia; try tauto.
  destruct Hm as [->|[]]. reflexivity.
Qed.

(** ** The plotting loops *)

Lemma plot_level_ok (df : DataFrame) (s r : string) (l : Z) (ax : Axes) :
  In s (keys SUBJECT_TO_AXIS) -> In r LIST_OF_RATER ->
  (List.length (matching df s r l) <= 1)%nat ->
  plot_level df s r l ax = Ok (add_artists ax (level_artists df s r l)).
Proof.
  intros Hs Hr Hlen. unfold plot_level, level_artists.
  destruct (dict_get_key SUBJECT_TO_AXIS s Hs) as [axis ->].
  destruct (dict_get_key RATER_XOFFSET r Hr) as [offset ->].
  destruct (dict_get_key RATER_COLOR r Hr) as [color ->].
  destruct (matching df s r l) as [|m [|m' t]]; simpl in *; try lia.
  - now rewrite add_artists_nil.
  - reflexivity.
Qed.

Lemma plot_levels_ok (df : DataFrame) (ax : Axes) :
  unambiguous df = true ->
  plot_levels df ax = Ok (add_artists ax (plotted df)).
Proof.
  intros H. unfold plot_levels, plotted.
  apply (for_each_acc add_artists add_artists_nil add_artists_app).
  intros s ax1 Hs.
  apply (for_each_acc add_artists add_artists_nil add_artists_app).
  intros r ax2 Hr.
  apply (for_each_acc add_artists add_artists_nil add_artists_app).
  intros l ax3 Hl.
  apply plot_level_ok; auto. now apply unambiguous_at.
Qed.

(** A plotting pass that returned met no ambiguous combination. *)
Lemma plot_levels_unambiguous (df : DataFrame) (ax ax' : Axes) :
  plot_levels df ax = Ok ax' -> unambiguous df = true.
Proof.
  intros H. unfold unambiguous.
  apply forallb_forall. intros s Hs.
  apply forallb_forall. intros r Hr.
  apply forallb_forall. intros l Hl.
  destruct (for_each_ok_inv _ _ _ _ H s Hs) as (a1 & a2 & H1).
  destruct (for_each_ok_inv _ _ _ _ H1 r Hr) as (b1 & b2 & H2).
  destruct (for_each_ok_inv _ _ _ _ H2 l Hl) as (c1 & c2 & H3).
  unfold plot_level in H3.
  destruct (matching df s r l) as [|m [|m' t]]; simpl in *; auto.
  discriminate.
Qed.

(** Every artist of the plotting pass is one of the [shapes] of a row whose
    subject and rater are in the rosters. *)
Lemma in_plotted (df : DataFrame) (a : artist) :
  In a (plotted df) ->
  exists m axis offset color,
    In m df /\
    dict_get SUBJECT_TO_AXIS (subject m) = Ok axis /\
    dict_get RATER_XOFFSET (rater m) = Ok offset /\
    dict_get RATER_COLOR (rater m) = Ok color /\
    In (subject m) (keys SUBJECT_TO_AXIS) /\ In (rater m) LIST_OF_RATER /\
    In a (shapes (float_of_int axis + offset)%float
                 (distance_from_pmj_end m) (height m) color (spinal_level m)).
Proof.
  unfold plotted. intros H.
  apply in_flat_map in H as (s & Hs & H).
  apply in_flat_map in H as (r & Hr & H).
  apply in_flat_map in H as (l & Hl & H).
  unfold level_artists in H.
  destruct (matching df s r l) as [|m t] eqn:E; [destruct H|].
  assert (Hm : In m (matching df s r l)) by (rewrite E; now left).
  apply in_matching in Hm as (Hin & <- & <- & <-).
  destruct (dict_get SUBJECT_TO_AXIS (subject m)) as [axis|] eqn:E1; [|destruct H].
  destruct (dict_get RATER_XOFFSET (rater m)) as [offset|] eqn:E2; [|destruct H].
  destruct (dict_get RATER_COLOR (rater m)) as [color|] eqn:E3; [|destruct H].
  exists m, axis, offset, color. auto 10.
Qed.

(** The shapes of a roster row are among the plotted artists. *)
Lemma shapes_plotted (df : DataFrame) (m : Measurement) (axis : Z)
  (offset : float) (color : string) :
  unambiguous df = true ->
  In m df ->
  dict_get SUBJECT_TO_AXIS (subject m) = Ok axis ->
  dict_get RATER_XOFFSET (rater m) = Ok offset ->
  dict_get RATER_COLOR (rater m) = Ok color ->
  In (subject m) (keys SUBJECT_TO_AXIS) -> In (rater m) LIST_OF_RATER ->
  incl (shapes (float_of_int axis + offset)%float
               (distance_from_pmj_end m) (height m) color (spinal_level m))
       (plotted df).
Proof.
  intros H Hin E1 E2 E3 Hs Hr a Ha. unfold plotted.
  apply in_flat_map. exists (subject m). split; auto.
  apply in_flat_map. exists (rater m). split; auto.
  apply in_flat_map. exists (spinal_level m). split.
  - apply in_levels; eauto.
  - unfold level_artists.
    rewrite (matching_single df m H Hin Hs Hr), E1, E2, E3. exact Ha.
Qed.

(** ** The finished axes *)

Lemma set_xlim_script : set_lim 0.5 5.5 = Ok (0.5%float, 5.5%float).
Proof. vm_compute. reflexivity. Qed.

(** [draw_figure] once the loops have returned: the vertical limits are
    the only step left that can raise. *)
Lemma draw_figure_limits (df : DataFrame) :
  unambiguous df = true ->
  draw_figure df
  = bind (view_limits df) (fun lims => Ok (finished_axes df lims)).
Proof.
  intros H. unfold draw_figure, view_limits.
  rewrite (plot_levels_ok df new_axes H). cbn [bind].
  unfold set_xlim. rewrite set_xlim_script. cbn [bind].
  unfold set_ylim at 1. cbn [ylim xlim artists add_artists new_axes].
  destruct (set_lim (ylim_low df) (ylim_high df)) as [lim1|e]; [|reflexivity].
  cbn [bind]. unfold set_ylim, get_ylim, set_yticks, set_xticklabels,
    set_xticks, set_labels.
  cbn [ylim xlim artists xlabel ylabel xticks xticklabels yticks legend title].
  destruct (set_lim _ _) as [lims|e]; [|reflexivity].
  cbn [bind]. vm_compute for_each. cbn [bind].
  unfold set_title, set_legend, finished_axes.
  cbn [ylim xlim artists xlabel ylabel xticks xticklabels yticks legend title].
  reflexivity.
Qed.

Lemma draw_figure_ok (df : DataFrame) (lims : float * float) :
  unambiguous df = true ->
  view_limits df = Ok lims ->
  draw_figure df = Ok (finished_axes df lims).
Proof.
  intros H Hv. rewrite (draw_figure_limits df H), Hv. reflexivity.
Qed.

Lemma draw_figure_inv (df : DataFrame) (ax : Axes) :
  draw_figure df = Ok ax ->
  unambiguous df = true /\
  exists lims, view_limits df = Ok lims /\ ax = finished_axes df lims.
Proof.
  intros H.
  assert (Hu : unambiguous df = true).
  { unfold draw_figure in H.
    destruct (plot_levels df new_axes) as [ax1|e] eqn:E; [|discriminate].
    now apply plot_levels_unambiguous in E. }
  split; [exact Hu|].
  rewrite (draw_figure_limits df Hu) in H.
  destruct (view_limits df) as [lims|e]; [|discriminate].
  exists lims. split; [reflexivity|]. now inversion H.
Qed.

(** The limits are accepted only when both padded extremes are finite. *)
Lemma view_limits_finite (df : DataFrame) (lims : float * float) :
  view_limits df = Ok lims ->
  is_finite (ylim_low df) = true /\ is_finite (ylim_high df) = true.
Proof.
  unfold view_limits, set_lim at 1, validate_limit. intros H.
  destruct (is_finite (ylim_low df)); [|discriminate].
  destruct (is_finite (ylim_high df)); [|discriminate].
  auto.
Qed.

Lemma generate_figure_events (df : DataFrame) (dir : string) (p : string)
  (ax : Axes) (dpi : Z) :
  In (SaveFig p ax dpi) (fst (generate_figure df dir)) ->
  draw_figure df = Ok ax.
Proof.
  unfold generate_figure, pbind, lift, emit, print; simpl.
  destruct (draw_figure df) as [ax'|e]; simpl; [|tauto].
  intros [H|[H|[]]]; [|discriminate]. now inversion H.
Qed.

(** ** The aggregation loops *)

Lemma collect_level_ok (df : DataFrame) (s r : string) (l : Z)
  (results : list Entry) :
  (List.length (matching df s r l) <= 1)%nat ->
  collect_level df s r l results = Ok (results ++ [level_entry df s r l]).
Proof.
  intros Hlen. unfold collect_level, level_entry.
  destruct (matching df s r l) as [|m [|m' t]]; simpl in *; try lia;
    reflexivity.
Qed.

Lemma collect_midpoints_ok (df : DataFrame) :
  unambiguous df = true -> collect_midpoints df = Ok (entries df).
Proof.
  intros H. unfold collect_midpoints, entries.
  change (Ok (A := list Entry)
    (flat_map (fun s => flat_map (fun r =>
       flat_map (fun l => [level_entry df s r l]) (levels df))
       LIST_OF_RATER) (keys SUBJECT_TO_AXIS)))
    with (Ok (A := list Entry) ([] ++
    (flat_map (fun s => flat_map (fun r =>
       flat_map (fun l => [level_entry df s r l]) (levels df))
       LIST_OF_RATER) (keys SUBJECT_TO_AXIS)))).
  apply (for_each_acc (@app Entry) (@app_nil_r Entry)
           (fun s a b => eq_sym (app_assoc s a b))).
  intros s acc1 Hs.
  apply (for_each_acc (@app Entry) (@app_nil_r Entry)
           (fun s a b => eq_sym (app_assoc s a b))).
  intros r acc2 Hr.
  apply (for_each_acc (@app Entry) (@app_nil_r Entry)
           (fun s a b => eq_sym (app_assoc s a b))).
  intros l acc3 Hl.
  apply collect_level_ok. now apply unambiguous_at.
Qed.

Lemma collect_midpoints_unambiguous (df : DataFrame) (results : list Entry) :
  collect_midpoints df = Ok results -> unambiguous df = true.
Proof.
  intros H. unfold unambiguous.
  apply forallb_forall. intros s Hs.
  apply forallb_forall. intros r Hr.
  apply forallb_forall. intros l Hl.
  destruct (for_each_ok_inv _ _ _ _ H s Hs) as (a1 & a2 & H1).
  destruct (for_each_ok_inv _ _ _ _ H1 r Hr) as (b1 & b2 & H2).
  destruct (for_each_ok_inv _ _ _ _ H2 l Hl) as (c1 & c2 & H3).
  unfold collect_level in H3.
  destruct (matching df s r l) as [|m [|m' t]]; simpl in *; auto.
  discriminate.
Qed.

Lemma level_entry_key (df : DataFrame) (s r : string) (l : Z) :
  entry_key (level_entry df s r l) = (l, (s, r)).
Proof. unfold level_entry. destruct (matching df s r l); reflexivity. Qed.

Lemma in_entries (df : DataFrame) (e : Entry) :
  In e (entries df) <->
  exists s r l, In s (keys SUBJECT_TO_AXIS) /\ In r LIST_OF_RATER /\
                In l (levels df) /\ e = level_entry df s r l.
Proof.
  unfold entries. split.
  - intros H.
    apply in_flat_map in H as (s & Hs & H).
    apply in_flat_map in H as (r & Hr & H).
    apply in_flat_map in H as (l & Hl & [H|[]]).
    exists s, r, l. auto.
  - intros (s & r & l & Hs & Hr & Hl & ->).
    apply in_flat_map. exists s. split; auto.
    apply in_flat_map. exists r. split; auto.
    apply in_flat_map. exists l. split; auto. now left.
Qed.

Lemma entry_at_key (l : Z) (c : ColKey) (e : Entry) :
  entry_at l c e = true <-> entry_key e = (l, c).
Proof.
  unfold entry_at, entry_key.
  rewrite andb_true_iff, Z.eqb_eq, colkey_eqb_eq. split.
  - intros [-> ->]; auto.
  - intros H; inversion H; auto.
Qed.

Lemma has_duplicates_false (es : list Entry) :
  NoDup (map entry_key es) -> has_duplicates es = false.
Proof.
  induction es as [|e t IH]; simpl; auto.
  intros H. inversion H as [|? ? Hnin Hnd]; subst.
  rewrite (IH Hnd), orb_false_r.
  destruct (existsb _ t) eqn:E; auto.
  apply existsb_exists in E as (e' & Hin & He').
  apply entry_at_key in He'. exfalso. apply Hnin.
  apply in_map_iff. exists e'. auto.
Qed.

Lemma NoDup_roster : NoDup (keys SUBJECT_TO_AXIS).
Proof.
  unfold keys; simpl.
  repeat (constructor; [simpl; intuition discriminate|]). constructor.
Qed.

Lemma NoDup_raters : NoDup LIST_OF_RATER.
Proof.
  unfold LIST_OF_RATER.
  repeat (constructor; [simpl; intuition discriminate|]). constructor.
Qed.

Lemma NoDup_entry_keys (df : DataFrame) : NoDup (map entry_key (entries df)).
Proof.
  unfold entries.
  rewrite map_flat_map.
  apply NoDup_flat_map; [apply NoDup_roster| |].
  - intros s _. rewrite map_flat_map.
    apply NoDup_flat_map; [apply NoDup_raters| |].
    + intros r _. rewrite map_flat_map.
      apply NoDup_flat_map; [apply NoDup_levels| |].
      * intros l _. simpl. constructor; [tauto|constructor].
      * intros a b x [<-|[]] [H|[]].
        rewrite !level_entry_key in H. congruence.
    + intros a b x Ha Hb.
      rewrite map_flat_map in Ha, Hb.
      apply in_flat_map in Ha as (l1 & _ & [<-|[]]).
      apply in_flat_map in Hb as (l2 & _ & [H|[]]).
      rewrite !level_entry_key in H. congruence.
  - intros a b x Ha Hb.
    rewrite map_flat_map in Ha, Hb.
    apply in_flat_map in Ha as (r1 & _ & Ha).
    apply in_flat_map in Hb as (r2 & _ & Hb).
    rewrite map_flat_map in Ha, Hb.
    apply in_flat_map in Ha as (l1 & _ & [<-|[]]).
    apply in_flat_map in Hb as (l2 & _ & [H|[]]).
    rewrite !level_entry_key in H. congruence.
Qed.

(** ** The pivot *)

Lemma first_subject : In "sub-barcelona01" (keys SUBJECT_TO_AXIS).
Proof. simpl; auto. Qed.

Lemma first_rater : In "rater1" LIST_OF_RATER.
Proof. simpl; auto. Qed.

Lemma entries_nil (df : DataFrame) : levels df = [] -> entries df = [].
Proof. unfold entries. intros ->. reflexivity. Qed.

Lemma entries_not_nil (df : DataFrame) : levels df <> [] -> entries df <> [].
Proof.
  intros H E. destruct (levels df) as [|l t] eqn:El; [congruence|].
  assert (Hin : In (level_entry df "sub-barcelona01" "rater1" l) (entries df)).
  { apply in_entries. exists "sub-barcelona01", "rater1", l.
    rewrite El. simpl; auto 10. }
  rewrite E in Hin. destruct Hin.
Qed.

Lemma pivot_ok (df : DataFrame) :
  levels df <> [] -> pivot (entries df) = Ok (pivot_table df).
Proof.
  intros H. apply entries_not_nil in H.
  unfold pivot, pivot_table, pivot_row, pivot_columns, pivot_index.
  rewrite (has_duplicates_false _ (NoDup_entry_keys df)).
  destruct (entries df); [congruence|reflexivity].
Qed.

Lemma entry_level (df : DataFrame) (s r : string) (l : Z) :
  e_spinal_level (level_entry df s r l) = l.
Proof. unfold level_entry. destruct (matching df s r l); reflexivity. Qed.

Lemma entry_col_level_entry (df : DataFrame) (s r : string) (l : Z) :
  entry_col (level_entry df s r l) = (s, r).
Proof. unfold level_entry. destruct (matching df s r l); reflexivity. Qed.

Lemma in_pivot_index (df : DataFrame) (l : Z) :
  In l (pivot_index df) <-> In l (levels df).
Proof.
  unfold pivot_index, unique.
  rewrite in_sort, (in_unique_by Z.eqb Z.eqb_eq), in_map_iff. split.
  - intros (e & <- & He).
    apply in_entries in He as (s & r & l' & _ & _ & Hl & ->).
    now rewrite entry_level.
  - intros Hl. exists (level_entry df "sub-barcelona01" "rater1" l).
    split; [apply entry_level|].
    apply in_entries. exists "sub-barcelona01", "rater1", l.
    auto using first_subject, first_rater.
Qed.

Lemma in_pivot_columns (df : DataFrame) (c : ColKey) :
  In c (pivot_columns df) <->
  In (fst c) (keys SUBJECT_TO_AXIS) /\ In (snd c) LIST_OF_RATER /\
  levels df <> [].
Proof.
  unfold pivot_columns.
  rewrite (in_unique_by colkey_eqb colkey_eqb_eq), in_map_iff. split.
  - intros (e & <- & He).
    apply in_entries in He as (s & r & l & Hs & Hr & Hl & ->).
    rewrite entry_col_level_entry. simpl. repeat split; auto.
    intros E. rewrite E in Hl. destruct Hl.
  - intros (Hs & Hr & Hl). destruct c as [s r]. simpl in *.
    destruct (levels df) as [|l t] eqn:El; [congruence|].
    exists (level_entry df s r l). split; [apply entry_col_level_entry|].
    apply in_entries. exists s, r, l. rewrite El. simpl; auto.
Qed.

Lemma pivot_cell_entries (df : DataFrame) (s r : string) (l : Z) :
  In s (keys SUBJECT_TO_AXIS) -> In r LIST_OF_RATER -> In l (levels df) ->
  pivot_cell (entries df) l (s, r) = e_mean (level_entry df s r l).
Proof.
  intros Hs Hr Hl. unfold pivot_cell.
  destruct (find (entry_at l (s, r)) (entries df)) as [e|] eqn:E.
  - apply find_some in E as [Hin He].
    apply entry_at_key in He.
    apply in_entries in Hin as (s' & r' & l' & _ & _ & _ & ->).
    rewrite level_entry_key in He. now inversion He.
  - exfalso.
    assert (Hin : In (level_entry df s r l) (entries df)).
    { apply in_entries. exists s, r, l. auto. }
    pose proof (find_none _ _ E _ Hin) as Hf.
    assert (Ht : entry_at l (s, r) (level_entry df s r l) = true)
      by (apply entry_at_key, level_entry_key).
    congruence.
Qed.

Lemma find_row_tabulate {B : Type} (f : Z -> B) (idx : list Z) (l : Z) :
  In l idx ->
  find (fun lr => (fst lr =? l)%Z) (map (fun l' => (l', f l')) idx)
  = Some (l, f l).
Proof. apply (find_tabulate Z.eqb Z.eqb_eq). Qed.

Lemma row_cell_tabulate (f : ColKey -> cell) (cols : list ColKey) (c : ColKey) :
  In c cols ->
  row_cell (map (fun c' => (c', f c')) cols) c = Some (f c).
Proof.
  intros H. unfold row_cell.
  now rewrite (find_tabulate colkey_eqb colkey_eqb_eq f cols c H).
Qed.

Lemma table_cell_pivot (df : DataFrame) (s r : string) (l : Z) :
  In s (keys SUBJECT_TO_AXIS) -> In r LIST_OF_RATER -> In l (levels df) ->
  table_cell (pivot_table df) l (s, r)
  = Some (e_mean (level_entry df s r l)).
Proof.
  intros Hs Hr Hl. unfold table_cell, pivot_table; simpl.
  rewrite find_row_tabulate by now apply in_pivot_index. simpl.
  unfold pivot_row. rewrite row_cell_tabulate.
  - now rewrite pivot_cell_entries.
  - apply in_pivot_columns. simpl. repeat split; auto.
    intros E. rewrite E in Hl. destruct Hl.
Qed.

(** ** The COV columns *)

Lemma add_cov_shape (v : pandas_version) (s : string) (t t' : Table) :
  add_cov v s t = Ok t' ->
  t' = mkTable (columns t ++ [cov_key s])
         (map (fun lr =>
                 (fst lr,
                  snd lr ++
                  [(cov_key s,
                    Num (cov_value
                           (existsb (existsb is_str)
                              (map (fun lr' => select s (snd lr')) (rows t)))
                           s (snd lr)))]))
              (rows t)).
Proof.
  unfold add_cov, getitem.
  destruct (existsb (fun c => fst c =? s) (columns t)); simpl; [|discriminate].
  unfold reduce_rows, cov_value, setitem, cov_key.
  destruct (existsb (existsb is_str) _); destruct v; simpl;
    try discriminate; intros H; inversion H; clear H; f_equal;
    rewrite combine_map_map, !map_map, combine_tabulate, map_map;
    reflexivity.
Qed.

Lemma extension_refl (t0 : Table) : extension t0 [] t0.
Proof.
  split; [now rewrite app_nil_r|].
  exists (fun _ => []). split; [constructor|].
  rewrite <- (map_id (rows t0)) at 1. apply map_ext.
  intros [l r]; simpl. now rewrite app_nil_r.
Qed.

Lemma extension_step (t0 t : Table) (ks : list ColKey) (key : ColKey)
  (g : Row -> float) :
  extension t0 ks t ->
  extension t0 (ks ++ [key])
    (mkTable (columns t ++ [key])
       (map (fun lr => (fst lr, snd lr ++ [(key, Num (g (snd lr)))]))
            (rows t))).
Proof.
  intros (Hc & G & HG & Hr). split.
  - simpl. now rewrite Hc, app_assoc.
  - exists (fun r => G r ++ [(key, Num (g (r ++ G r)))]). split.
    + intros r. apply Forall2_app; [apply HG|].
      constructor; [|constructor]. simpl. eauto.
    + simpl. rewrite Hr, map_map. apply map_ext.
      intros [l r]; simpl. now rewrite app_assoc.
Qed.

Lemma extension_for_each (v : pandas_version) (t0 : Table) (ss : list string) :
  forall (ks : list ColKey) (t t' : Table),
    extension t0 ks t ->
    for_each (add_cov v) ss t = Ok t' ->
    extension t0 (ks ++ map cov_key ss) t'.
Proof.
  induction ss as [|s ss IH]; simpl; intros ks t t' Hext H.
  - inversion H; subst. now rewrite app_nil_r.
  - destruct (add_cov v s t) as [t1|e] eqn:E; simpl in H; [|discriminate].
    apply add_cov_shape in E. subst t1.
    replace (ks ++ cov_key s :: map cov_key ss)
      with ((ks ++ [cov_key s]) ++ map cov_key ss)
      by (now rewrite <- app_assoc).
    eapply IH; [|exact H]. now apply extension_step.
Qed.

Lemma select_app (k : string) (r1 r2 : Row) :
  select k (r1 ++ r2) = select k r1 ++ select k r2.
Proof. unfold select. now rewrite filter_app, map_app. Qed.

Lemma select_none (k : string) (r : Row) :
  (forall kc, In kc r -> fst (fst kc) <> k) -> select k r = [].
Proof.
  unfold select. induction r as [|kc t IH]; simpl; intros H; auto.
  match goal with |- context [if ?b then _ else _] => destruct b eqn:E end.
  - apply String.eqb_eq in E. exfalso. apply (H kc); auto.
  - apply IH. intros kc' Hin. apply H. now right.
Qed.

Lemma row_cell_app (r1 r2 : Row) (c : ColKey) :
  row_cell (r1 ++ r2) c
  = match row_cell r1 c with Some x => Some x | None => row_cell r2 c end.
Proof.
  unfold row_cell. rewrite find_app.
  destruct (find _ r1); reflexivity.
Qed.

Lemma row_cell_none (r : Row) (c : ColKey) :
  (forall kc, In kc r -> fst kc <> c) -> row_cell r c = None.
Proof.
  unfold row_cell. intros H.
  destruct (find (fun kc => colkey_eqb (fst kc) c) r) as [kc|] eqn:E; auto.
  apply find_some in E as [Hin He]. apply colkey_eqb_eq in He.
  exfalso. apply (H kc); auto.
Qed.

Lemma existsb_none {A : Type} (f : A -> bool) (l : list A) :
  (forall x, In x l -> f x = false) -> existsb f l = false.
Proof.
  induction l as [|a t IH]; simpl; intros H; auto.
  rewrite H by auto. apply IH. auto.
Qed.

Lemma float_cells_no_str (ks : list ColKey) (cs : Row) :
  float_cells ks cs -> existsb is_str (map snd cs) = false.
Proof.
  induction 1 as [|k kc ks cs [_ [x Hx]] _ IH]; simpl; auto.
  now rewrite Hx.
Qed.

(** Roster subjects never look like a COV label. *)
Lemma roster_prefix (s : string) :
  In s (keys SUBJECT_TO_AXIS) -> prefix "COV_" s = false.
Proof.
  simpl. intros [<-|[<-|[<-|[<-|[<-|[]]]]]]; reflexivity.
Qed.

Lemma cov_label_prefix (s : string) : prefix "COV_" (cov_label s) = true.
Proof. destruct s; reflexivity. Qed.

Lemma pivot_row_keys (df : DataFrame) (lr : Z * Row) (kc : ColKey * cell) :
  In lr (rows (pivot_table df)) -> In kc (snd lr) ->
  In (fst (fst kc)) (keys SUBJECT_TO_AXIS) /\ In (snd (fst kc)) LIST_OF_RATER.
Proof.
  unfold pivot_table; simpl. intros Hlr Hkc.
  apply in_map_iff in Hlr as (l & <- & _). unfold pivot_row in Hkc.
  simpl in Hkc.
  apply in_map_iff in Hkc as (c & <- & Hc). simpl.
  apply in_pivot_columns in Hc. tauto.
Qed.

Lemma pivot_row_no_cov (df : DataFrame) (lr : Z * Row) (kc : ColKey * cell)
  (k : string) :
  In lr (rows (pivot_table df)) -> In kc (snd lr) ->
  prefix "COV_" k = true -> fst (fst kc) <> k.
Proof.
  intros Hlr Hkc Hk E.
  destruct (pivot_row_keys df lr kc Hlr Hkc) as [Hs _].
  apply roster_prefix in Hs. congruence.
Qed.

Lemma pivot_row_no_cov_label (df : DataFrame) (l : Z) (kc : ColKey * cell)
  (k : string) :
  In kc (pivot_row df l) -> prefix "COV_" k = true -> fst (fst kc) <> k.
Proof.
  unfold pivot_row. intros Hkc Hk E.
  apply in_map_iff in Hkc as (c & <- & Hc). simpl in E.
  apply in_pivot_columns in Hc as (Hs & _ & _).
  apply roster_prefix in Hs. congruence.
Qed.

(** Selecting the five COV labels from a row extended by the five COV
    cells gives back exactly those cells. *)
Lemma select_cov_cells (r cs : Row) :
  (forall kc k, In kc r -> prefix "COV_" k = true -> fst (fst kc) <> k) ->
  float_cells cov_keys cs ->
  flat_map (fun k => select k (r ++ cs)) (map cov_label (keys SUBJECT_TO_AXIS))
  = map snd cs.
Proof.
  intros Hr Hcs. unfold float_cells, cov_keys in Hcs. simpl in Hcs.
  repeat match goal with
         | H : Forall2 _ (_ :: _) _ |- _ => inversion H; clear H; subst
         end.
  match goal with H : Forall2 _ [] _ |- _ => inversion H; clear H; subst end.
  repeat match goal with
         | H : _ /\ _ |- _ => destruct H
         | H : exists _, _ |- _ => destruct H
         end.
  repeat match goal with
         | y : (ColKey * cell)%type |- _ => destruct y; simpl in *; subst
         end.
  simpl. rewrite !select_app.
  rewrite !(select_none _ r) by (intros kc Hkc; now apply Hr).
  reflexivity.
Qed.

Lemma getitems_cov (t : Table) (c0 : list ColKey) :
  columns t = c0 ++ cov_keys ->
  getitems (map cov_label (keys SUBJECT_TO_AXIS)) t
  = Ok (map (fun lr =>
               flat_map (fun k => select k (snd lr))
                        (map cov_label (keys SUBJECT_TO_AXIS)))
            (rows t)).
Proof.
  intros Hc. unfold getitems, getitem. rewrite Hc. simpl.
  rewrite !existsb_app. simpl. rewrite !orb_true_r. reflexivity.
Qed.

(** The table [cov_table] returns, whenever it returns. *)
Lemma cov_table_shape (v : pandas_version) (df : DataFrame) (t : Table) :
  cov_table v df = Ok t ->
  unambiguous df = true /\ levels df <> [] /\
  exists G : Row -> Row,
    (forall r, float_cells cov_keys (G r)) /\
    columns t = pivot_columns df ++ cov_keys ++ [mean_key] /\
    rows t =
      map (fun l =>
             (l, pivot_row df l ++ G (pivot_row df l) ++
                 [(mean_key,
                   Num (nanmean (numeric (map snd (G (pivot_row df l))))))]))
          (pivot_index df).
Proof.
  unfold cov_table. intros H.
  destruct (collect_midpoints df) as [results|e] eqn:E1; [|discriminate].
  pose proof (collect_midpoints_unambiguous df results E1) as Hu.
  rewrite (collect_midpoints_ok df Hu) in E1. inversion E1; subst results.
  clear E1. cbn [bind] in H. split; auto.
  assert (Hl : levels df <> []).
  { intros E. rewrite (entries_nil df E) in H. discriminate. }
  split; auto.
  rewrite (pivot_ok df Hl) in H. cbn [bind] in H.
  destruct (for_each (add_cov v) (keys SUBJECT_TO_AXIS) (pivot_table df))
    as [t5|e] eqn:E2; [|discriminate].
  cbn [bind] in H.
  pose proof (extension_for_each v (pivot_table df) _ [] _ _
                (extension_refl _) E2) as (Hc & G & HG & Hrows).
  simpl in Hc, HG. fold cov_keys in Hc, HG.
  exists G. split; auto.
  unfold add_cov_mean in H.
  rewrite (getitems_cov t5 _ Hc) in H. simpl bind in H.
  rewrite Hrows in H. rewrite map_map in H. simpl snd in H.
  unfold pivot_table in H at 1. simpl rows in H. rewrite map_map in H.
  simpl snd in H.
  rewrite (map_ext _ (fun l => map snd (G (pivot_row df l)))) in H.
  2:{ intros l. apply select_cov_cells; auto.
      intros kc k Hkc Hk. now apply (pivot_row_no_cov_label df l). }
  unfold reduce_rows in H.
  rewrite existsb_none in H.
  2:{ intros x Hx. apply in_map_iff in Hx as (l & <- & _).
      now apply (float_cells_no_str cov_keys). }
  inversion H; subst t; clear H.
  unfold setitem; simpl. split.
  - rewrite Hc. simpl. now rewrite <- app_assoc.
  - rewrite Hrows. unfold pivot_table; simpl rows.
    rewrite !map_map, combine_map_map, map_map.
    apply map_ext. intros l. simpl. now rewrite <- app_assoc.
Qed.

Lemma float_cells_cov (cs : Row) :
  float_cells cov_keys cs ->
  exists x1 x2 x3 x4 x5,
    cs = [ (cov_key "sub-barcelona01", Num x1);
           (cov_key "sub-brnoUhb03", Num x2);
           (cov_key "sub-amu02", Num x3);
           (cov_key "sub-007", Num x4);
           (cov_key "sub-010", Num x5) ].
Proof.
  intros Hcs. unfold float_cells, cov_keys in Hcs. simpl in Hcs.
  repeat match goal with
         | H : Forall2 _ (_ :: _) _ |- _ => inversion H; clear H; subst
         end.
  match goal with H : Forall2 _ [] _ |- _ => inversion H; clear H; subst end.
  repeat match goal with
         | H : _ /\ _ |- _ => destruct H
         | H : exists _, _ |- _ => destruct H
         end.
  repeat match goal with
         | y : (ColKey * cell)%type |- _ => destruct y; simpl in *; subst
         end.
  repeat eexists.
Qed.

Lemma table_cell_tabulate (t : Table) (R : Z -> Row) (idx : list Z) (l : Z)
  (c : ColKey) :
  rows t = map (fun l' => (l', R l')) idx -> In l idx ->
  table_cell t l c = row_cell (R l) c.
Proof.
  intros Hr Hl. unfold table_cell. rewrite Hr.
  now rewrite find_row_tabulate.
Qed.

Lemma row_cell_pivot_row (df : DataFrame) (s r : string) (l : Z) :
  In s (keys SUBJECT_TO_AXIS) -> In r LIST_OF_RATER -> In l (levels df) ->
  row_cell (pivot_row df l) (s, r) = Some (e_mean (level_entry df s r l)).
Proof.
  intros Hs Hr Hl. unfold pivot_row. rewrite row_cell_tabulate.
  - now rewrite pivot_cell_entries.
  - apply in_pivot_columns. simpl. repeat split; auto.
    intros E. rewrite E in Hl. destruct Hl.
Qed.

Lemma row_cell_pivot_row_cov (df : DataFrame) (l : Z) (k : string) :
  prefix "COV_" k = true -> row_cell (pivot_row df l) (k, EmptyString) = None.
Proof.
  intros Hk. apply row_cell_none. intros kc Hkc E.
  apply (pivot_row_no_cov_label df l kc k Hkc Hk). now rewrite E.
Qed.

Lemma index_cov_table (v : pandas_version) (df : DataFrame) (t : Table) (l : Z) :
  cov_table v df = Ok t -> (In l (index t) <-> In l (levels df)).
Proof.
  intros H. apply cov_table_shape in H as (_ & _ & G & _ & _ & Hr).
  unfold index. rewrite Hr, map_map. simpl. rewrite map_id.
  apply in_pivot_index.
Qed.

(** The midpoint cells of the finished table are those of the pivot. *)
Lemma midpoint_cell (v : pandas_version) (df : DataFrame) (t : Table)
  (s r : string) (l : Z) :
  cov_table v df = Ok t ->
  In s (keys SUBJECT_TO_AXIS) -> In r LIST_OF_RATER -> In l (levels df) ->
  table_cell t l (s, r) = Some (e_mean (level_entry df s r l)).
Proof.
  intros H Hs Hr Hl.
  apply cov_table_shape in H as (_ & _ & G & _ & _ & Hrows).
  rewrite (table_cell_tabulate t _ _ l _ Hrows) by now apply in_pivot_index.
  now rewrite row_cell_app, row_cell_pivot_row.
Qed.

(** The COV cells of a row of the finished table, and its mean cell. *)
Lemma cov_cells (v : pandas_version) (df : DataFrame) (t : Table) (l : Z) :
  cov_table v df = Ok t -> In l (levels df) ->
  exists covs,
    Forall2 (fun s x => table_cell t l (cov_key s) = Some (Num x))
            (keys SUBJECT_TO_AXIS) covs /\
    table_cell t l mean_key = Some (Num (nanmean covs)).
Proof.
  intros H Hl.
  apply cov_table_shape in H as (_ & _ & G & HG & _ & Hrows).
  destruct (float_cells_cov _ (HG (pivot_row df l)))
    as (x1 & x2 & x3 & x4 & x5 & E).
  exists [x1; x2; x3; x4; x5].
  assert (Hi : In l (pivot_index df)) by now apply in_pivot_index.
  split.
  - simpl. repeat constructor;
      rewrite (table_cell_tabulate t _ _ l _ Hrows Hi), row_cell_app;
      unfold cov_key;
      rewrite row_cell_pivot_row_cov by apply cov_label_prefix;
      rewrite E; reflexivity.
  - rewrite (table_cell_tabulate t _ _ l _ Hrows Hi), row_cell_app.
    unfold mean_key. rewrite row_cell_pivot_row_cov by reflexivity.
    rewrite E. reflexivity.
Qed.

(** ** The written files *)

Lemma row_field_render (r : Row) (c : ColKey) :
  option_map snd
    (find (fun kc => colkey_eqb (fst kc) c)
          (map (fun kc : ColKey * cell => (fst kc, render (snd kc))) r))
  = option_map render (row_cell r c).
Proof.
  unfold row_cell. induction r as [|kc t IH]; simpl; auto.
  destruct (colkey_eqb (fst kc) c); auto.
Qed.

Lemma csv_cell_render (t : Table) (l : Z) (c : ColKey) :
  csv_cell (to_csv_table t) l c = option_map render (table_cell t l c).
Proof.
  unfold csv_cell, table_cell, to_csv_table; simpl.
  induction (rows t) as [|[l' r] rs IH]; simpl; auto.
  destruct (l' =? l)%Z; auto. simpl. apply row_field_render.
Qed.

Lemma compute_events (v : pandas_version) (df : DataFrame) (dir p : string)
  (f : CsvTable) :
  In (WriteCsv p f) (fst (compute_mean_and_COV v df dir)) ->
  exists t, cov_table v df = Ok t /\ f = to_csv_table t.
Proof.
  unfold compute_mean_and_COV, pbind, lift, emit, print; simpl.
  destruct (cov_table v df) as [t|e]; simpl; [|tauto].
  intros [H|[H|[]]]; [|discriminate]. inversion H. eauto.
Qed.

Lemma compute_ok (v : pandas_version) (df : DataFrame) (dir : string)
  (t : Table) :
  cov_table v df = Ok t ->
  compute_mean_and_COV v df dir
  = ([WriteCsv (path_join dir fname_csv) (to_csv_table t);
      Print ("Table saved to " ++ path_join dir fname_csv)], Ok tt).
Proof.
  intros H. unfold compute_mean_and_COV, pbind, lift, emit, print.
  rewrite H. reflexivity.
Qed.

Lemma generate_figure_ok (df : DataFrame) (dir : string)
  (lims : float * float) :
  unambiguous df = true ->
  view_limits df = Ok lims ->
  generate_figure df dir
  = ([SaveFig (path_join dir fname_figure) (finished_axes df lims) 300;
      Print ("Figure saved to " ++ path_join dir fname_figure)], Ok tt).
Proof.
  intros H Hv. unfold generate_figure, pbind, lift, emit, print.
  rewrite (draw_figure_ok df lims H Hv). reflexivity.
Qed.

Lemma saved_axes (df : DataFrame) (dir p : string) (ax : Axes) (dpi : Z) :
  In (SaveFig p ax dpi) (fst (generate_figure df dir)) ->
  unambiguous df = true /\
  exists lims, view_limits df = Ok lims /\ ax = finished_axes df lims.
Proof.
  intros H. apply generate_figure_events in H.
  now apply draw_figure_inv.
Qed.

(** ** Floating point: when a sum or a quotient is a number

    The facts below are read off the IEEE-754 specification of the
    primitive operations ([SpecFloat]): rounding a non-negative mantissa
    never yields NaN, so NaN only comes out of NaN, of opposite infinities
    added, or of [0 / 0] and [inf / inf]. *)

Section FloatFacts.
Local Open Scope Z_scope.

Lemma shr_1_nonneg (mrs : shr_record) :
  0 <= shr_m mrs -> 0 <= shr_m (shr_1 mrs).
Proof.
  destruct mrs as [m r s]; simpl.
  destruct m as [|p|p]; simpl; try lia; destruct p; simpl; lia.
Qed.

Lemma iter_shr_1_nonneg (p : positive) :
  forall mrs, 0 <= shr_m mrs -> 0 <= shr_m (iter_pos shr_1 p mrs).
Proof.
  induction p as [p IH|p IH|]; simpl; intros mrs H;
    auto using shr_1_nonneg.
Qed.

Lemma shr_fexp_nonneg (m e : Z) (l : location) :
  0 <= m -> 0 <= shr_m (fst (shr_fexp prec emax m e l)).
Proof.
  intros H. unfold shr_fexp, shr.
  assert (H0 : 0 <= shr_m (shr_record_of_loc m l))
    by (destruct l as [|[]]; simpl; lia).
  destruct (fexp prec emax (Zdigits2 m + e) - e); simpl; auto.
  now apply iter_shr_1_nonneg.
Qed.

Lemma round_nearest_even_nonneg (m : Z) (l : location) :
  0 <= m -> 0 <= round_nearest_even m l.
Proof.
  intros H. unfold round_nearest_even.
  destruct l as [|[]]; try lia. destruct (Z.even m); lia.
Qed.

Lemma binary_round_aux_not_nan (sx : bool) (mx ex : Z) (lx : location) :
  0 <= mx -> binary_round_aux prec emax sx mx ex lx <> S754_nan.
Proof.
  intros H. unfold binary_round_aux.
  pose proof (shr_fexp_nonneg mx ex lx H) as H1.
  destruct (shr_fexp prec emax mx ex lx) as [mrs' e']. simpl in H1.
  pose proof (shr_fexp_nonneg _ e' loc_Exact
                (round_nearest_even_nonneg _ (loc_of_shr_record mrs') H1))
    as H2.
  destruct (shr_fexp prec emax _ e' loc_Exact) as [mrs'' e'']. simpl in H2.
  destruct (shr_m mrs'') as [|p|p]; try discriminate; [|lia].
  destruct (e'' <=? emax - prec); discriminate.
Qed.

Lemma binary_normalize_not_nan (m e : Z) (sz : bool) :
  binary_normalize prec emax m e sz <> S754_nan.
Proof.
  unfold binary_normalize, binary_round.
  destruct m as [|p|p]; try discriminate;
    destruct (shl_align _ _ _) as [mz ez];
    apply binary_round_aux_not_nan; lia.
Qed.

Lemma SFadd_not_nan (x y : spec_float) :
  x <> S754_nan -> SF_number y -> SFadd prec emax x y <> S754_nan.
Proof.
  intros Hx Hy. destruct x as [sx|sx| |sx mx ex]; try congruence;
    destruct y as [sy|sy| |sy my ey]; simpl in Hy; try tauto; simpl;
    try discriminate.
  - destruct sx, sy; discriminate.
  - apply binary_normalize_not_nan.
Qed.

Lemma SFdiv_not_nan (x : spec_float) (sy : bool) (my : positive) (ey : Z) :
  x <> S754_nan -> SFdiv prec emax x (S754_finite sy my ey) <> S754_nan.
Proof.
  intros Hx. destruct x as [sx|sx| |sx mx ex]; try congruence; simpl;
    try discriminate.
  unfold SFdiv_core_binary.
  set (m' := match _ - _ - _ with Z0 => _ | Zpos _ => _ | Zneg _ => _ end).
  assert (Hm : 0 <= m').
  { subst m'. destruct (_ - _ - _); try lia. apply Z.shiftl_nonneg. lia. }
  pose proof (Z.div_pos m' (Zpos my) Hm ltac:(lia)) as Hq.
  unfold Z.div in Hq.
  destruct (Z.div_eucl m' (Zpos my)) as [q r].
  now apply binary_round_aux_not_nan.
Qed.
End FloatFacts.

Lemma is_nan_spec (x : float) : is_nan x = true <-> Prim2SF x = S754_nan.
Proof.
  unfold is_nan. rewrite eqb_spec. unfold SFeqb.
  destruct (Prim2SF x) as [s|s| |s m e]; simpl.
  - split; discriminate.
  - destruct s; simpl; split; discriminate.
  - split; reflexivity.
  - destruct s; rewrite Z.compare_refl, Pos.compare_cont_refl; simpl;
      split; discriminate.
Qed.

Lemma is_nan_false (x : float) : is_nan x = false <-> Prim2SF x <> S754_nan.
Proof.
  rewrite <- is_nan_spec. destruct (is_nan x); split; congruence.
Qed.

Lemma is_finite_number (x : float) :
  is_finite x = true -> SF_number (Prim2SF x).
Proof.
  unfold is_finite, is_infinity. rewrite negb_true_iff, orb_false_iff.
  intros [Hn Hi]. apply is_nan_false in Hn.
  rewrite eqb_spec, abs_spec in Hi.
  replace (Prim2SF infinity) with (S754_infinity false) in Hi
    by (vm_compute; reflexivity).
  destruct (Prim2SF x) as [s|s| |s m e]; simpl; auto.
  vm_compute in Hi. discriminate.
Qed.

Lemma add_not_nan (a y : float) :
  is_nan a = false -> is_finite y = true -> is_nan (a + y) = false.
Proof.
  intros Ha Hy. apply is_nan_false. rewrite add_spec.
  apply SFadd_not_nan; [now apply is_nan_false|now apply is_finite_number].
Qed.

Lemma fsum_not_nan (ys : list float) :
  (forall y, In y ys -> is_finite y = true) ->
  forall a, is_nan a = false -> is_nan (fold_left PrimFloat.add ys a) = false.
Proof.
  induction ys as [|y t IH]; simpl; intros H a Ha; auto.
  apply IH; auto. apply add_not_nan; auto.
Qed.

Lemma div_count_not_nan (a : float) (n : nat) :
  is_nan a = false -> (1 <= n <= 5)%nat ->
  is_nan (a / float_of_int (Z.of_nat n)) = false.
Proof.
  intros Ha Hn. apply is_nan_false. rewrite div_spec.
  apply is_nan_false in Ha.
  destruct n as [|[|[|[|[|[|n]]]]]]; try lia;
    match goal with
    | |- _ _ (Prim2SF ?c) <> _ =>
      destruct (Prim2SF c) eqn:E; vm_compute in E; try discriminate;
      now apply SFdiv_not_nan
    end.
Qed.

Lemma dropna_length (xs : list float) :
  (List.length (dropna xs) <= List.length xs)%nat.
Proof.
  unfold dropna. induction xs as [|x t IH]; simpl; auto.
  destruct (negb (isna x)); simpl; lia.
Qed.

(** The mean of at most five values, all of them finite where present, is
    a number as soon as one value is present. *)
Lemma nanmean_number (xs : list float) :
  (List.length xs <= 5)%nat ->
  (forall x, In x xs -> isna x = false -> is_finite x = true) ->
  (exists x, In x xs /\ isna x = false) ->
  isna (nanmean xs) = false.
Proof.
  intros Hlen Hfin (x & Hx & Hnx). unfold nanmean, isna, count, fsum.
  pose proof (dropna_length xs) as Hd.
  assert (Hin : In x (dropna xs)).
  { unfold dropna. apply filter_In. split; auto. now rewrite Hnx. }
  apply div_count_not_nan.
  - apply fsum_not_nan; [|reflexivity].
    intros y Hy. unfold dropna in Hy. apply filter_In in Hy as [Hy Hny].
    apply Hfin; auto. now apply negb_true_iff.
  - destruct (dropna xs); [destruct Hin|simpl in *; lia].
Qed.

Lemma nanmean_all_missing (xs : list float) :
  (forall x, In x xs -> isna x = true) -> isna (nanmean xs) = true.
Proof.
  intros H. unfold nanmean.
  assert (E : dropna xs = []).
  { unfold dropna. induction xs as [|x t IH]; simpl; auto.
    rewrite (H x) by (now left). simpl. apply IH.
    intros y Hy. apply H. now right. }
  rewrite E. reflexivity.
Qed.

Lemma some_present (xs : list float) :
  ~ (forall x, In x xs -> isna x = true) ->
  exists x, In x xs /\ isna x = false.
Proof.
  induction xs as [|x t IH]; intros H.
  - exfalso. apply H. intros x [].
  - destruct (isna x) eqn:E.
    + destruct IH as (y & Hy & Hny).
      * intros Ht. apply H. intros y [<-|Hy]; auto.
      * exists y. split; auto. now right.
    + exists x. split; auto. now left.
Qed.

(** ** The order of floats *)

Lemma SFltb_rank (x y : spec_float) :
  x <> S754_nan -> y <> S754_nan ->
  (SFltb x y = true <-> lex_lt (SF_rank x) (SF_rank y)).
Proof.
  intros Hx Hy. unfold SFltb, lex_lt.
  destruct x as [sx|sx| |sx mx ex], y as [sy|sy| |sy my ey];
    try congruence;
    try destruct sx; try destruct sy; simpl;
    try (split; [discriminate|lia]); try (split; [lia|reflexivity]);
    try (split; [reflexivity|lia]).
  all: change (Pos.compare_cont Eq mx my) with (Pos.compare mx my);
    destruct (Z.compare_spec ex ey); destruct (Pos.compare_spec mx my);
    simpl; split; try discriminate; try reflexivity; try lia.
Qed.

Lemma SFleb_rank (x y : spec_float) :
  x <> S754_nan -> y <> S754_nan ->
  (SFleb x y = true <-> lex_le (SF_rank x) (SF_rank y)).
Proof.
  intros Hx Hy. unfold SFleb, lex_le.
  destruct x as [sx|sx| |sx mx ex], y as [sy|sy| |sy my ey];
    try congruence;
    try destruct sx; try destruct sy; simpl;
    try (split; [discriminate|lia]); try (split; [lia|reflexivity]);
    try (split; [reflexivity|lia]).
  all: change (Pos.compare_cont Eq mx my) with (Pos.compare mx my);
    destruct (Z.compare_spec ex ey); destruct (Pos.compare_spec mx my);
    simpl; split; try discriminate; try reflexivity; try lia.
Qed.

Lemma ltb_rank (x y : float) :
  is_nan x = false -> is_nan y = false ->
  ((x <? y)%float = true <-> lex_lt (rank x) (rank y)).
Proof.
  intros Hx Hy. rewrite ltb_spec.
  apply SFltb_rank; now apply is_nan_false.
Qed.

Lemma leb_rank (x y : float) :
  is_nan x = false -> is_nan y = false ->
  ((x <=? y)%float = true <-> lex_le (rank x) (rank y)).
Proof.
  intros Hx Hy. rewrite leb_spec.
  apply SFleb_rank; now apply is_nan_false.
Qed.

Lemma ltb_false_rank (x y : float) :
  is_nan x = false -> is_nan y = false ->
  ((x <? y)%float = false <-> lex_le (rank y) (rank x)).
Proof.
  intros Hx Hy. pose proof (ltb_rank x y Hx Hy) as H.
  destruct (x <? y)%float.
  - split; [discriminate|]. intros H'. exfalso.
    assert (Hl : lex_lt (rank x) (rank y)) by now apply H.
    unfold lex_lt, lex_le in *. lia.
  - split; auto. intros _.
    assert (Hl : ~ lex_lt (rank x) (rank y)) by (intros C; apply H in C; discriminate).
    unfold lex_lt, lex_le in *. lia.
Qed.

(** A comparison that holds has no NaN on either side. *)
Lemma ltb_not_nan (x y : float) :
  (x <? y)%float = true -> is_nan x = false /\ is_nan y = false.
Proof.
  rewrite ltb_spec. intros H. split; apply is_nan_false; intros E;
    rewrite E in H; unfold SFltb in H; simpl in H;
    destruct (Prim2SF _); discriminate.
Qed.

Lemma leb_refl (x : float) : is_nan x = false -> (x <=? x)%float = true.
Proof.
  intros H. apply leb_rank; auto. unfold lex_le. lia.
Qed.

Lemma leb_trans (x y z : float) :
  is_nan x = false -> is_nan y = false -> is_nan z = false ->
  (x <=? y)%float = true -> (y <=? z)%float = true -> (x <=? z)%float = true.
Proof.
  intros Hx Hy Hz H1 H2.
  apply leb_rank in H1; auto. apply leb_rank in H2; auto.
  apply leb_rank; auto. unfold lex_le in *. lia.
Qed.

Lemma ltb_leb (x y : float) :
  (x <? y)%float = true -> (x <=? y)%float = true.
Proof.
  intros H. destruct (ltb_not_nan x y H) as [Hx Hy].
  apply ltb_rank in H; auto. apply leb_rank; auto.
  unfold lex_lt, lex_le in *. lia.
Qed.

Lemma ltb_false_leb (x y : float) :
  is_nan x = false -> is_nan y = false ->
  (x <? y)%float = false -> (y <=? x)%float = true.
Proof.
  intros Hx Hy H. apply ltb_false_rank in H; auto. now apply leb_rank.
Qed.

Lemma ltb_asym (x y : float) :
  (x <? y)%float = true -> (y <? x)%float = false.
Proof.
  intros H. destruct (ltb_not_nan x y H) as [Hx Hy].
  apply ltb_rank in H; auto. apply ltb_false_rank; auto.
  unfold lex_lt, lex_le in *. lia.
Qed.

Lemma ltb_trans (x y z : float) :
  (x <? y)%float = true -> (y <? z)%float = true -> (x <? z)%float = true.
Proof.
  intros H1 H2. destruct (ltb_not_nan x y H1) as [Hx Hy].
  destruct (ltb_not_nan y z H2) as [_ Hz].
  apply ltb_rank in H1; auto. apply ltb_rank in H2; auto.
  apply ltb_rank; auto. unfold lex_lt in *. lia.
Qed.

Lemma leb_ltb_trans (x y z : float) :
  is_nan x = false ->
  (x <=? y)%float = true -> (y <? z)%float = true -> (x <? z)%float = true.
Proof.
  intros Hx H1 H2. destruct (ltb_not_nan y z H2) as [Hy Hz].
  apply leb_rank in H1; auto. apply ltb_rank in H2; auto.
  apply ltb_rank; auto. unfold lex_lt, lex_le in *. lia.
Qed.

Lemma ltb_leb_trans (x y z : float) :
  is_nan z = false ->
  (x <? y)%float = true -> (y <=? z)%float = true -> (x <? z)%float = true.
Proof.
  intros Hz H1 H2. destruct (ltb_not_nan x y H1) as [Hx Hy].
  apply ltb_rank in H1; auto. apply leb_rank in H2; auto.
  apply ltb_rank; auto. unfold lex_lt, lex_le in *. lia.
Qed.

(** ** Column minima and maxima *)

Lemma in_dropna (xs : list float) (x : float) :
  In x (dropna xs) <-> In x xs /\ is_nan x = false.
Proof.
  unfold dropna, isna. rewrite filter_In, negb_true_iff. tauto.
Qed.

Lemma fold_min_least (t : list float) (x : float) :
  (forall y, In y (x :: t) -> is_nan y = false) ->
  let r := fold_left (fun m y => if (y <? m)%float then y else m) t x in
  In r (x :: t) /\
  forall y, In y (x :: t) -> (r <=? y)%float = true.
Proof.
  revert x. induction t as [|z t IH]; intros x Hn; cbn [fold_left].
  - split; [now left|]. intros y [<-|[]]. apply leb_refl. apply Hn. now left.
  - assert (Hx : is_nan x = false) by (apply Hn; now left).
    assert (Hz : is_nan z = false) by (apply Hn; right; now left).
    set (x' := if (z <? x)%float then z else x).
    assert (Hx' : is_nan x' = false) by (unfold x'; destruct (z <? x)%float; auto).
    assert (Hx'x : (x' <=? x)%float = true).
    { unfold x'. destruct (z <? x)%float eqn:E.
      - now apply ltb_leb. - now apply leb_refl. }
    assert (Hx'z : (x' <=? z)%float = true).
    { unfold x'. destruct (z <? x)%float eqn:E.
      - now apply leb_refl. - now apply ltb_false_leb. }
    destruct (IH x') as [Hin Hle].
    { intros y [<-|Hy]; auto. apply Hn. right. now right. }
    assert (Hr : is_nan (fold_left (fun m y => if (y <? m)%float then y else m) t x') = false).
    { destruct Hin as [<-|Hin]; auto. apply Hn. right. now right. }
    split.
    + destruct Hin as [Hin|Hin]; [|right; now right].
      rewrite <- Hin. unfold x'. destruct (z <? x)%float; simpl; auto.
    + intros y [<-|[<-|Hy]].
      * apply (leb_trans _ x'); auto. apply Hle. now left.
      * apply (leb_trans _ x'); auto. apply Hle. now left.
      * apply Hle. now right.
Qed.

Lemma fold_max_greatest (t : list float) (x : float) :
  (forall y, In y (x :: t) -> is_nan y = false) ->
  let r := fold_left (fun m y => if (m <? y)%float then y else m) t x in
  In r (x :: t) /\
  forall y, In y (x :: t) -> (y <=? r)%float = true.
Proof.
  revert x. induction t as [|z t IH]; intros x Hn; cbn [fold_left].
  - split; [now left|]. intros y [<-|[]]. apply leb_refl. apply Hn. now left.
  - assert (Hx : is_nan x = false) by (apply Hn; now left).
    assert (Hz : is_nan z = false) by (apply Hn; right; now left).
    set (x' := if (x <? z)%float then z else x).
    assert (Hx' : is_nan x' = false) by (unfold x'; destruct (x <? z)%float; auto).
    assert (Hx'x : (x <=? x')%float = true).
    { unfold x'. destruct (x <? z)%float eqn:E.
      - now apply ltb_leb. - now apply leb_refl. }
    assert (Hx'z : (z <=? x')%float = true).
    { unfold x'. destruct (x <? z)%float eqn:E.
      - now apply leb_refl. - now apply ltb_false_leb. }
    destruct (IH x') as [Hin Hle].
    { intros y [<-|Hy]; auto. apply Hn. right. now right. }
    assert (Hr : is_nan (fold_left (fun m y => if (m <? y)%float then y else m) t x') = false).
    { destruct Hin as [<-|Hin]; auto. apply Hn. right. now right. }
    split.
    + destruct Hin as [Hin|Hin]; [|right; now right].
      rewrite <- Hin. unfold x'. destruct (x <? z)%float; simpl; auto.
    + intros y [<-|[<-|Hy]].
      * apply (leb_trans _ x'); auto. apply Hle. now left.
      * apply (leb_trans _ x'); auto. apply Hle. now left.
      * apply Hle. now right.
Qed.

Lemma nan_is_nan : is_nan nan = true.
Proof. reflexivity. Qed.

(** [Series.min()] is NaN, or the least of the values that are not. *)
Lemma series_min_least (xs : list float) :
  is_nan (series_min xs) = false -> least xs (series_min xs).
Proof.
  unfold series_min, least. intros H.
  destruct (dropna xs) as [|x t] eqn:E; [discriminate|].
  destruct (fold_min_least t x) as [Hin Hle].
  { intros y Hy. rewrite <- E in Hy. now apply in_dropna in Hy. }
  split; [|split; auto].
  - rewrite <- E in Hin. now apply in_dropna in Hin.
  - intros y Hy Hn. apply Hle. rewrite <- E. now apply in_dropna.
Qed.

Lemma series_max_greatest (xs : list float) :
  is_nan (series_max xs) = false -> greatest xs (series_max xs).
Proof.
  unfold series_max, greatest. intros H.
  destruct (dropna xs) as [|x t] eqn:E; [discriminate|].
  destruct (fold_max_greatest t x) as [Hin Hle].
  { intros y Hy. rewrite <- E in Hy. now apply in_dropna in Hy. }
  split; [|split; auto].
  - rewrite <- E in Hin. now apply in_dropna in Hin.
  - intros y Hy Hn. apply Hle. rewrite <- E. now apply in_dropna.
Qed.

(** A column with a value that is not NaN has a minimum and a maximum. *)
Lemma series_min_defined (xs : list float) (y : float) :
  In y xs -> is_nan y = false -> is_nan (series_min xs) = false.
Proof.
  intros Hy Hn. unfold series_min.
  destruct (dropna xs) as [|x t] eqn:E.
  - assert (H : In y (dropna xs)) by now apply in_dropna.
    rewrite E in H. destruct H.
  - destruct (fold_min_least t x) as [Hin _].
    { intros z Hz. rewrite <- E in Hz. now apply in_dropna in Hz. }
    rewrite <- E in Hin. now apply in_dropna in Hin.
Qed.

Lemma series_max_defined (xs : list float) (y : float) :
  In y xs -> is_nan y = false -> is_nan (series_max xs) = false.
Proof.
  intros Hy Hn. unfold series_max.
  destruct (dropna xs) as [|x t] eqn:E.
  - assert (H : In y (dropna xs)) by now apply in_dropna.
    rewrite E in H. destruct H.
  - destruct (fold_max_greatest t x) as [Hin _].
    { intros z Hz. rewrite <- E in Hz. now apply in_dropna in Hz. }
    rewrite <- E in Hin. now apply in_dropna in Hin.
Qed.

(** The builtin [min] over the two column minima (line 126): when it is
    not NaN it is the least distance of the frame. *)
Lemma pymin_columns_least (ends starts : list float) :
  let m := pymin (series_min ends) (series_min starts) in
  is_nan m = false -> least (ends ++ starts) m.
Proof.
  intros m Hm. unfold m, pymin in *.
  set (a := series_min ends) in *. set (b := series_min starts) in *.
  assert (Ha : is_nan a = false).
  { destruct (b <? a)%float eqn:E; auto. now apply ltb_not_nan in E. }
  destruct (series_min_least ends Ha) as (Hain & _ & Hale). fold a in Hain, Hale.
  destruct (b <? a)%float eqn:E.
  - destruct (series_min_least starts Hm) as (Hbin & _ & Hble).
    fold b in Hbin, Hble.
    split; [apply in_or_app; now right|]. split; auto.
    intros y Hy Hn. apply in_app_or in Hy as [Hy|Hy]; auto.
    apply (leb_trans _ a); auto. now apply ltb_leb.
  - split; [apply in_or_app; now left|]. split; auto.
    intros y Hy Hn. apply in_app_or in Hy as [Hy|Hy]; auto.
    assert (Hb : is_nan b = false) by (apply (series_min_defined starts y); auto).
    destruct (series_min_least starts Hb) as (_ & _ & Hble). fold b in Hble.
    apply (leb_trans _ b); auto. now apply ltb_false_leb.
Qed.

Lemma pymax_columns_greatest (ends starts : list float) :
  let m := pymax (series_max ends) (series_max starts) in
  is_nan m = false -> greatest (ends ++ starts) m.
Proof.
  intros m Hm. unfold m, pymax in *.
  set (a := series_max ends) in *. set (b := series_max starts) in *.
  assert (Ha : is_nan a = false).
  { destruct (a <? b)%float eqn:E; auto. now apply ltb_not_nan in E. }
  destruct (series_max_greatest ends Ha) as (Hain & _ & Hale). fold a in Hain, Hale.
  destruct (a <? b)%float eqn:E.
  - destruct (series_max_greatest starts Hm) as (Hbin & _ & Hble).
    fold b in Hbin, Hble.
    split; [apply in_or_app; now right|]. split; auto.
    intros y Hy Hn. apply in_app_or in Hy as [Hy|Hy]; auto.
    apply (leb_trans _ a); auto. now apply ltb_leb.
  - split; [apply in_or_app; now left|]. split; auto.
    intros y Hy Hn. apply in_app_or in Hy as [Hy|Hy]; auto.
    assert (Hb : is_nan b = false) by (apply (series_max_defined starts y); auto).
    destruct (series_max_greatest starts Hb) as (_ & _ & Hble). fold b in Hble.
    apply (leb_trans _ b); auto. now apply ltb_false_leb.
Qed.

(** ** The vertical limits of the figure *)

Lemma mul_finite_not_nan (x c : float) :
  is_finite (x * c) = true -> is_nan x = false.
Proof.
  intros H. destruct (is_nan x) eqn:E; auto. exfalso.
  apply is_nan_spec in E.
  assert (Hn : is_nan (x * c) = true).
  { apply is_nan_spec. rewrite mul_spec, E. reflexivity. }
  unfold is_finite in H. rewrite Hn in H. discriminate.
Qed.

Lemma is_finite_not_nan (x : float) : is_finite x = true -> is_nan x = false.
Proof.
  unfold is_finite. destruct (is_nan x); [discriminate|reflexivity].
Qed.

(** An interval given upside down is treated like the interval itself. *)
Lemma nonsingular_swap (a b : float) :
  (a <? b)%float = true -> nonsingular b a = nonsingular a b.
Proof.
  intros H. unfold nonsingular.
  rewrite H, (ltb_asym a b H), (orb_comm (negb (is_finite b))). reflexivity.
Qed.

(** Lines 126-141 on a proper interval: the view set from the data grows
    to hold the ticks 40 and 160, and is then turned upside down. *)
Lemma limits_widened (lo hi : float) :
  is_finite lo = true -> is_finite hi = true ->
  (lo <? hi)%float = true ->
  let bottom := if (lo <? 40)%float then lo else 40%float in
  let top := if (160 <? hi)%float then hi else 160%float in
  kept lo hi -> kept bottom top ->
  (bottom <? top)%float = true /\
  bind (set_lim lo hi)
       (fun lim => let lim' := show_ticks lim (range 40 170 10) in
                   set_lim (snd lim') (fst lim'))
  = Ok (top, bottom).
Proof.
  intros Hlo Hhi Hlt bottom top K1 K2.
  assert (Hbt : (bottom <? top)%float = true).
  { unfold bottom, top.
    destruct (lo <? 40)%float eqn:E1; destruct (160 <? hi)%float eqn:E2; auto.
    - apply (ltb_trans lo 40 160); auto.
    - apply (ltb_trans 40 160 hi); auto. }
  split; [exact Hbt|].
  assert (Hfb : is_finite bottom = true)
    by (unfold bottom; destruct (lo <? 40)%float; auto).
  assert (Hft : is_finite top = true)
    by (unfold top; destruct (160 <? hi)%float; auto).
  unfold set_lim at 1, validate_limit. rewrite Hlo, Hhi. cbn [bind].
  rewrite K1. cbn [fst snd].
  replace (pymin lo hi) with lo
    by (unfold pymin; now rewrite (ltb_asym lo hi Hlt)).
  replace (pymax lo hi) with hi by (unfold pymax; now rewrite Hlt).
  rewrite (ltb_asym lo hi Hlt).
  change (show_ticks (lo, hi) (range 40 170 10))
    with (set_view_interval (lo, hi) 40 160).
  unfold set_view_interval. cbn [fst snd]. rewrite Hlt.
  change (pymin 40 160) with 40%float. change (pymax 40 160) with 160%float.
  unfold pymin, pymax. fold bottom. fold top. cbn [fst snd].
  unfold set_lim, validate_limit. rewrite Hfb, Hft. cbn [bind].
  rewrite (nonsingular_swap bottom top Hbt), K2. cbn [fst snd].
  unfold pymin, pymax. rewrite Hbt, (ltb_asym bottom top Hbt). reflexivity.
Qed.

(** What [draw_figure] makes of the data when it accepts the limits. *)
Lemma figure_limits (df : DataFrame) (lims : float * float) :
  view_limits df = Ok lims ->
  exists mn mx,
    least (distances df) mn /\ greatest (distances df) mx /\
    let lo := (mn * 0.9)%float in
    let hi := (mx * 1.05)%float in
    let bottom := if (lo <? 40)%float then lo else 40%float in
    let top := if (160 <? hi)%float then hi else 160%float in
    ((lo <? hi)%float = true -> kept lo hi -> kept bottom top ->
     lims = (top, bottom) /\ (bottom <? top)%float = true).
Proof.
  intros Hv. destruct (view_limits_finite df lims Hv) as [Hlo Hhi].
  exists (pymin (series_min (map distance_from_pmj_end df))
                (series_min (map distance_from_pmj_start df))),
         (pymax (series_max (map distance_from_pmj_end df))
                (series_max (map distance_from_pmj_start df))).
  split; [|split].
  - apply pymin_columns_least. now apply mul_finite_not_nan in Hlo.
  - apply pymax_columns_greatest. now apply mul_finite_not_nan in Hhi.
  - intros lo hi bottom top Hlt K1 K2.
    destruct (limits_widened lo hi Hlo Hhi Hlt K1 K2) as [Hbt E].
    split; [|exact Hbt].
    change (view_limits df = Ok (top, bottom)) in E.
    rewrite E in Hv. now inversion Hv.
Qed.

(** ** Sums that hold infinities of both signs *)

Lemma SFadd_after_pinf (a y : spec_float) :
  a = S754_infinity false \/ a = S754_nan ->
  SFadd prec emax a y = S754_infinity false \/ SFadd prec emax a y = S754_nan.
Proof.
  intros [->| ->]; destruct y as [s|[|]| |s m e]; simpl; auto.
Qed.

Lemma SFadd_after_ninf (a y : spec_float) :
  a = S754_infinity true \/ a = S754_nan ->
  SFadd prec emax a y = S754_infinity true \/ SFadd prec emax a y = S754_nan.
Proof.
  intros [->| ->]; destruct y as [s|[|]| |s m e]; simpl; auto.
Qed.

Lemma SFadd_pinf (a : spec_float) :
  SFadd prec emax a (S754_infinity false) = S754_infinity false \/
  SFadd prec emax a (S754_infinity false) = S754_nan.
Proof. destruct a as [s|[|]| |s m e]; simpl; auto. Qed.

Lemma SFadd_ninf (a : spec_float) :
  SFadd prec emax a (S754_infinity true) = S754_infinity true \/
  SFadd prec emax a (S754_infinity true) = S754_nan.
Proof. destruct a as [s|[|]| |s m e]; simpl; auto. Qed.

Lemma infinity_spec : Prim2SF infinity = S754_infinity false.
Proof. reflexivity. Qed.

Lemma neg_infinity_spec : Prim2SF neg_infinity = S754_infinity true.
Proof. reflexivity. Qed.

Lemma fold_add_nan (xs : list float) (a : float) :
  Prim2SF a = S754_nan -> Prim2SF (fold_left PrimFloat.add xs a) = S754_nan.
Proof.
  revert a. induction xs as [|x t IH]; simpl; intros a Ha; auto.
  apply IH. rewrite add_spec. unfold SF64add. now rewrite Ha.
Qed.

Lemma fold_add_pinf_then_ninf (xs : list float) (a : float) :
  Prim2SF a = S754_infinity false \/ Prim2SF a = S754_nan ->
  In neg_infinity xs ->
  Prim2SF (fold_left PrimFloat.add xs a) = S754_nan.
Proof.
  revert a. induction xs as [|x t IH]; simpl; intros a Ha Hin; [tauto|].
  destruct Hin as [->|Hin].
  - apply fold_add_nan. rewrite add_spec, neg_infinity_spec. unfold SF64add.
    destruct Ha as [-> | ->]; reflexivity.
  - apply IH; auto. rewrite add_spec. now apply SFadd_after_pinf.
Qed.

Lemma fold_add_ninf_then_pinf (xs : list float) (a : float) :
  Prim2SF a = S754_infinity true \/ Prim2SF a = S754_nan ->
  In infinity xs ->
  Prim2SF (fold_left PrimFloat.add xs a) = S754_nan.
Proof.
  revert a. induction xs as [|x t IH]; simpl; intros a Ha Hin; [tauto|].
  destruct Hin as [->|Hin].
  - apply fold_add_nan. rewrite add_spec, infinity_spec. unfold SF64add.
    destruct Ha as [-> | ->]; reflexivity.
  - apply IH; auto. rewrite add_spec. now apply SFadd_after_ninf.
Qed.

Lemma infinities_differ : infinity <> neg_infinity.
Proof.
  intros E. apply (f_equal Prim2SF) in E.
  rewrite infinity_spec, neg_infinity_spec in E. discriminate.
Qed.

(** A sum over values that hold both infinities is NaN, wherever the two
    stand. *)
Lemma fold_add_both_infinities (xs : list float) (a : float) :
  In infinity xs -> In neg_infinity xs ->
  Prim2SF (fold_left PrimFloat.add xs a) = S754_nan.
Proof.
  revert a. induction xs as [|x t IH]; simpl; intros a Hp Hn; [tauto|].
  destruct Hp as [Hp|Hp]; destruct Hn as [Hn|Hn].
  - exfalso. apply infinities_differ. congruence.
  - subst x. apply fold_add_pinf_then_ninf; auto.
    rewrite add_spec, infinity_spec. apply SFadd_pinf.
  - subst x. apply fold_add_ninf_then_pinf; auto.
    rewrite add_spec, neg_infinity_spec. apply SFadd_ninf.
  - now apply IH.
Qed.

(** The mean over values that hold both infinities is NaN. *)
Lemma nanmean_both_infinities (xs : list float) :
  In infinity xs -> In neg_infinity xs -> isna (nanmean xs) = true.
Proof.
  intros Hp Hn. unfold isna, nanmean, fsum. apply is_nan_spec.
  rewrite div_spec,
    (fold_add_both_infinities (dropna xs) 0%float).
  - reflexivity.
  - apply in_dropna. split; [exact Hp|reflexivity].
  - apply in_dropna. split; [exact Hn|reflexivity].
Qed.

(** ** [main] *)

Lemma pbind_ret {A B : Type} (a : A) (k : A -> Py B) : pbind (ret a) k = k a.
Proof. unfold pbind, ret; simpl. now destruct (k a). Qed.

Lemma pbind_lift_ok {A B : Type} (a : A) (k : A -> Py B) :
  pbind (lift (Ok a)) k = k a.
Proof. unfold pbind, lift; simpl. now destruct (k a). Qed.

Lemma read_all (csv_files : list (string * list CsvRow)) :
  for_each (fun csv_file acc => Ok (acc ++ [snd csv_file])) csv_files []
  = Ok (map snd csv_files).
Proof.
  rewrite (for_each_acc (@app (list CsvRow)) (@app_nil_r _)
             (fun s a b => eq_sym (app_assoc s a b))
             _ (fun f => [snd f])) by reflexivity.
  simpl. f_equal; induction csv_files as [|f t IH]; simpl; congruence.
Qed.

(** With its directory and at least one input file, [main] runs the two
    output stages on the prepared frame. *)
Lemma main_run (v : pandas_version) (arg dir : string)
  (csv_files : list (string * list CsvRow)) :
  csv_files <> [] ->
  main v arg dir true csv_files
  = pbind (generate_figure (prepared csv_files) dir)
          (fun _ => compute_mean_and_COV v (prepared csv_files) dir).
Proof.
  intros H. unfold main. simpl negb. cbv iota.
  rewrite pbind_ret.
  destruct csv_files as [|f t]; [congruence|].
  simpl Nat.eqb. cbv iota. rewrite pbind_ret.
  rewrite read_all, pbind_lift_ok.
  simpl pd_concat. rewrite pbind_lift_ok. reflexivity.
Qed.

Lemma main_outputs (v : pandas_version) (arg dir : string) (isdir : bool)
  (csv_files : list (string * list CsvRow)) (ev : event) :
  In ev (fst (main v arg dir isdir csv_files)) ->
  (exists line, ev = Print line) \/
  In ev (fst (generate_figure (prepared csv_files) dir)) \/
  In ev (fst (compute_mean_and_COV v (prepared csv_files) dir)).
Proof.
  destruct isdir.
  - destruct csv_files as [|f t].
    + simpl. intros [<-|[]]. left. eauto.
    + rewrite main_run by discriminate. unfold pbind.
      destruct (snd (generate_figure _ dir)); simpl; auto.
      rewrite in_app_iff. tauto.
  - simpl. intros [<-|[]]. left. eauto.
Qed.

Lemma prepared_levels (csv_files : list (string * list CsvRow)) (m : Measurement) :
  In m (prepared csv_files) -> In (spinal_level m) CERVICAL_LEVELS.
Proof.
  unfold prepared, level_filter. intros H.
  apply in_map_iff in H as (r & <- & Hr). apply filter_In in Hr as [_ Hr].
  unfold isin in Hr. apply existsb_exists in Hr as (x & Hx & E).
  apply Z.eqb_eq in E. simpl. now rewrite E.
Qed.

Lemma compute_no_savefig (v : pandas_version) (df : DataFrame) (dir p : string)
  (ax : Axes) (dpi : Z) :
  ~ In (SaveFig p ax dpi) (fst (compute_mean_and_COV v df dir)).
Proof.
  unfold compute_mean_and_COV, pbind, lift, emit, print; simpl.
  destruct (cov_table v df); simpl; intuition discriminate.
Qed.

Lemma generate_no_writecsv (df : DataFrame) (dir p : string) (f : CsvTable) :
  ~ In (WriteCsv p f) (fst (generate_figure df dir)).
Proof.
  unfold generate_figure, pbind, lift, emit, print; simpl.
  destruct (draw_figure df); simpl; intuition discriminate.
Qed.

(** * The claims *)

(** C5.  The level filter keeps exactly the rows whose [spinal_level] is
    one of 2, 3, 4, 5, 6, 7, 8.  It is a total function from frames to
    frames (it has no way to raise), a row of level 1 or 9 is never kept,
    the result may be empty, and no level outside 2..8 reaches an output
    of [main]: neither a level number drawn in the figure nor an index
    label of the written table. *)
Theorem level_filter_keeps_cervical :
  (forall df r,
      In r (level_filter df) <->
      In r df /\ In (csv_spinal_level r) [2; 3; 4; 5; 6; 7; 8]%Z) /\
  (forall df r,
      (csv_spinal_level r = 1 \/ csv_spinal_level r = 9)%Z ->
      ~ In r (level_filter df)) /\
  (exists df, df <> [] /\ level_filter df = []) /\
  (forall v arg dir isdir csv_files,
      (forall p ax dpi x y label,
          In (SaveFig p ax dpi) (fst (main v arg dir isdir csv_files)) ->
          In (Text x y label) (artists ax) ->
          In label [2; 3; 4; 5; 6; 7; 8]%Z) /\
      (forall p f row,
          In (WriteCsv p f) (fst (main v arg dir isdir csv_files)) ->
          In row (csv_rows f) ->
          In (fst row) [2; 3; 4; 5; 6; 7; 8]%Z)).
Proof.
  assert (Hkeep : forall df r,
             In r (level_filter df) <->
             In r df /\ In (csv_spinal_level r) [2; 3; 4; 5; 6; 7; 8]%Z).
  { intros df r. unfold level_filter, isin. rewrite filter_In.
    rewrite existsb_exists. unfold CERVICAL_LEVELS. split.
    - intros [H (x & Hx & E)]. apply Z.eqb_eq in E. subst. auto.
    - intros [H Hl]. split; auto. exists (csv_spinal_level r).
      split; auto. apply Z.eqb_refl. }
  split; [exact Hkeep|]. split; [|split].
  - intros df r Hl Hin. apply Hkeep in Hin as [_ Hin].
    simpl in Hin. destruct Hl as [E|E]; rewrite E in Hin;
      intuition discriminate.
  - exists [mkCsvRow "sub-007_T2w_label-rootlet_rater1.nii.gz" 9 150 160 10].
    split; [discriminate|reflexivity].
  - intros v arg dir isdir csv_files. split.
    + intros p ax dpi x y label Hev Hin.
      apply main_outputs in Hev as [[line E]|[Hev|Hev]]; [discriminate| |].
      * apply saved_axes in Hev as (_ & lims & _ & ->). simpl in Hin.
        apply in_plotted in Hin
          as (m & axis & offset & color & Hm & _ & _ & _ & _ & _ & Ha).
        apply prepared_levels in Hm. unfold shapes in Ha. simpl in Ha.
        destruct Ha as [Ha|[Ha|[Ha|[]]]]; try discriminate.
        inversion Ha; subst. exact Hm.
      * now apply compute_no_savefig in Hev.
    + intros p f row Hev Hrow.
      apply main_outputs in Hev as [[line E]|[Hev|Hev]]; [discriminate| |].
      * now apply generate_no_writecsv in Hev.
      * apply compute_events in Hev as (t & Ht & ->).
        unfold to_csv_table in Hrow. simpl in Hrow.
        apply in_map_iff in Hrow as (lr & <- & Hlr). simpl.
        assert (Hi : In (fst lr) (index t))
          by (unfold index; apply in_map; exact Hlr).
        apply (proj1 (index_cov_table v _ t (fst lr) Ht)) in Hi.
        apply in_levels in Hi as (m & Hm & <-).
        now apply prepared_levels in Hm.
Qed.

Lemma level_filter_keeps_cervical_witness :
  In 4%Z [2; 3; 4; 5; 6; 7; 8]%Z /\
  level_filter (List.concat (map snd files_levels_4_9))
  = [mkCsvRow "sub-007_T2w_label-rootlet_rater1.nii.gz" 4 80 90 10].
Proof.
  split.
  - pose proof (proj1 level_filter_keeps_cervical
                  (List.concat (map snd files_levels_4_9))
                  (mkCsvRow "sub-007_T2w_label-rootlet_rater1.nii.gz" 4 80 90 10))
      as [H _].
    apply H. vm_compute. auto.
  - reflexivity.
Defined.

(** C7.  With an existing directory and no matching input file, [main]
    prints the "No CSV files found" error and does not exit there: it goes
    on to the loading loop and to [pd.concat], and the run ends in the
    [ValueError] that [pd.concat] raises on an empty list, not in
    [SystemExit].  A missing directory, by contrast, exits at once with
    status 1. *)
Theorem no_input_reported_not_fatal :
  forall (v : pandas_version) (arg dir : string),
    main v arg dir true []
    = ([Print ("ERROR: No CSV files found in " ++ dir)],
       Raise (ValueError "No objects to concatenate")) /\
    (forall csv_files,
        main v arg dir false csv_files
        = ([Print ("ERROR: " ++ arg ++ " does not exist.")],
           Raise (SystemExit 1))).
Proof.
  intros v arg dir. split; [reflexivity|]. intros csv_files. reflexivity.
Qed.

(** C6, as the code has it.  When the filtered record set is empty no
    output stage succeeds: [generate_figure] draws nothing and raises
    [ValueError] when it sets the vertical limits (both are NaN), writing no
    image; [compute_mean_and_COV] raises [KeyError] at the pivot of its
    empty result list, writing no table; and [main], given input files
    whose rows are all filtered out, ends in the first of these errors
    with nothing written. *)
Theorem empty_filtered_input_fails (v : pandas_version) (arg dir : string)
  (csv_files : list (string * list CsvRow)) :
  csv_files <> [] ->
  level_filter (List.concat (map snd csv_files)) = [] ->
  generate_figure [] dir
  = ([], Raise (ValueError "Axis limits cannot be NaN or Inf")) /\
  compute_mean_and_COV v [] dir = ([], Raise (KeyError "spinal_level")) /\
  main v arg dir true csv_files
  = ([], Raise (ValueError "Axis limits cannot be NaN or Inf")).
Proof.
  intros Hne Hempty. split; [reflexivity|]. split; [reflexivity|].
  rewrite (main_run v arg dir csv_files Hne).
  unfold prepared. rewrite Hempty. reflexivity.
Qed.

Lemma empty_filtered_input_fails_witness :
  generate_figure [] "/data"
  = ([], Raise (ValueError "Axis limits cannot be NaN or Inf")) /\
  compute_mean_and_COV Pandas2 [] "/data"
  = ([], Raise (KeyError "spinal_level")) /\
  main Pandas2 "data" "/data" true files_level_9
  = ([], Raise (ValueError "Axis limits cannot be NaN or Inf")).
Proof.
  apply (empty_filtered_input_fails Pandas2 "data" "/data" files_level_9).
  - discriminate.
  - reflexivity.
Defined.

(** C6, as stated, fails on the input file whose only row has level 9: the
    filtered set is empty and, under either pandas, the run neither
    returns nor writes an image or a table. *)
Lemma empty_input_writes_nothing :
  ~ both_outputs_written (main Pandas1 "data" "/data" true files_level_9) /\
  ~ both_outputs_written (main Pandas2 "data" "/data" true files_level_9).
Proof.
  split; intros (H & _); vm_compute in H; discriminate.
Qed.

(** C4.  For a (subject, rater, level) of the grid matched by exactly one
    row [m], the cell of the pivoted table at that level and (subject,
    rater) column is the float [distance_from_pmj_end + height / 2] of [m],
    and so is the field of every table the function writes; for 50.0 and
    10.0 the midpoint is 55.0.  The aggregation returns because no
    combination of the grid is matched twice. *)
Theorem midpoint_in_table (df : DataFrame) (s r : string) (l : Z)
  (m : Measurement) :
  unambiguous df = true ->
  In s (keys SUBJECT_TO_AXIS) -> In r LIST_OF_RATER ->
  matching df s r l = [m] ->
  midpoint 50 10 = 55%float /\
  (exists results t0,
      collect_midpoints df = Ok results /\
      pivot results = Ok t0 /\
      table_cell t0 l (s, r)
      = Some (Num (distance_from_pmj_end m + height m / 2)%float)) /\
  (forall v dir p f,
      In (WriteCsv p f) (fst (compute_mean_and_COV v df dir)) ->
      csv_cell f l (s, r)
      = Some (render (Num (distance_from_pmj_end m + height m / 2)%float))).
Proof.
  intros Hu Hs Hr Hm.
  assert (Hl : In l (levels df)).
  { assert (H : In m (matching df s r l)) by (rewrite Hm; now left).
    apply in_matching in H as (H & _ & _ & E). apply in_levels. eauto. }
  assert (He : e_mean (level_entry df s r l)
               = Num (distance_from_pmj_end m + height m / 2)%float).
  { unfold level_entry. rewrite Hm. reflexivity. }
  split; [reflexivity|]. split.
  - exists (entries df), (pivot_table df). split; [|split].
    + now apply collect_midpoints_ok.
    + apply pivot_ok. intros E. rewrite E in Hl. destruct Hl.
    + rewrite table_cell_pivot by auto. now rewrite He.
  - intros v dir p f Hev.
    apply compute_events in Hev as (t & Ht & ->).
    rewrite csv_cell_render, (midpoint_cell v df t s r l Ht Hs Hr Hl), He.
    reflexivity.
Qed.

Lemma midpoint_in_table_witness :
  midpoint 50 10 = 55%float /\
  (exists results t0,
      collect_midpoints df_three_raters = Ok results /\
      pivot results = Ok t0 /\
      table_cell t0 2 ("sub-barcelona01", "rater2")
      = Some (Num (52 + 11 / 2)%float)) /\
  (forall v dir p f,
      In (WriteCsv p f)
         (fst (compute_mean_and_COV v df_three_raters dir)) ->
      csv_cell f 2 ("sub-barcelona01", "rater2")
      = Some (render (Num (52 + 11 / 2)%float))).
Proof.
  apply (midpoint_in_table df_three_raters "sub-barcelona01" "rater2" 2
           (example "sub-barcelona01" "rater2" 2 41 52 11)).
  - reflexivity.
  - simpl; auto.
  - simpl; auto.
  - reflexivity.
Defined.

(** C3, as the code has it.  For a (subject, rater, level) of the grid
    matched by no row, the aggregation appends an entry whose value is the
    string 'n/a' (a marker, not a number; the entry is not left out), the
    pivoted table holds that string at the level and (subject, rater)
    column, and [to_csv] writes such a cell as the text n/a: every table
    the function writes shows n/a there, not the empty field it uses for
    NaN. *)
Theorem missing_combination_marker (df : DataFrame) (s r : string) (l : Z) :
  unambiguous df = true ->
  In s (keys SUBJECT_TO_AXIS) -> In r LIST_OF_RATER -> In l (levels df) ->
  matching df s r l = [] ->
  (exists results t0,
      collect_midpoints df = Ok results /\
      In (mkEntry s r l (Str "n/a")) results /\
      pivot results = Ok t0 /\
      table_cell t0 l (s, r) = Some (Str "n/a")) /\
  render (Str "n/a") = FieldText "n/a" /\
  (forall v dir p f,
      In (WriteCsv p f) (fst (compute_mean_and_COV v df dir)) ->
      csv_cell f l (s, r) = Some (FieldText "n/a")).
Proof.
  intros Hu Hs Hr Hl Hm.
  assert (He : level_entry df s r l = mkEntry s r l (Str "n/a")).
  { unfold level_entry. now rewrite Hm. }
  split; [|split; [reflexivity|]].
  - exists (entries df), (pivot_table df). split; [|split; [|split]].
    + now apply collect_midpoints_ok.
    + rewrite <- He. apply in_entries. exists s, r, l. auto.
    + apply pivot_ok. intros E. rewrite E in Hl. destruct Hl.
    + rewrite table_cell_pivot by auto. now rewrite He.
  - intros v dir p f Hev.
    apply compute_events in Hev as (t & Ht & ->).
    rewrite csv_cell_render, (midpoint_cell v df t s r l Ht Hs Hr Hl), He.
    reflexivity.
Qed.

Lemma missing_combination_marker_witness :
  (exists results t0,
      collect_midpoints df_three_raters = Ok results /\
      In (mkEntry "sub-barcelona01" "rater4" 2 (Str "n/a")) results /\
      pivot results = Ok t0 /\
      table_cell t0 2 ("sub-barcelona01", "rater4") = Some (Str "n/a")) /\
  render (Str "n/a") = FieldText "n/a" /\
  (forall v dir p f,
      In (WriteCsv p f)
         (fst (compute_mean_and_COV v df_three_raters dir)) ->
      csv_cell f 2 ("sub-barcelona01", "rater4") = Some (FieldText "n/a")).
Proof.
  apply (missing_combination_marker df_three_raters
           "sub-barcelona01" "rater4" 2).
  - reflexivity.
  - simpl; auto.
  - simpl; auto 10.
  - vm_compute. auto.
  - reflexivity.
Defined.

(** C3, as stated, fails on the frame with three of the four raters at
    level 2: the cell of the missing rater is not written as the empty
    field.  Under pandas 1 the table is written and shows the text n/a
    there; under pandas 2 no table is written at all. *)
Lemma missing_marker_not_written_empty :
  ~ written_as_empty Pandas1 df_three_raters "/data" 2
      ("sub-barcelona01", "rater4") /\
  ~ written_as_empty Pandas2 df_three_raters "/data" 2
      ("sub-barcelona01", "rater4") /\
  (exists t,
      cov_table Pandas1 df_three_raters = Ok t /\
      csv_cell (to_csv_table t) 2 ("sub-barcelona01", "rater4")
      = Some (FieldText "n/a")).
Proof.
  assert (H1 : exists t,
             cov_table Pandas1 df_three_raters = Ok t /\
             csv_cell (to_csv_table t) 2 ("sub-barcelona01", "rater4")
             = Some (FieldText "n/a")).
  { destruct (cov_table Pandas1 df_three_raters) as [t|e] eqn:E;
      [|vm_compute in E; discriminate].
    exists t. split; auto.
    rewrite csv_cell_render,
      (midpoint_cell Pandas1 df_three_raters t "sub-barcelona01" "rater4" 2 E);
      simpl; auto 10. }
  split; [|split; [|exact H1]].
  - intros (p & f & Hev & Hc).
    apply compute_events in Hev as (t & Ht & ->).
    destruct H1 as (t' & Ht' & Hc'). rewrite Ht in Ht'. inversion Ht'; subst.
    congruence.
  - intros (p & f & Hev & _). vm_compute in Hev. exact Hev.
Qed.

(** C8.  When no combination of the grid is matched twice and matplotlib
    accepts the vertical limits the data give, the figure is saved and,
    for every row [m] whose subject and rater are in the rosters, it
    holds: a rectangle anchored at x = the subject's axis position plus
    the rater's offset, of width 0.1, spanning [distance_from_pmj_end,
    distance_from_pmj_end + height] vertically, in the rater's colour; the
    level number; and a line across the rectangle at
    distance_from_pmj_end + height / 2.  For every subject position, the
    rectangle of an earlier rater of [LIST_OF_RATER] ends strictly left of
    where the rectangle of a later rater begins, so rectangles of
    different raters never overlap. *)
Theorem rectangle_layout (df : DataFrame) (dir : string) (m : Measurement)
  (lims : float * float) :
  unambiguous df = true ->
  view_limits df = Ok lims ->
  In m df ->
  In (subject m) (keys SUBJECT_TO_AXIS) -> In (rater m) LIST_OF_RATER ->
  (exists ax axis offset color,
      generate_figure df dir
      = ([SaveFig (path_join dir fname_figure) ax 300;
          Print ("Figure saved to " ++ path_join dir fname_figure)], Ok tt) /\
      dict_get SUBJECT_TO_AXIS (subject m) = Ok axis /\
      dict_get RATER_XOFFSET (rater m) = Ok offset /\
      dict_get RATER_COLOR (rater m) = Ok color /\
      let x := (float_of_int axis + offset)%float in
      let y := distance_from_pmj_end m in
      let mid := (distance_from_pmj_end m + height m / 2)%float in
      In (Rectangle x y 0.1 (height m) color 0.5) (artists ax) /\
      vertical_span (Rectangle x y 0.1 (height m) color 0.5)
      = Some (y, (y + height m)%float) /\
      In (Text (x + 0.05)%float y (spinal_level m)) (artists ax) /\
      In (Line2D [x; (x + 0.1)%float] [mid; mid] "black") (artists ax)) /\
  (forall axis i j ri rj oi oj,
      In axis (values SUBJECT_TO_AXIS) ->
      nth_error LIST_OF_RATER i = Some ri ->
      nth_error LIST_OF_RATER j = Some rj ->
      (i < j)%nat ->
      dict_get RATER_XOFFSET ri = Ok oi ->
      dict_get RATER_XOFFSET rj = Ok oj ->
      (rect_right axis oi <? rect_left axis oj)%float = true).
Proof.
  intros Hu Hv Hm Hs Hr. split.
  - destruct (dict_get_key SUBJECT_TO_AXIS _ Hs) as [axis E1].
    destruct (dict_get_key RATER_XOFFSET _ Hr) as [offset E2].
    destruct (dict_get_key RATER_COLOR _ Hr) as [color E3].
    exists (finished_axes df lims), axis, offset, color.
    split; [now apply generate_figure_ok|].
    repeat (split; [assumption|]).
    pose proof (shapes_plotted df m axis offset color Hu Hm E1 E2 E3 Hs Hr)
      as Hin.
    simpl. unfold shapes, midpoint in Hin.
    repeat split; try reflexivity; apply Hin; simpl; auto.
  - intros axis i j ri rj oi oj Ha Hi Hj Hlt Hoi Hoj.
    simpl in Ha.
    destruct i as [|[|[|[|i]]]]; simpl in Hi;
      try (destruct i; discriminate); inversion Hi; subst ri; clear Hi;
      (destruct j as [|[|[|[|j]]]]; simpl in Hj;
       try (destruct j; discriminate); try lia;
       inversion Hj; subst rj; clear Hj);
      vm_compute in Hoi; vm_compute in Hoj;
      inversion Hoi; inversion Hoj; subst oi oj;
      destruct Ha as [<-|[<-|[<-|[<-|[<-|[]]]]]]; vm_compute; reflexivity.
Qed.

Lemma rectangle_layout_witness :
  (exists ax axis offset color,
      generate_figure df_three_raters "/data"
      = ([SaveFig (path_join "/data" fname_figure) ax 300;
          Print ("Figure saved to " ++ path_join "/data" fname_figure)],
         Ok tt) /\
      dict_get SUBJECT_TO_AXIS "sub-barcelona01" = Ok axis /\
      dict_get RATER_XOFFSET "rater2" = Ok offset /\
      dict_get RATER_COLOR "rater2" = Ok color /\
      let x := (float_of_int axis + offset)%float in
      let y := 52%float in
      let mid := (52 + 11 / 2)%float in
      In (Rectangle x y 0.1 11 color 0.5) (artists ax) /\
      vertical_span (Rectangle x y 0.1 11 color 0.5)
      = Some (y, (y + 11)%float) /\
      In (Text (x + 0.05)%float y 2) (artists ax) /\
      In (Line2D [x; (x + 0.1)%float] [mid; mid] "black") (artists ax)) /\
  (forall axis i j ri rj oi oj,
      In axis (values SUBJECT_TO_AXIS) ->
      nth_error LIST_OF_RATER i = Some ri ->
      nth_error LIST_OF_RATER j = Some rj ->
      (i < j)%nat ->
      dict_get RATER_XOFFSET ri = Ok oi ->
      dict_get RATER_XOFFSET rj = Ok oj ->
      (rect_right axis oi <? rect_left axis oj)%float = true).
Proof.
  apply (rectangle_layout df_three_raters "/data"
           (example "sub-barcelona01" "rater2" 2 41 52 11)
           (160%float, (39 * 0.9)%float)).
  - reflexivity.
  - vm_compute. reflexivity.
  - simpl; auto.
  - simpl; auto.
  - simpl; auto.
Defined.

(** C9, as the code has it.  The least of all start and end distances
    times 0.9 and the greatest times 1.05 are what line 126 hands to
    [set_ylim], but they are not the limits of the saved figure:
    [set_yticks] (line 138) then widens the view so that it holds its
    ticks 40 and 160, and line 141 turns the widened view upside down.
    So for every figure the function saves, whose frame then has rows:
    the ticks are 40, 50, ..., 160 whatever the data; and when the padded
    least distance [lo] is below the padded greatest [hi] (and matplotlib
    has no interval to widen for being narrow up to rounding), the limits
    are the greater of 160 and [hi] first, then the smaller of 40 and
    [lo], which inverts the axis. *)
Theorem vertical_axis_limits (df : DataFrame) (dir p : string) (ax : Axes)
  (dpi : Z) :
  In (SaveFig p ax dpi) (fst (generate_figure df dir)) ->
  df <> [] /\
  yticks ax = [40; 50; 60; 70; 80; 90; 100; 110; 120; 130; 140; 150; 160]%Z /\
  exists mn mx,
    least (distances df) mn /\ greatest (distances df) mx /\
    let lo := (mn * 0.9)%float in
    let hi := (mx * 1.05)%float in
    let low := if (lo <? 40)%float then lo else 40%float in
    let high := if (160 <? hi)%float then hi else 160%float in
    ((lo <? hi)%float = true -> kept lo hi -> kept low high ->
     ylim ax = (high, low) /\ inverted ax = true).
Proof.
  intros Hev. apply saved_axes in Hev as (_ & lims & Hv & ->).
  split; [|split].
  - intros ->. vm_compute in Hv. discriminate.
  - reflexivity.
  - destruct (figure_limits df lims Hv) as (mn & mx & Hmn & Hmx & H).
    exists mn, mx. split; [exact Hmn|]. split; [exact Hmx|].
    intros lo hi low high Hlt K1 K2.
    destruct (H Hlt K1 K2) as [-> Hinv]. split; [reflexivity|exact Hinv].
Qed.

Lemma vertical_axis_limits_witness :
  In (SaveFig (path_join "/data" fname_figure)
        (finished_axes df_three_raters (160%float, (39 * 0.9)%float)) 300)
     (fst (generate_figure df_three_raters "/data")) /\
  df_three_raters <> [] /\
  yticks (finished_axes df_three_raters (160%float, (39 * 0.9)%float))
  = [40; 50; 60; 70; 80; 90; 100; 110; 120; 130; 140; 150; 160]%Z /\
  (exists mn mx,
    least (distances df_three_raters) mn /\
    greatest (distances df_three_raters) mx /\
    let lo := (mn * 0.9)%float in
    let hi := (mx * 1.05)%float in
    let low := if (lo <? 40)%float then lo else 40%float in
    let high := if (160 <? hi)%float then hi else 160%float in
    ((lo <? hi)%float = true -> kept lo hi -> kept low high ->
     ylim (finished_axes df_three_raters (160%float, (39 * 0.9)%float))
     = (high, low) /\
     inverted (finished_axes df_three_raters (160%float, (39 * 0.9)%float))
     = true)) /\
  least (distances df_three_raters) 39 /\
  greatest (distances df_three_raters) 52 /\
  (39 * 0.9 <? 52 * 1.05)%float = true /\
  kept (39 * 0.9) (52 * 1.05) /\ kept (39 * 0.9) 160.
Proof.
  assert (Hev : In (SaveFig (path_join "/data" fname_figure)
                      (finished_axes df_three_raters
                         (160%float, (39 * 0.9)%float)) 300)
                   (fst (generate_figure df_three_raters "/data"))).
  { rewrite (generate_figure_ok df_three_raters "/data"
               (160%float, (39 * 0.9)%float));
      [now left|reflexivity|vm_compute; reflexivity]. }
  split; [exact Hev|].
  destruct (vertical_axis_limits df_three_raters "/data"
              (path_join "/data" fname_figure)
              (finished_axes df_three_raters (160%float, (39 * 0.9)%float))
              300 Hev) as (H1 & H2 & H3).
  split; [exact H1|]. split; [exact H2|]. split; [exact H3|].
  split; [|split; [|split; [|split]]].
  - split; [do 5 right; left; reflexivity|]. split; [reflexivity|].
    intros y Hy _. vm_compute in Hy.
    repeat (destruct Hy as [<-|Hy]; [vm_compute; reflexivity|]).
    destruct Hy.
  - split; [right; left; reflexivity|]. split; [reflexivity|].
    intros y Hy _. vm_compute in Hy.
    repeat (destruct Hy as [<-|Hy]; [vm_compute; reflexivity|]).
    destruct Hy.
  - vm_compute. reflexivity.
  - vm_compute. reflexivity.
  - vm_compute. reflexivity.
Defined.

(** C9, as stated, fails on the frame with three raters at level 2, whose
    distances run from 39 to 52: the figure is saved with the limits 160
    and 39 * 0.9, not with 52 * 1.05 and 39 * 0.9. *)
Lemma padded_extremes_not_the_limits :
  ~ limits_are_padded_extremes df_three_raters "/data" /\
  (exists ax,
      generate_figure df_three_raters "/data"
      = ([SaveFig (path_join "/data" fname_figure) ax 300;
          Print ("Figure saved to " ++ path_join "/data" fname_figure)],
         Ok tt) /\
      ylim ax = (160%float, (39 * 0.9)%float) /\
      (52 * 1.05 <? 160)%float = true).
Proof.
  assert (Hv : view_limits df_three_raters = Ok (160%float, (39 * 0.9)%float))
    by (vm_compute; reflexivity).
  split.
  - intros (p & ax & dpi & mn & mx & Hev & _ & (Hmx & _ & _) & Hlim).
    apply saved_axes in Hev as (_ & lims & Hv' & ->).
    rewrite Hv in Hv'. inversion Hv'; subst lims. cbn [ylim finished_axes] in Hlim.
    assert (E : (mx * 1.05 <? 160)%float = true).
    { vm_compute in Hmx.
      repeat (destruct Hmx as [<-|Hmx]; [vm_compute; reflexivity|]).
      destruct Hmx. }
    injection Hlim as E1 E2. rewrite <- E1 in E.
    vm_compute in E. discriminate.
  - exists (finished_axes df_three_raters (160%float, (39 * 0.9)%float)).
    split; [|split; [reflexivity|vm_compute; reflexivity]].
    now apply generate_figure_ok.
Qed.

(** C10.  Let [m] be a row whose subject is not in the subject roster or
    whose rater is not in the rater list.  Every artist of a saved figure
    is one of the shapes of some other row, one whose subject and rater
    are in the rosters; the midpoint columns of a written table are all
    (roster subject, roster rater) pairs, hence none is the column of
    [m]; yet the vertical limits come from the least and the greatest
    distance over all rows, those of [m] included: padded by 0.9 and 1.05
    and widened to hold the ticks 40 and 160.  For instance a row of an
    unknown subject with distances 30 and 170, added to a roster row with
    distances 60 and 70, leaves the artists unchanged and moves the limits
    from (160, 40) to (170 * 1.05, 30 * 0.9). *)
Theorem outsider_rows (v : pandas_version) (df : DataFrame) (dir : string)
  (m : Measurement) :
  In m df ->
  ~ In (subject m) (keys SUBJECT_TO_AXIS) \/ ~ In (rater m) LIST_OF_RATER ->
  (forall p ax dpi,
      In (SaveFig p ax dpi) (fst (generate_figure df dir)) ->
      (forall a, In a (artists ax) ->
         exists m' axis offset color,
           In m' df /\ m' <> m /\
           In (subject m') (keys SUBJECT_TO_AXIS) /\
           In (rater m') LIST_OF_RATER /\
           dict_get SUBJECT_TO_AXIS (subject m') = Ok axis /\
           dict_get RATER_XOFFSET (rater m') = Ok offset /\
           dict_get RATER_COLOR (rater m') = Ok color /\
           In a (shapes (float_of_int axis + offset)%float
                        (distance_from_pmj_end m') (height m') color
                        (spinal_level m'))) /\
      exists mn mx,
        least (distances df) mn /\ greatest (distances df) mx /\
        (forall d,
            d = distance_from_pmj_start m \/ d = distance_from_pmj_end m ->
            is_nan d = false ->
            (mn <=? d)%float = true /\ (d <=? mx)%float = true) /\
        let lo := (mn * 0.9)%float in
        let hi := (mx * 1.05)%float in
        let low := if (lo <? 40)%float then lo else 40%float in
        let high := if (160 <? hi)%float then hi else 160%float in
        ((lo <? hi)%float = true -> kept lo hi -> kept low high ->
         ylim ax = (high, low))) /\
  (forall p f,
      In (WriteCsv p f) (fst (compute_mean_and_COV v df dir)) ->
      exists midpoint_columns,
        csv_header f = midpoint_columns ++ cov_keys ++ [mean_key] /\
        (forall c, In c midpoint_columns ->
           In (fst c) (keys SUBJECT_TO_AXIS) /\ In (snd c) LIST_OF_RATER) /\
        ~ In (subject m, rater m) midpoint_columns) /\
  (exists ax1 ax2,
      draw_figure df_with_outsider = Ok ax1 /\
      draw_figure df_roster_only = Ok ax2 /\
      artists ax1 = artists ax2 /\
      ylim ax1 = ((170 * 1.05)%float, (30 * 0.9)%float) /\
      ylim ax2 = (160%float, 40%float)).
Proof.
  intros Hm Hout. split; [|split].
  - intros p ax dpi Hev.
    apply saved_axes in Hev as (_ & lims & Hv & ->). split.
    + simpl. intros a Ha.
      apply in_plotted in Ha
        as (m' & axis & offset & color & Hm' & E1 & E2 & E3 & Hs & Hr & Ha).
      exists m', axis, offset, color. repeat (split; [auto|]); auto.
      intros ->. tauto.
    + destruct (figure_limits df lims Hv) as (mn & mx & Hmn & Hmx & H).
      exists mn, mx. split; [exact Hmn|]. split; [exact Hmx|]. split.
      * intros d Hd Hn.
        assert (Hin : In d (distances df)).
        { unfold distances. apply in_or_app.
          destruct Hd as [-> | ->]; [right|left]; now apply in_map. }
        destruct Hmn as (_ & _ & Hle). destruct Hmx as (_ & _ & Hge).
        split; auto.
      * intros lo hi low high Hlt K1 K2.
        now destruct (H Hlt K1 K2) as [-> _].
  - intros p f Hev.
    apply compute_events in Hev as (t & Ht & ->).
    apply cov_table_shape in Ht as (_ & _ & G & _ & Hc & _).
    exists (pivot_columns df). split; [exact Hc|]. split.
    + intros c Hc'. apply in_pivot_columns in Hc'. tauto.
    + intros Hc'. apply in_pivot_columns in Hc'. cbn [fst snd] in Hc'. tauto.
  - exists (finished_axes df_with_outsider
              ((170 * 1.05)%float, (30 * 0.9)%float)),
           (finished_axes df_roster_only (160%float, 40%float)).
    split; [|split; [|split; [|split]]].
    + apply draw_figure_ok; vm_compute; reflexivity.
    + apply draw_figure_ok; vm_compute; reflexivity.
    + cbn [artists finished_axes]. vm_compute. reflexivity.
    + reflexivity.
    + reflexivity.
Qed.

Lemma outsider_rows_witness :
  (forall p ax dpi,
      In (SaveFig p ax dpi) (fst (generate_figure df_with_outsider "/data")) ->
      (forall a, In a (artists ax) ->
         exists m' axis offset color,
           In m' df_with_outsider /\
           m' <> example "sub-unknown" "rater2" 3 30 170 140 /\
           In (subject m') (keys SUBJECT_TO_AXIS) /\
           In (rater m') LIST_OF_RATER /\
           dict_get SUBJECT_TO_AXIS (subject m') = Ok axis /\
           dict_get RATER_XOFFSET (rater m') = Ok offset /\
           dict_get RATER_COLOR (rater m') = Ok color /\
           In a (shapes (float_of_int axis + offset)%float
                        (distance_from_pmj_end m') (height m') color
                        (spinal_level m'))) /\
      exists mn mx,
        least (distances df_with_outsider) mn /\
        greatest (distances df_with_outsider) mx /\
        (forall d,
            d = 30%float \/ d = 170%float ->
            is_nan d = false ->
            (mn <=? d)%float = true /\ (d <=? mx)%float = true) /\
        let lo := (mn * 0.9)%float in
        let hi := (mx * 1.05)%float in
        let low := if (lo <? 40)%float then lo else 40%float in
        let high := if (160 <? hi)%float then hi else 160%float in
        ((lo <? hi)%float = true -> kept lo hi -> kept low high ->
         ylim ax = (high, low))) /\
  (forall p f,
      In (WriteCsv p f)
         (fst (compute_mean_and_COV Pandas1 df_with_outsider "/data")) ->
      exists midpoint_columns,
        csv_header f = midpoint_columns ++ cov_keys ++ [mean_key] /\
        (forall c, In c midpoint_columns ->
           In (fst c) (keys SUBJECT_TO_AXIS) /\ In (snd c) LIST_OF_RATER) /\
        ~ In ("sub-unknown", "rater2") midpoint_columns) /\
  (exists ax1 ax2,
      draw_figure df_with_outsider = Ok ax1 /\
      draw_figure df_roster_only = Ok ax2 /\
      artists ax1 = artists ax2 /\
      ylim ax1 = ((170 * 1.05)%float, (30 * 0.9)%float) /\
      ylim ax2 = (160%float, 40%float)).
Proof.
  apply (outsider_rows Pandas1 df_with_outsider "/data"
           (example "sub-unknown" "rater2" 3 30 170 140)).
  - simpl; auto.
  - left. simpl. intuition discriminate.
Defined.

(** C1, evaluated where the code departs from it.  With three of the four
    raters present at level 2 of a subject, the COV asked for is that of
    the three present midpoints, a number.  The code keeps the string
    'n/a' in the fourth rater's cell, so the row-wise [std] and [mean]
    meet a string: pandas 2 raises [TypeError] and no table is made;
    pandas 1 drops the subject's columns and leaves the COV missing.
    When all four raters are present the same code gives the COV asked
    for. *)
Theorem cov_with_missing_rater :
  (exists msg, cov_table Pandas2 df_three_raters = Raise (TypeError msg)) /\
  (exists t,
      cov_table Pandas1 df_three_raters = Ok t /\
      table_cell t 2 ("sub-barcelona01", "rater1") = Some (Num 55) /\
      table_cell t 2 ("sub-barcelona01", "rater2") = Some (Num 57.5) /\
      table_cell t 2 ("sub-barcelona01", "rater3") = Some (Num 54) /\
      table_cell t 2 ("sub-barcelona01", "rater4") = Some (Str "n/a") /\
      table_cell t 2 (cov_key "sub-barcelona01") = Some (Num nan)) /\
  isna (cov_of_present [Num 55; Num 57.5; Num 54; Str "n/a"]) = false /\
  (forall v, exists t,
      cov_table v df_complete = Ok t /\
      table_cell t 2 (cov_key "sub-barcelona01")
      = Some (Num (cov_of_present [Num 55; Num 57.5; Num 54; Num 57]))).
Proof.
  split; [eexists; vm_compute; reflexivity|].
  split.
  { destruct (cov_table Pandas1 df_three_raters) as [t|e] eqn:E;
      [|vm_compute in E; discriminate].
    exists t. split; [reflexivity|].
    vm_compute in E. injection E as <-.
    repeat split; vm_compute; reflexivity. }
  split; [vm_compute; reflexivity|].
  intros v.
  destruct (cov_table v df_complete) as [t|e] eqn:E;
    [|destruct v; vm_compute in E; discriminate].
  exists t. split; [reflexivity|].
  destruct v; vm_compute in E; injection E as <-; vm_compute; reflexivity.
Qed.

(** C2, as the code has it.  In every row of a table [cov_table]
    returns, the five [COV_<subject>] cells are floats and the [COV_mean]
    cell is their [nanmean]: the sum of the values that are not NaN
    divided by their number.  It is NaN when all five are NaN, and also
    when both infinities are among them; when the values present are all
    finite, a NaN mean means all five are NaN.  With 10 and 20 present and
    the other three missing the mean is 15. *)
Theorem cov_mean_of_defined (v : pandas_version) (df : DataFrame) (t : Table)
  (l : Z) :
  cov_table v df = Ok t ->
  In l (index t) ->
  nanmean [10; 20; nan; nan; nan]%float = 15%float /\
  exists covs,
    Forall2 (fun s x => table_cell t l (cov_key s) = Some (Num x))
            (keys SUBJECT_TO_AXIS) covs /\
    table_cell t l mean_key = Some (Num (nanmean covs)) /\
    nanmean covs = (fsum (dropna covs) / count (dropna covs))%float /\
    ((forall x, In x covs -> isna x = true) -> isna (nanmean covs) = true) /\
    (In infinity covs -> In neg_infinity covs -> isna (nanmean covs) = true) /\
    ((forall x, In x covs -> isna x = false -> is_finite x = true) ->
     isna (nanmean covs) = true ->
     forall x, In x covs -> isna x = true).
Proof.
  intros Ht Hl. split; [reflexivity|].
  apply (index_cov_table v df t l Ht) in Hl.
  destruct (cov_cells v df t l Ht Hl) as (covs & Hcovs & Hmean).
  exists covs. split; [exact Hcovs|]. split; [exact Hmean|].
  split; [reflexivity|]. split; [apply nanmean_all_missing|].
  split; [apply nanmean_both_infinities|].
  intros Hfin Hnan x Hx.
  destruct (isna x) eqn:E; auto. exfalso.
  assert (Hlen : (List.length covs <= 5)%nat).
  { apply Forall2_length in Hcovs. rewrite <- Hcovs. simpl. lia. }
  rewrite (nanmean_number covs Hlen Hfin) in Hnan; [discriminate|].
  exists x. auto.
Qed.

Lemma cov_mean_of_defined_witness :
  exists t,
    cov_table Pandas1 df_one_incomplete = Ok t /\
    In 2%Z (index t) /\
    table_cell t 2 (cov_key "sub-barcelona01") = Some (Num nan) /\
    nanmean [10; 20; nan; nan; nan]%float = 15%float /\
    exists covs,
      Forall2 (fun s x => table_cell t 2 (cov_key s) = Some (Num x))
              (keys SUBJECT_TO_AXIS) covs /\
      table_cell t 2 mean_key = Some (Num (nanmean covs)) /\
      nanmean covs = (fsum (dropna covs) / count (dropna covs))%float /\
      ((forall x, In x covs -> isna x = true) -> isna (nanmean covs) = true) /\
      (In infinity covs -> In neg_infinity covs ->
       isna (nanmean covs) = true) /\
      ((forall x, In x covs -> isna x = false -> is_finite x = true) ->
       isna (nanmean covs) = true ->
       forall x, In x covs -> isna x = true).
Proof.
  destruct (cov_table Pandas1 df_one_incomplete) as [t|e] eqn:E.
  - assert (Hl : In 2%Z (index t)).
    { apply (index_cov_table Pandas1 df_one_incomplete t 2 E).
      vm_compute. auto. }
    exists t. split; [reflexivity|]. split; [exact Hl|]. split.
    + vm_compute in E. inversion E. vm_compute. reflexivity.
    + exact (cov_mean_of_defined Pandas1 df_one_incomplete t 2 E Hl).
  - vm_compute in E. discriminate.
Defined.

(** C2, as stated, fails on a frame where rounding makes the COV of one
    subject +infinity and that of another -infinity (the mean of the
    subject's midpoints is tiny, positive for the one and negative for
    the other): none of the five COVs at level 2 is missing, and yet
    [COV_mean] is. *)
Lemma mean_missing_with_all_defined :
  exists t,
    cov_table Pandas2 df_opposite_infinities = Ok t /\
    In 2%Z (index t) /\
    table_cell t 2 (cov_key "sub-barcelona01") = Some (Num infinity) /\
    table_cell t 2 (cov_key "sub-brnoUhb03") = Some (Num neg_infinity) /\
    table_cell t 2 mean_key = Some (Num nan) /\
    ~ mean_missing_iff_all_missing t 2.
Proof.
  destruct (cov_table Pandas2 df_opposite_infinities) as [t|e] eqn:E;
    [|vm_compute in E; discriminate].
  exists t. split; [reflexivity|].
  vm_compute in E. injection E as <-.
  split; [vm_compute; auto|].
  split; [vm_compute; reflexivity|].
  split; [vm_compute; reflexivity|].
  split; [vm_compute; reflexivity|].
  intros (covs & mean & Hcovs & Hmean & Hiff).
  vm_compute in Hmean. injection Hmean as <-.
  cbv [keys SUBJECT_TO_AXIS map fst] in Hcovs.
  inversion Hcovs as [|s x ss xs Hx Hrest]; subst.
  vm_compute in Hx. injection Hx as <-.
  assert (Hn : isna infinity = true).
  { apply (proj1 Hiff); [reflexivity|now left]. }
  vm_compute in Hn. discriminate.
Qed.

(** * Further properties of the script *)

(** ** File names *)

Lemma split_without (c : ascii) (s : string) :
  contains c s = false -> split c s = [s].
Proof.
  induction s as [|a s IH]; simpl; auto.
  intros H. apply orb_false_iff in H as [Ha Hs].
  rewrite Ha, (IH Hs). reflexivity.
Qed.

Lemma split_at_first (c : ascii) (a b : string) :
  contains c a = false ->
  split c (a ++ String c b) = a :: split c b.
Proof.
  induction a as [|x a IH]; simpl.
  - intros _. now rewrite Ascii.eqb_refl.
  - intros H. apply orb_false_iff in H as [Hx Ha].
    rewrite Hx, (IH Ha). reflexivity.
Qed.

Lemma split_not_nil (c : ascii) (s : string) : split c s <> [].
Proof.
  induction s as [|x s IH]; simpl; [discriminate|].
  destruct (Ascii.eqb x c); [discriminate|].
  destruct (split c s); [congruence|discriminate].
Qed.

Lemma last_cons_not_nil {A : Type} (x d : A) (l : list A) :
  l <> [] -> last (x :: l) d = last l d.
Proof. destruct l; [congruence|reflexivity]. Qed.

(** The last piece of a split only depends on what follows the last
    separator. *)
Lemma split_after (c : ascii) (a b : string) :
  exists h t,
    split c (a ++ String c b) = h :: t /\ t <> [] /\
    forall d, last t d = last (split c b) d.
Proof.
  induction a as [|x a (h & t & E & Ht & Hl)]; simpl.
  - rewrite Ascii.eqb_refl. exists EmptyString, (split c b).
    split; auto. split; auto. apply split_not_nil.
  - destruct (Ascii.eqb x c).
    + exists EmptyString, (h :: t). rewrite E. split; auto.
      split; [discriminate|]. intros d.
      rewrite last_cons_not_nil by assumption. apply Hl.
    + rewrite E. exists (String x h), t. auto.
Qed.

Lemma last_split_after (c : ascii) (a b d : string) :
  last (split c (a ++ String c b)) d = last (split c b) d.
Proof.
  destruct (split_after c a b) as (h & t & E & Ht & Hl).
  rewrite E, last_cons_not_nil by assumption. apply Hl.
Qed.

Lemma contains_app (c : ascii) (a b : string) :
  contains c (a ++ b) = contains c a || contains c b.
Proof.
  induction a as [|x a IH]; simpl; auto. now rewrite IH, orb_assoc.
Qed.

Lemma append_assoc (a b c : string) :
  ((a ++ b) ++ c = a ++ (b ++ c))%string.
Proof. induction a as [|x a IH]; simpl; congruence. Qed.

(** X1.  Lines 250 and 252 recover the identity that a file name of the
    form <subject>_<...>_<rater>.<extension> encodes: when the subject
    holds no underscore, the rater neither an underscore nor a dot, and the
    extension no underscore, the derived [subject] is the part before the
    first underscore and the derived [rater] the part between the last
    underscore and the first dot after it, whatever stands in between. *)
Theorem identity_from_fname (subj mid rat ext : string) :
  contains "_" subj = false ->
  contains "_" rat = false -> contains "." rat = false ->
  contains "_" ext = false ->
  subject_of_fname (subj ++ "_" ++ mid ++ "_" ++ rat ++ "." ++ ext) = subj /\
  rater_of_fname (subj ++ "_" ++ mid ++ "_" ++ rat ++ "." ++ ext) = rat /\
  subject_of_fname (subj ++ "_" ++ rat ++ "." ++ ext) = subj /\
  rater_of_fname (subj ++ "_" ++ rat ++ "." ++ ext) = rat.
Proof.
  intros Hs Hr Hd He.
  assert (Htail : contains "_" (rat ++ "." ++ ext) = false).
  { rewrite contains_app, Hr. simpl. exact He. }
  assert (Hlast : forall pre,
             rater_of_fname (pre ++ "_" ++ rat ++ "." ++ ext) = rat).
  { intros pre. unfold rater_of_fname.
    change (pre ++ "_" ++ rat ++ "." ++ ext)%string
      with (pre ++ String "_" (rat ++ "." ++ ext))%string.
    rewrite last_split_after, (split_without _ _ Htail). simpl last.
    change (rat ++ "." ++ ext)%string with (rat ++ String "." ext)%string.
    now rewrite (split_at_first _ _ _ Hd). }
  assert (Hfirst : forall rest,
             subject_of_fname (subj ++ "_" ++ rest) = subj).
  { intros rest. unfold subject_of_fname.
    change (subj ++ "_" ++ rest)%string with (subj ++ String "_" rest)%string.
    now rewrite (split_at_first _ _ _ Hs). }
  split; [apply Hfirst|]. split; [|split; [apply Hfirst|apply Hlast]].
  replace (subj ++ "_" ++ mid ++ "_" ++ rat ++ "." ++ ext)%string
    with ((subj ++ "_" ++ mid) ++ "_" ++ rat ++ "." ++ ext)%string.
  - apply Hlast.
  - rewrite append_assoc. reflexivity.
Qed.

Lemma identity_from_fname_witness :
  subject_of_fname ("sub-007" ++ "_" ++ "ses-headNormal_T2w_label-rootlet"
                    ++ "_" ++ "rater3" ++ "." ++ "nii.gz") = "sub-007" /\
  rater_of_fname ("sub-007" ++ "_" ++ "ses-headNormal_T2w_label-rootlet"
                  ++ "_" ++ "rater3" ++ "." ++ "nii.gz") = "rater3" /\
  subject_of_fname ("sub-007" ++ "_" ++ "rater3" ++ "." ++ "nii.gz")
  = "sub-007" /\
  rater_of_fname ("sub-007" ++ "_" ++ "rater3" ++ "." ++ "nii.gz") = "rater3".
Proof.
  apply (identity_from_fname "sub-007" "ses-headNormal_T2w_label-rootlet"
           "rater3" "nii.gz"); reflexivity.
Defined.

(** ** Ambiguous combinations *)

Lemma forallb_false {A : Type} (f : A -> bool) (l : list A) :
  forallb f l = false -> exists x, In x l /\ f x = false.
Proof.
  induction l as [|a t IH]; simpl; [discriminate|].
  destruct (f a) eqn:E; simpl.
  - intros H. destruct (IH H) as (x & Hx & Hf). eauto.
  - eauto.
Qed.

(** A loop whose iterations return or raise [e], one of them raising on
    every state, raises [e]. *)
Lemma for_each_raises {A S : Type} (body : A -> S -> res S) (e : exn)
  (l : list A) :
  (forall a s, In a l -> (exists s', body a s = Ok s') \/ body a s = Raise e) ->
  (exists a, In a l /\ forall s, body a s = Raise e) ->
  forall s, for_each body l s = Raise e.
Proof.
  induction l as [|a t IH]; simpl; intros Hall (b & Hb & Hr) s; [tauto|].
  destruct (Hall a s (or_introl eq_refl)) as [(s' & E)|E]; rewrite E; simpl;
    auto.
  destruct Hb as [<-|Hb]; [rewrite Hr in E; discriminate|].
  apply IH; eauto.
Qed.

Lemma for_each_returns_or_raises {A S : Type} (body : A -> S -> res S)
  (e : exn) (l : list A) :
  (forall a s, In a l -> (exists s', body a s = Ok s') \/ body a s = Raise e) ->
  forall s, (exists s', for_each body l s = Ok s') \/
            for_each body l s = Raise e.
Proof.
  induction l as [|a t IH]; simpl; intros Hall s; [eauto|].
  destruct (Hall a s (or_introl eq_refl)) as [(s' & E)|E]; rewrite E; simpl;
    auto.
Qed.

Lemma plot_level_cases (df : DataFrame) (s r : string) (l : Z) (ax : Axes) :
  In s (keys SUBJECT_TO_AXIS) -> In r LIST_OF_RATER ->
  ((List.length (matching df s r l) <= 1)%nat /\
   exists ax', plot_level df s r l ax = Ok ax') \/
  ((List.length (matching df s r l) <=? 1)%nat = false /\
   plot_level df s r l ax
   = Raise (TypeError "cannot convert the series to <class 'float'>")).
Proof.
  intros Hs Hr.
  destruct (List.length (matching df s r l) <=? 1)%nat eqn:E.
  - apply Nat.leb_le in E. left. split; auto.
    rewrite (plot_level_ok df s r l ax Hs Hr E). eauto.
  - right. split; auto. unfold plot_level.
    destruct (matching df s r l) as [|m [|m' t]]; try discriminate.
    reflexivity.
Qed.

Lemma collect_level_cases (df : DataFrame) (s r : string) (l : Z)
  (acc : list Entry) :
  ((List.length (matching df s r l) <= 1)%nat /\
   exists acc', collect_level df s r l acc = Ok acc') \/
  ((List.length (matching df s r l) <=? 1)%nat = false /\
   collect_level df s r l acc
   = Raise (TypeError "cannot convert the series to <class 'float'>")).
Proof.
  destruct (List.length (matching df s r l) <=? 1)%nat eqn:E.
  - apply Nat.leb_le in E. left. split; auto.
    rewrite (collect_level_ok df s r l acc E). eauto.
  - right. split; auto. unfold collect_level.
    destruct (matching df s r l) as [|m [|m' t]]; try discriminate.
    reflexivity.
Qed.

Lemma ambiguous_at (df : DataFrame) :
  unambiguous df = false ->
  exists s r l,
    In s (keys SUBJECT_TO_AXIS) /\ In r LIST_OF_RATER /\ In l (levels df) /\
    (List.length (matching df s r l) <=? 1)%nat = false.
Proof.
  unfold unambiguous. intros H.
  apply forallb_false in H as (s & Hs & H).
  apply forallb_false in H as (r & Hr & H).
  apply forallb_false in H as (l & Hl & H).
  exists s, r, l. auto.
Qed.

Lemma plot_levels_ambiguous (df : DataFrame) (ax : Axes) :
  unambiguous df = false ->
  plot_levels df ax
  = Raise (TypeError "cannot convert the series to <class 'float'>").
Proof.
  intros H. apply ambiguous_at in H as (s & r & l & Hs & Hr & Hl & Hlen).
  unfold plot_levels.
  assert (Hin : forall s' r' ax',
             In s' (keys SUBJECT_TO_AXIS) -> In r' LIST_OF_RATER ->
             (exists ax'',
                 for_each (fun level => plot_level df s' r' level)
                          (levels df) ax' = Ok ax'') \/
             for_each (fun level => plot_level df s' r' level) (levels df) ax'
             = Raise (TypeError "cannot convert the series to <class 'float'>")).
  { intros s' r' ax' Hs' Hr'. apply for_each_returns_or_raises.
    intros l' ax1 _.
    destruct (plot_level_cases df s' r' l' ax1 Hs' Hr') as [[_ H]|[_ H]]; auto. }
  apply for_each_raises.
  - intros s' ax' Hs'. apply for_each_returns_or_raises.
    intros r' ax1 Hr'. now apply Hin.
  - exists s. split; auto. intros ax1. apply for_each_raises.
    + intros r' ax2 Hr'. now apply Hin.
    + exists r. split; auto. intros ax2. apply for_each_raises.
      * intros l' ax3 _.
        destruct (plot_level_cases df s r l' ax3 Hs Hr) as [[_ H]|[_ H]]; auto.
      * exists l. split; auto. intros ax3.
        destruct (plot_level_cases df s r l ax3 Hs Hr) as [[H _]|[_ H]]; auto.
        apply Nat.leb_le in H. congruence.
Qed.

Lemma collect_midpoints_ambiguous (df : DataFrame) :
  unambiguous df = false ->
  collect_midpoints df
  = Raise (TypeError "cannot convert the series to <class 'float'>").
Proof.
  intros H. apply ambiguous_at in H as (s & r & l & Hs & Hr & Hl & Hlen).
  unfold collect_midpoints.
  assert (Hin : forall s' r' acc,
             (exists acc',
                 for_each (fun level => collect_level df s' r' level)
                          (levels df) acc = Ok acc') \/
             for_each (fun level => collect_level df s' r' level)
                      (levels df) acc
             = Raise (TypeError "cannot convert the series to <class 'float'>")).
  { intros s' r' acc. apply for_each_returns_or_raises.
    intros l' acc1 _.
    destruct (collect_level_cases df s' r' l' acc1) as [[_ H]|[_ H]]; auto. }
  apply for_each_raises.
  - intros s' acc Hs'. apply for_each_returns_or_raises.
    intros r' acc1 Hr'. apply Hin.
  - exists s. split; auto. intros acc1. apply for_each_raises.
    + intros r' acc2 Hr'. apply Hin.
    + exists r. split; auto. intros acc2. apply for_each_raises.
      * intros l' acc3 _.
        destruct (collect_level_cases df s r l' acc3) as [[_ H]|[_ H]]; auto.
      * exists l. split; auto. intros acc3.
        destruct (collect_level_cases df s r l acc3) as [[H _]|[_ H]]; auto.
        apply Nat.leb_le in H. congruence.
Qed.

(** X2.  When a (subject, rater, level) of the grid is matched by two or
    more rows, [float(row[...])] (lines 89 and 193) is handed a Series of
    several values: both [generate_figure] and [compute_mean_and_COV]
    raise [TypeError] out of their loops, and neither writes a file or
    prints a line, whatever else the frame holds. *)
Theorem ambiguous_combination_raises (df : DataFrame) (dir : string) :
  unambiguous df = false ->
  generate_figure df dir
  = ([], Raise (TypeError "cannot convert the series to <class 'float'>")) /\
  forall v,
    compute_mean_and_COV v df dir
    = ([], Raise (TypeError "cannot convert the series to <class 'float'>")).
Proof.
  intros H. split.
  - unfold generate_figure, draw_figure, pbind, lift.
    rewrite (plot_levels_ambiguous df new_axes H). reflexivity.
  - intros v. unfold compute_mean_and_COV, cov_table, pbind, lift.
    rewrite (collect_midpoints_ambiguous df H). reflexivity.
Qed.

Lemma ambiguous_combination_raises_witness :
  generate_figure df_annotated_twice "/data"
  = ([], Raise (TypeError "cannot convert the series to <class 'float'>")) /\
  forall v,
    compute_mean_and_COV v df_annotated_twice "/data"
    = ([], Raise (TypeError "cannot convert the series to <class 'float'>")).
Proof.
  apply (ambiguous_combination_raises df_annotated_twice "/data").
  reflexivity.
Defined.

(** ** The shape of the table *)

Lemma filter_all {A : Type} (f : A -> bool) (l : list A) :
  (forall x, In x l -> f x = true) -> filter f l = l.
Proof.
  induction l as [|a t IH]; simpl; intros H; auto.
  rewrite H by auto. f_equal. apply IH. auto.
Qed.

Lemma filter_none {A : Type} (f : A -> bool) (l : list A) :
  (forall x, In x l -> f x = false) -> filter f l = [].
Proof.
  induction l as [|a t IH]; simpl; intros H; auto.
  rewrite H by auto. apply IH. auto.
Qed.

Lemma filter_twice {A : Type} (f g : A -> bool) (l : list A) :
  filter f (filter g l) = filter (fun x => g x && f x) l.
Proof.
  induction l as [|a t IH]; simpl; auto.
  destruct (g a); simpl; [destruct (f a)|]; simpl; congruence.
Qed.

Section UniqueFacts.
Context {A : Type} (eqb : A -> A -> bool).
Hypothesis eqb_eq : forall a b, eqb a b = true <-> a = b.

Lemma unique_by_NoDup (l : list A) : NoDup l -> unique_by eqb l = l.
Proof.
  induction 1 as [|a t Ha Ht IH]; simpl; auto.
  rewrite IH. f_equal. apply filter_all. intros x Hx.
  destruct (eqb x a) eqn:E; auto. apply eqb_eq in E. now subst.
Qed.

Lemma unique_by_app (l m : list A) :
  unique_by eqb (l ++ m)
  = unique_by eqb l
    ++ filter (fun y => negb (existsb (eqb y) l)) (unique_by eqb m).
Proof.
  induction l as [|a t IH]; simpl.
  - symmetry. apply filter_all. auto.
  - rewrite IH, filter_app, filter_twice. f_equal. f_equal.
    apply filter_ext. intros y.
    destruct (eqb y a), (existsb (eqb y) t); reflexivity.
Qed.

(** Values already seen add nothing. *)
Lemma unique_by_seen (l m : list A) :
  incl m l -> unique_by eqb (l ++ m) = unique_by eqb l.
Proof.
  intros H. rewrite unique_by_app, filter_none; [apply app_nil_r|].
  intros y Hy. apply (proj1 (in_unique_by eqb eqb_eq m y)) in Hy.
  apply negb_false_iff. apply existsb_exists. exists y. split.
  - apply H. exact Hy.
  - now apply eqb_eq.
Qed.

Lemma unique_by_repeat (k : A) (n : nat) :
  unique_by eqb (repeat k (S n)) = [k].
Proof.
  induction n as [|n IH]; [reflexivity|].
  change (unique_by eqb (repeat k (S (S n))))
    with (k :: filter (fun y => negb (eqb y k))
                      (unique_by eqb (repeat k (S n)))).
  rewrite IH. simpl. now rewrite (eqb_refl_true eqb eqb_eq).
Qed.

Lemma unique_by_blocks (ks : list A) (n : nat) :
  NoDup ks -> unique_by eqb (flat_map (fun k => repeat k (S n)) ks) = ks.
Proof.
  induction 1 as [|k t Hk Ht IH]; [reflexivity|].
  change (flat_map (fun k0 => repeat k0 (S n)) (k :: t))
    with (repeat k (S n) ++ flat_map (fun k0 => repeat k0 (S n)) t).
  rewrite unique_by_app, unique_by_repeat, IH. simpl app. f_equal.
  apply filter_all. intros y Hy.
  assert (E : existsb (eqb y) (repeat k (S n)) = false).
  { apply existsb_none. intros x Hx. apply repeat_spec in Hx. subst x.
    destruct (eqb y k) eqn:E; auto. apply eqb_eq in E. now subst. }
  apply negb_true_iff. exact E.
Qed.
End UniqueFacts.

Lemma flat_map_flat_map {A B C : Type} (g : B -> list C) (f : A -> list B)
  (l : list A) :
  flat_map g (flat_map f l) = flat_map (fun a => flat_map g (f a)) l.
Proof.
  induction l as [|a t IH]; simpl; auto. now rewrite flat_map_app, IH.
Qed.

Lemma flat_map_map {A B C : Type} (g : B -> list C) (f : A -> B)
  (l : list A) :
  flat_map g (map f l) = flat_map (fun a => g (f a)) l.
Proof. induction l as [|a t IH]; simpl; congruence. Qed.

Lemma entry_cols_block (df : DataFrame) (s r : string) (ls : list Z) :
  map entry_col (flat_map (fun l => [level_entry df s r l]) ls)
  = repeat (s, r) (List.length ls).
Proof.
  induction ls as [|l t IH]; simpl; auto.
  now rewrite entry_col_level_entry, IH.
Qed.

Lemma NoDup_grid_pairs : NoDup grid_pairs.
Proof.
  unfold grid_pairs. apply NoDup_flat_map; [apply NoDup_roster| |].
  - intros s _. apply NoDup_map_injective; [|apply NoDup_raters].
    intros a b H. now inversion H.
  - intros a b x Ha Hb.
    apply in_map_iff in Ha as (r1 & <- & _).
    apply in_map_iff in Hb as (r2 & H & _). now inversion H.
Qed.

(** The pivot has one column per grid pair, in loop order, as soon as a
    level is observed. *)
Lemma pivot_columns_grid (df : DataFrame) :
  levels df <> [] -> pivot_columns df = grid_pairs.
Proof.
  intros H. unfold pivot_columns.
  destruct (List.length (levels df)) as [|n] eqn:En.
  { destruct (levels df); [congruence|discriminate]. }
  rewrite <- (unique_by_blocks colkey_eqb colkey_eqb_eq grid_pairs n
                NoDup_grid_pairs).
  f_equal. unfold entries, grid_pairs.
  rewrite map_flat_map, flat_map_flat_map. apply flat_map_ext. intros s.
  rewrite map_flat_map, flat_map_map. apply flat_map_ext. intros r.
  now rewrite entry_cols_block, En.
Qed.

Lemma float_cells_keys (ks : list ColKey) (cs : Row) :
  float_cells ks cs -> map fst cs = ks.
Proof.
  induction 1 as [|k kc ks cs [Hk _] _ IH]; simpl; congruence.
Qed.

Lemma insert_sorted (x : Z) (l : list Z) :
  StronglySorted Z.lt l -> ~ In x l ->
  StronglySorted Z.lt (insert Z.leb x l).
Proof.
  induction 1 as [|y t Ht IH Hy]; intros Hx.
  - repeat constructor.
  - assert (Hxy : x <> y) by (intros ->; apply Hx; now left).
    assert (Hxt : ~ In x t) by (intros H; apply Hx; now right).
    simpl. destruct (Z.leb_spec x y).
    + assert (x < y)%Z by lia.
      constructor; [now constructor|]. constructor; auto.
      eapply Forall_impl; [|exact Hy]. simpl. intros; lia.
    + constructor; [now apply IH|].
      apply Forall_forall. intros z Hz.
      apply in_insert in Hz as [->|Hz]; [lia|].
      rewrite Forall_forall in Hy. auto.
Qed.

Lemma sort_sorted (l : list Z) :
  NoDup l -> StronglySorted Z.lt (sort Z.leb l).
Proof.
  induction 1 as [|x t Hx Ht IH]; simpl; [constructor|].
  apply insert_sorted; auto. now rewrite in_sort.
Qed.

Lemma csv_index (t : Table) : map fst (csv_rows (to_csv_table t)) = index t.
Proof.
  unfold to_csv_table, index; simpl. rewrite map_map. reflexivity.
Qed.

Lemma index_is_pivot_index (v : pandas_version) (df : DataFrame) (t : Table) :
  cov_table v df = Ok t -> index t = pivot_index df.
Proof.
  intros H. apply cov_table_shape in H as (_ & _ & G & _ & _ & Hr).
  unfold index. rewrite Hr, map_map. simpl. apply map_id.
Qed.

Lemma rendered_keys (r : Row) :
  map fst (map (fun kc : ColKey * cell => (fst kc, render (snd kc))) r)
  = map fst r.
Proof. induction r as [|kc t IH]; simpl; congruence. Qed.

Lemma pivot_row_labels (df : DataFrame) (l : Z) :
  map fst (pivot_row df l) = pivot_columns df.
Proof.
  unfold pivot_row. induction (pivot_columns df) as [|c t IH]; simpl;
    congruence.
Qed.

(** X3.  A written table has one line per distinct spinal level of the
    frame, in strictly increasing order of the level: its index labels are
    exactly the levels that occur in some row of the frame (also rows of
    subjects or raters outside the rosters), each once. *)
Theorem table_index_levels (v : pandas_version) (df : DataFrame)
  (dir p : string) (f : CsvTable) :
  In (WriteCsv p f) (fst (compute_mean_and_COV v df dir)) ->
  StronglySorted Z.lt (map fst (csv_rows f)) /\
  forall l, In l (map fst (csv_rows f)) <->
            exists m, In m df /\ spinal_level m = l.
Proof.
  intros Hev. apply compute_events in Hev as (t & Ht & ->).
  rewrite csv_index, (index_is_pivot_index v df t Ht). split.
  - unfold pivot_index. apply sort_sorted.
    apply (NoDup_unique_by Z.eqb Z.eqb_eq).
  - intros l. rewrite in_pivot_index. apply in_levels.
Qed.

Lemma table_index_levels_witness :
  exists f,
    compute_mean_and_COV Pandas1 df_with_outsider "/data"
    = ([WriteCsv (path_join "/data" fname_csv) f;
        Print ("Table saved to " ++ path_join "/data" fname_csv)], Ok tt) /\
    StronglySorted Z.lt (map fst (csv_rows f)) /\
    forall l, In l (map fst (csv_rows f)) <->
              exists m, In m df_with_outsider /\ spinal_level m = l.
Proof.
  destruct (cov_table Pandas1 df_with_outsider) as [t|e] eqn:E.
  - exists (to_csv_table t).
    pose proof (compute_ok Pandas1 df_with_outsider "/data" t E) as Hrun.
    split; [exact Hrun|].
    apply (table_index_levels Pandas1 df_with_outsider "/data"
             (path_join "/data" fname_csv) (to_csv_table t)).
    rewrite Hrun. simpl. auto.
  - vm_compute in E. discriminate.
Defined.

(** X4.  A written table always has the same 26 columns, whatever the
    data: one midpoint column for each of the 5 x 4 (subject, rater) pairs
    of the rosters, subject by subject in roster order and rater by rater
    within a subject, also for pairs without a single row; then the five
    COV columns in roster order; then [COV_mean].  Every line holds one
    field under each of these labels, in this order. *)
Theorem table_columns (v : pandas_version) (df : DataFrame)
  (dir p : string) (f : CsvTable) :
  In (WriteCsv p f) (fst (compute_mean_and_COV v df dir)) ->
  csv_header f
  = [ ("sub-barcelona01", "rater1"); ("sub-barcelona01", "rater2");
      ("sub-barcelona01", "rater3"); ("sub-barcelona01", "rater4");
      ("sub-brnoUhb03", "rater1"); ("sub-brnoUhb03", "rater2");
      ("sub-brnoUhb03", "rater3"); ("sub-brnoUhb03", "rater4");
      ("sub-amu02", "rater1"); ("sub-amu02", "rater2");
      ("sub-amu02", "rater3"); ("sub-amu02", "rater4");
      ("sub-007", "rater1"); ("sub-007", "rater2");
      ("sub-007", "rater3"); ("sub-007", "rater4");
      ("sub-010", "rater1"); ("sub-010", "rater2");
      ("sub-010", "rater3"); ("sub-010", "rater4");
      ("COV_sub-barcelona01", EmptyString);
      ("COV_sub-brnoUhb03", EmptyString);
      ("COV_sub-amu02", EmptyString);
      ("COV_sub-007", EmptyString);
      ("COV_sub-010", EmptyString);
      ("COV_mean", EmptyString) ] /\
  forall line, In line (csv_rows f) -> map fst (snd line) = csv_header f.
Proof.
  intros Hev. apply compute_events in Hev as (t & Ht & ->).
  apply cov_table_shape in Ht as (_ & Hl & G & HG & Hc & Hr).
  assert (Hcols : columns t = grid_pairs ++ cov_keys ++ [mean_key])
    by (now rewrite Hc, (pivot_columns_grid df Hl)).
  split.
  - simpl. rewrite Hcols. reflexivity.
  - intros line Hline. unfold to_csv_table in Hline.
    cbn [csv_rows] in Hline.
    apply in_map_iff in Hline as (lr & <- & Hlr).
    cbn [snd csv_header to_csv_table]. rewrite rendered_keys.
    rewrite Hr in Hlr. apply in_map_iff in Hlr as (l & <- & _).
    cbn [snd].
    rewrite !map_app, (float_cells_keys _ _ (HG (pivot_row df l))).
    rewrite pivot_row_labels, Hc. reflexivity.
Qed.

Lemma table_columns_witness :
  exists f,
    compute_mean_and_COV Pandas1 df_three_raters "/data"
    = ([WriteCsv (path_join "/data" fname_csv) f;
        Print ("Table saved to " ++ path_join "/data" fname_csv)], Ok tt) /\
    List.length (csv_header f) = 26%nat /\
    forall line, In line (csv_rows f) -> map fst (snd line) = csv_header f.
Proof.
  destruct (cov_table Pandas1 df_three_raters) as [t|e] eqn:E.
  - exists (to_csv_table t).
    pose proof (compute_ok Pandas1 df_three_raters "/data" t E) as Hrun.
    split; [exact Hrun|].
    destruct (table_columns Pandas1 df_three_raters "/data"
                (path_join "/data" fname_csv) (to_csv_table t)) as [Hh Hrows].
    + rewrite Hrun. simpl. auto.
    + split; [now rewrite Hh|exact Hrows].
  - vm_compute in E. discriminate.
Defined.

(** ** The COV columns, exactly *)

Lemma cov_cells_labels (t0 : Table) (ss : list string) (r : Row)
  (kc : ColKey * cell) :
  In kc (cov_cells_of t0 ss r) -> prefix "COV_" (fst (fst kc)) = true.
Proof.
  unfold cov_cells_of. intros H. apply in_map_iff in H as (s & <- & _).
  simpl. apply cov_label_prefix.
Qed.

(** COV columns already appended do not enter the block of a subject. *)
Lemma select_past_covs (t0 : Table) (ss : list string) (s : string) (r : Row) :
  prefix "COV_" s = false ->
  select s (r ++ cov_cells_of t0 ss r) = select s r.
Proof.
  intros Hs. rewrite select_app, (select_none s (cov_cells_of t0 ss r)).
  - apply app_nil_r.
  - intros kc Hkc E. apply cov_cells_labels in Hkc. congruence.
Qed.

Lemma holds_str_with_covs (t0 : Table) (ss : list string) (s : string) :
  prefix "COV_" s = false ->
  existsb (existsb is_str)
    (map (fun lr => select s (snd lr)) (rows (with_covs t0 ss)))
  = holds_str s t0.
Proof.
  intros Hs. unfold holds_str, with_covs. cbn [rows]. rewrite map_map.
  f_equal. apply map_ext. intros lr. cbn [snd].
  now apply select_past_covs.
Qed.

Lemma with_covs_nil (t0 : Table) : with_covs t0 [] = t0.
Proof.
  destruct t0 as [cols rws]. unfold with_covs, cov_cells_of. simpl.
  rewrite app_nil_r. f_equal.
  rewrite <- (map_id rws) at 2. apply map_ext.
  intros [l r]. simpl. now rewrite app_nil_r.
Qed.

Lemma with_covs_snoc (t0 : Table) (ss : list string) (s : string) :
  prefix "COV_" s = false ->
  mkTable (columns (with_covs t0 ss) ++ [cov_key s])
    (map (fun lr =>
            (fst lr,
             snd lr ++
             [(cov_key s,
               Num (cov_value
                      (existsb (existsb is_str)
                         (map (fun lr' => select s (snd lr'))
                              (rows (with_covs t0 ss))))
                      s (snd lr)))]))
         (rows (with_covs t0 ss)))
  = with_covs t0 (ss ++ [s]).
Proof.
  intros Hs. rewrite (holds_str_with_covs t0 ss s Hs).
  unfold with_covs. cbn [columns rows]. f_equal.
  - now rewrite map_app, app_assoc.
  - rewrite map_map. apply map_ext. intros lr. cbn [fst snd]. f_equal.
    assert (Hv : cov_value (holds_str s t0) s
                   (snd lr ++ cov_cells_of t0 ss (snd lr))
                 = cov_value (holds_str s t0) s (snd lr)).
    { unfold cov_value. now rewrite (select_past_covs t0 ss s _ Hs). }
    rewrite Hv, <- app_assoc. f_equal.
    unfold cov_cells_of. now rewrite map_app.
Qed.

Lemma add_cov_step (v : pandas_version) (t0 t' : Table) (ss : list string)
  (s : string) :
  prefix "COV_" s = false ->
  add_cov v s (with_covs t0 ss) = Ok t' ->
  t' = with_covs t0 (ss ++ [s]).
Proof.
  intros Hs H. apply add_cov_shape in H. rewrite H.
  now apply with_covs_snoc.
Qed.

Lemma add_covs_exact (v : pandas_version) (t0 : Table) (ss : list string) :
  (forall s, In s ss -> prefix "COV_" s = false) ->
  forall done t',
    for_each (add_cov v) ss (with_covs t0 done) = Ok t' ->
    t' = with_covs t0 (done ++ ss).
Proof.
  induction ss as [|s ss IH]; simpl; intros Hss done t' H.
  - inversion H. now rewrite app_nil_r.
  - destruct (add_cov v s (with_covs t0 done)) as [t1|e] eqn:E;
      simpl in H; [|discriminate].
    apply add_cov_step in E; [|apply Hss; now left]. subst t1.
    apply IH in H; [|intros s' Hs'; apply Hss; now right].
    now rewrite <- app_assoc in H.
Qed.

(** What [add_cov] does on a table that has the subject's columns. *)
Lemma add_cov_outcome (v : pandas_version) (s : string) (t : Table) :
  existsb (fun c => fst c =? s) (columns t) = true ->
  (existsb (existsb is_str) (map (fun lr => select s (snd lr)) (rows t))
   = true ->
   v = Pandas2 ->
   add_cov v s t
   = Raise (TypeError "could not convert string to float: 'n/a'")) /\
  (existsb (existsb is_str) (map (fun lr => select s (snd lr)) (rows t))
   = false \/ v = Pandas1 ->
   exists t', add_cov v s t = Ok t').
Proof.
  intros Hc. unfold add_cov, getitem. rewrite Hc. cbn [bind].
  unfold reduce_rows.
  destruct (existsb (existsb is_str) _); destruct v; cbn [bind]; split;
    try (intros; reflexivity); try (intros; eauto; fail);
    try discriminate; intros [H|H]; try discriminate; eauto.
Qed.

Lemma has_column_with_covs (t0 : Table) (ss : list string) (s : string) :
  existsb (fun c => fst c =? s) (columns t0) = true ->
  existsb (fun c => fst c =? s) (columns (with_covs t0 ss)) = true.
Proof.
  intros H. unfold with_covs. cbn [columns]. rewrite existsb_app.
  apply orb_true_iff. left. exact H.
Qed.

Lemma add_covs_run (v : pandas_version) (t0 : Table) (ss : list string) :
  (forall s, In s ss ->
     prefix "COV_" s = false /\
     existsb (fun c => fst c =? s) (columns t0) = true /\
     (holds_str s t0 = false \/ v = Pandas1)) ->
  forall done,
    for_each (add_cov v) ss (with_covs t0 done)
    = Ok (with_covs t0 (done ++ ss)).
Proof.
  induction ss as [|s ss IH]; simpl; intros Hss done.
  - now rewrite app_nil_r.
  - destruct (Hss s (or_introl eq_refl)) as (Hp & Hc & Hok).
    destruct (add_cov_outcome v s (with_covs t0 done)
                (has_column_with_covs t0 done s Hc)) as [_ Hrun].
    rewrite (holds_str_with_covs t0 done s Hp) in Hrun.
    destruct (Hrun Hok) as [t1 E]. rewrite E. cbn [bind].
    apply add_cov_step in E; auto. subst t1.
    rewrite IH by (intros s' Hs'; apply Hss; now right).
    now rewrite <- app_assoc.
Qed.

Lemma add_covs_refuse (t0 : Table) (ss : list string) :
  (forall s, In s ss ->
     prefix "COV_" s = false /\
     existsb (fun c => fst c =? s) (columns t0) = true) ->
  (exists s, In s ss /\ holds_str s t0 = true) ->
  forall done,
    for_each (add_cov Pandas2) ss (with_covs t0 done)
    = Raise (TypeError "could not convert string to float: 'n/a'").
Proof.
  induction ss as [|s ss IH]; simpl; intros Hss (s0 & Hs0 & Hstr) done;
    [tauto|].
  destruct (Hss s (or_introl eq_refl)) as (Hp & Hc).
  destruct (add_cov_outcome Pandas2 s (with_covs t0 done)
              (has_column_with_covs t0 done s Hc)) as [Hraise Hrun].
  rewrite (holds_str_with_covs t0 done s Hp) in Hraise, Hrun.
  destruct (holds_str s t0) eqn:E.
  - rewrite Hraise by auto. reflexivity.
  - destruct (Hrun (or_introl eq_refl)) as [t1 E1]. rewrite E1. cbn [bind].
    apply add_cov_step in E1; auto. subst t1.
    apply IH.
    + intros s' Hs'. apply Hss. now right.
    + destruct Hs0 as [<-|Hs0]; [congruence|]. eauto.
Qed.
